(** * recursivist.compare: directory comparison and differential rendering

    A shallow embedding of [recursivist/compare.py] and the properties of
    its comparison, rendering and export functions.

    Python [str] values are modelled as [string]s holding their UTF-8
    encoding; a Python [set] of strings as [gset string]; a [dict] from
    strings as a [gmap]; the file system as a map from paths to contents. *)

From Stdlib Require Import String Ascii ZArith Lia.
From stdpp Require Import gmap strings list fin_maps sorting.

Set Warnings "-register-all".

Open Scope Z_scope.

(** ** Python string primitives *)

Module Py.

(** The quotation mark, the line feed and the characters the code tests. *)
Definition dquote : string := String (ascii_of_nat 34) EmptyString.
Definition squote : string := String (ascii_of_nat 39) EmptyString.
Definition nl : string := String (ascii_of_nat 10) EmptyString.
Definition dot : ascii := ascii_of_nat 46.
Definition slash : ascii := ascii_of_nat 47.

(** [len(s)]: Python counts code points; in UTF-8 these are the bytes that
    are not continuation bytes [10xxxxxx]. *)
Definition is_continuation (a : ascii) : bool :=
  Z.land (Z.of_nat (nat_of_ascii a)) 192 =? 128.

Fixpoint len (s : string) : Z :=
  match s with
  | EmptyString => 0
  | String a s' => (if is_continuation a then 0 else 1) + len s'
  end.

(** [c * n] for a one-character string [c]. *)
Definition repeat_str (c : string) (n : nat) : string :=
  String.concat "" (replicate n c).

(** [f"{s:<{width}}"]: left-justify [s] in a field of [width] code points,
    filling with spaces; a longer [s] is kept whole. *)
Definition ljust (s : string) (width : Z) : string :=
  s +:+ repeat_str " " (Z.to_nat (width - len s)).

(** [sep.join(l)] *)
Definition join (sep : string) (l : list string) : string := String.concat sep l.

(** [s.startswith(p)] *)
Definition startswith (p s : string) : bool := String.prefix p s.

(** [str.lower()] is a builtin that follows the Unicode case mapping of
    the interpreter. It is a parameter of the development: the functions
    that call it take it as [Py.lower], and a property of it that a
    theorem needs is a hypothesis of that theorem. *)
Class Lower := lower : string → string.

(** What [str.lower()] does on a string of ASCII characters: the letters
    [A] to [Z] become [a] to [z], every other character is kept. *)
Definition lower_ascii (a : ascii) : ascii :=
  let n := nat_of_ascii a in
  if ((65 <=? n) && (n <=? 90))%nat then ascii_of_nat (n + 32) else a.

Fixpoint ascii_lower (s : string) : string :=
  match s with
  | EmptyString => EmptyString
  | String a s' => String (lower_ascii a) (ascii_lower s')
  end.

(** [s.isascii()]: every character is below 128. *)
Fixpoint is_ascii (s : string) : bool :=
  match s with
  | EmptyString => true
  | String a s' => (nat_of_ascii a <? 128)%nat && is_ascii s'
  end.

(** [s.rfind(c)]: the index of the last occurrence of [c], or [-1]. *)
Fixpoint rfind_from (c : ascii) (s : string) (i : Z) : Z :=
  match s with
  | EmptyString => -1
  | String a s' =>
      let r := rfind_from c s' (i + 1) in
      if 0 <=? r then r else if Ascii.eqb a c then i else -1
  end.

Definition rfind (c : ascii) (s : string) : Z := rfind_from c s 0.

(** [s[i:]] and [s[:i]] for [0 <= i]. *)
Fixpoint drop_str (n : nat) (s : string) : string :=
  match n, s with
  | O, _ => s
  | S n', String _ s' => drop_str n' s'
  | S _, EmptyString => EmptyString
  end.

Fixpoint take_str (n : nat) (s : string) : string :=
  match n, s with
  | S n', String a s' => String a (take_str n' s')
  | _, _ => EmptyString
  end.

(** [s[i:i+1] != "."] *)
Definition not_dot_at (s : string) (i : Z) : bool :=
  match String.get (Z.to_nat i) s with
  | Some a => negb (Ascii.eqb a dot)
  | None => true
  end.

(** The [while filenameIndex < dotIndex] loop of [genericpath._splitext]:
    whether some character of [p[filenameIndex:dotIndex]] is not a dot. *)
Fixpoint splitext_scan (p : string) (filenameIndex : Z) (steps : nat) : bool :=
  match steps with
  | O => false
  | S steps' =>
      if not_dot_at p filenameIndex then true
      else splitext_scan p (filenameIndex + 1) steps'
  end.

(** [os.path.splitext(p)] (POSIX): the extension starts at the last dot of
    the last path component, leading dots of that component not counting. *)
Definition splitext (p : string) : string * string :=
  let sepIndex := rfind slash p in
  let dotIndex := rfind dot p in
  if (sepIndex <? dotIndex)
     && splitext_scan p (sepIndex + 1) (Z.to_nat (dotIndex - (sepIndex + 1)))
  then (take_str (Z.to_nat dotIndex) p, drop_str (Z.to_nat dotIndex) p)
  else (p, EmptyString).

(** [os.path.basename(p)] (POSIX): what follows the last slash. *)
Definition basename (p : string) : string :=
  drop_str (Z.to_nat (rfind slash p + 1)) p.

(** [html.escape(s)] with [quote=True]. *)
Definition escape_char (a : ascii) : string :=
  let c := String a EmptyString in
  if String.eqb c "&" then "&amp;"
  else if String.eqb c "<" then "&lt;"
  else if String.eqb c ">" then "&gt;"
  else if String.eqb c dquote then "&quot;"
  else if String.eqb c squote then "&#x27;"
  else c.

Fixpoint escape (s : string) : string :=
  match s with
  | EmptyString => EmptyString
  | String a s' => escape_char a +:+ escape s'
  end.

(** [str.capitalize()] on ASCII: first letter upper case, the rest lower. *)
Definition upper_ascii (a : ascii) : ascii :=
  let n := nat_of_ascii a in
  if ((97 <=? n) && (n <=? 122))%nat then ascii_of_nat (n - 32) else a.

Definition capitalize (s : string) : string :=
  match s with
  | EmptyString => EmptyString
  | String a s' => String (upper_ascii a) (ascii_lower s')
  end.

End Py.

(** ** Data model *)

(** A directory structure is the dict built by the structure builder: the
    key [_files], when present, holds the list of file names of the
    directory, and every other key is a subdirectory name holding that
    subdirectory's structure. [files s = Some l] says that the dict has the
    key [_files] bound to [l]; [dirs s] holds the other keys. *)
Inductive structure : Type :=
  Structure (files : option (list string)) (dirs : gmap string structure).

Definition files (s : structure) : option (list string) :=
  let 'Structure f _ := s in f.
Definition dirs (s : structure) : gmap string structure :=
  let 'Structure _ d := s in d.

(** The empty dict [{}]. *)
Definition empty_structure : structure := Structure None ∅.

(** A value stored in a structure: the file list or a nested structure. *)
Inductive value : Type :=
  | VList (l : list string)
  | VDict (s : structure).

Definition FILES : string := "_files".

(** [key in s], [s.get(key)], [s.items()] and [s.keys()]. A key [_files]
    among [dirs s] denotes no entry of the dict: [_files] is the file list. *)
Definition py_get (s : structure) (key : string) : option value :=
  if decide (key = FILES) then VList <$> files s else VDict <$> dirs s !! key.

Definition py_in (key : string) (s : structure) : bool :=
  bool_decide (is_Some (py_get s key)).

Definition py_items (s : structure) : list (string * value) :=
  match files s with Some l => [(FILES, VList l)] | None => [] end
  ++ ((λ kv, (kv.1, VDict kv.2)) <$>
        filter (λ kv, kv.1 ≠ FILES) (map_to_list (dirs s))).

Definition py_keys (s : structure) : list string := (py_items s).*1.

(** Truth value of a dict: it is not empty. *)
Definition truthy (s : structure) : bool :=
  negb (bool_decide (py_items s = [])).

(** [s.get("_files", [])] and [s.get(folder, {})]. *)
Definition get_files (s : structure) : list string :=
  match py_get s FILES with Some (VList l) => l | _ => [] end.

Definition get_dir (s : structure) (folder : string) : structure :=
  match py_get s folder with Some (VDict c) => c | _ => empty_structure end.

(** [sorted] on strings and on items: Python orders strings by code point,
    which on UTF-8 is the order of the bytes. Keys of a dict are distinct,
    so the order of items is the order of their keys. *)
Definition str_le (a b : string) : Prop := String.leb a b = true.
Definition item_le {A} (x y : string * A) : Prop := str_le x.1 y.1.

Global Instance str_le_dec a b : Decision (str_le a b).
Proof. unfold str_le. apply _. Defined.
Global Instance item_le_dec {A} (x y : string * A) : Decision (item_le x y).
Proof. unfold item_le. apply _. Defined.

Definition sorted_items (s : structure) : list (string * value) :=
  merge_sort item_le (py_items s).
Definition sorted_keys (s : structure) : list string :=
  merge_sort str_le (py_keys s).

(** Nesting depth, the measure of the recursions below. *)
Fixpoint height (s : structure) : nat :=
  match s with
  | Structure _ d => S (map_fold (λ _ c acc, Nat.max (height c) acc) 0%nat d)
  end.

(** ** The tree widget (rich.tree.Tree with rich.text.Text labels) *)

(** A label: its text and its style definition; a [str] label has the
    empty style. *)
Record Text : Type := mkText { plain : string; style : string }.

Inductive Tree : Type := Node (label : Text) (children : list Tree).

Definition label (t : Tree) : Text := let 'Node l _ := t in l.
Definition children (t : Tree) : list Tree := let 'Node _ c := t in c.

(** [tree.add(...)]: the node built for the label is appended to the
    children; [subtree] is that node once the calls on it are done. *)
Definition add (tree subtree : Tree) : Tree :=
  Node (label tree) (children tree ++ [subtree]).

Definition leaf (l : Text) : Tree := Node l [].

Definition FILE_ICON : string := "📄 ".
Definition FOLDER_ICON : string := "📁 ".
Definition ROOT_ICON : string := "📂 ".
Definition DEFAULT_COLOR : string := "#FFFFFF".

(** A [for] loop whose body may call a recursive function or raise: the
    loop state is threaded through the iterations, [None] ending the loop. *)
Fixpoint for_each {S A} (body : S → A → option S) (l : list A)
    (state : S) : option S :=
  match l with
  | [] => Some state
  | x :: l' =>
      match body state x with
      | Some state' => for_each body l' state'
      | None => None
      end
  end.

(** [enumerate(l)] *)
Definition enumerate {A} (l : list A) : list (Z * A) :=
  zip (Z.of_nat <$> seq 0 (length l)) l.

(** [len(l)] of a list. *)
Definition llen {A} (l : list A) : Z := Z.of_nat (length l).

(** ** [build_comparison_tree] *)

Section Renderer.

Context {str_lower : Py.Lower}.

(** [recursivist.core.sort_files_by_type]: the order in which the files of
    one directory are listed. *)
Variable sort_files_by_type : list string → list string.

(** [color_map.get(ext, "#FFFFFF")] for
    [ext = os.path.splitext(file)[1].lower()]. *)
Definition file_color (color_map : gmap string string) (file : string) : string :=
  let ext := Py.lower (Py.splitext file).2 in
  default DEFAULT_COLOR (color_map !! ext).

(** The signature of [build_comparison_tree], the tree argument being
    returned as the call leaves it. *)
Definition renderer : Type :=
  structure → structure → Tree → gmap string string → option Tree.

(** The body of [build_comparison_tree]; [self] stands for the function in
    its two recursive calls. *)
Definition build_comparison_tree_body (self : renderer)
    (structure other_structure : structure) (tree : Tree)
    (color_map : gmap string string) : option Tree :=
  (* if "_files" in structure: *)
  let tree :=
    if py_in FILES structure then
      let files_in_other :=
        if truthy other_structure then get_files other_structure else [] in
      foldl (λ tree file,
               let color := file_color color_map file in
               if bool_decide (file ∉ files_in_other)
               then add tree (leaf (mkText (FILE_ICON +:+ file) (color +:+ " on green")))
               else add tree (leaf (mkText (FILE_ICON +:+ file) color)))
            tree (sort_files_by_type (get_files structure))
    else tree in
  (* for folder, content in sorted(structure.items()): *)
  tree ← for_each (λ tree item,
      let '(folder, content) := item in
      if bool_decide (folder ≠ FILES) then
        let other_content :=
          if truthy other_structure then get_dir other_structure folder
          else empty_structure in
        let subtree :=
          if negb (py_in folder other_structure)
          then leaf (mkText (FOLDER_ICON +:+ folder) "green")
          else leaf (mkText (FOLDER_ICON +:+ folder) "") in
        match content with
        | VDict content =>
            subtree ← self content other_content subtree color_map;
            Some (add tree subtree)
        | VList _ => None (* a list has no [items]; no key but [_files] holds one *)
        end
      else Some tree) (sorted_items structure) tree;
  (* if other_structure and "_files" in other_structure: *)
  let tree :=
    if truthy other_structure && py_in FILES other_structure then
      let files_in_this := get_files structure in
      foldl (λ tree file,
               if bool_decide (file ∉ files_in_this) then
                 let color := file_color color_map file in
                 add tree (leaf (mkText (FILE_ICON +:+ file) (color +:+ " on red")))
               else tree)
            tree (sort_files_by_type (get_files other_structure))
    else tree in
  (* if other_structure: for folder in sorted(other_structure.keys()): *)
  if truthy other_structure then
    for_each (λ tree folder,
        if bool_decide (folder ≠ FILES) && negb (py_in folder structure) then
          let subtree := leaf (mkText (FOLDER_ICON +:+ folder) "red") in
          subtree ← self empty_structure (get_dir other_structure folder)
                      subtree color_map;
          Some (add tree subtree)
        else Some tree) (sorted_keys other_structure) tree
  else Some tree.

(** The recursion, by the number of nested calls still allowed: [None] when
    they do not suffice. *)
Fixpoint build_comparison_tree_rec (fuel : nat) : renderer :=
  match fuel with
  | O => λ _ _ _ _, None
  | S fuel' => build_comparison_tree_body (build_comparison_tree_rec fuel')
  end.

(** [build_comparison_tree(structure, other_structure, tree, color_map)]:
    the tree after the call. The nested calls never outnumber the two
    depths (lemma [build_comparison_tree_rec_enough]). *)
Definition build_comparison_tree (structure other_structure : structure)
    (tree : Tree) (color_map : gmap string string) : Tree :=
  default tree
    (build_comparison_tree_rec (height structure + height other_structure)
       structure other_structure tree color_map).

End Renderer.

(** ** Reading a rendered tree *)

(** How an entry is tagged in a rendered tree. *)
Inductive kind : Type := File | Folder.
Inductive mark : Type := OnlyHere | OnlyThere | Common.

Global Instance kind_eq_dec : EqDecision kind.
Proof. solve_decision. Defined.
Global Instance mark_eq_dec : EqDecision mark.
Proof. solve_decision. Defined.

(** [strip_prefix p s = Some r] when [s] is [p] followed by [r]. *)
Fixpoint strip_prefix (p s : string) : option string :=
  match p, s with
  | EmptyString, _ => Some s
  | String a p', String b s' =>
      if Ascii.eqb a b then strip_prefix p' s' else None
  | String _ _, EmptyString => None
  end.

(** The entry a node shows: a folder is green when only here, red when only
    there and unstyled when common; a file has its extension colour, on
    green when only here, on red when only there and alone when common. *)
Definition entry_of {str_lower : Py.Lower}
    (color_map : gmap string string) (t : Text)
    : option (kind * string * mark) :=
  match strip_prefix FOLDER_ICON (plain t) with
  | Some folder =>
      if String.eqb (style t) "green" then Some (Folder, folder, OnlyHere)
      else if String.eqb (style t) "red" then Some (Folder, folder, OnlyThere)
      else if String.eqb (style t) "" then Some (Folder, folder, Common)
      else None
  | None =>
      match strip_prefix FILE_ICON (plain t) with
      | Some file =>
          let color := file_color color_map file in
          if String.eqb (style t) (color +:+ " on green")
          then Some (File, file, OnlyHere)
          else if String.eqb (style t) (color +:+ " on red")
          then Some (File, file, OnlyThere)
          else if String.eqb (style t) color then Some (File, file, Common)
          else None
      | None => None
      end
  end.

(** The labels of the nodes shown under the folders [path], from the root
    of a tree. *)
Fixpoint nodes_at (t : Tree) (path : list string) {struct path} : list Text :=
  match path with
  | [] => label <$> children t
  | d :: path' =>
      c ← children t;
      if decide (plain (label c) = FOLDER_ICON +:+ d) then nodes_at c path'
      else []
  end.

(** The entries shown at [path], with their marks. *)
Definition entries_at {str_lower : Py.Lower}
    (color_map : gmap string string) (t : Tree)
    (path : list string) : list (kind * string * mark) :=
  omap (entry_of color_map) (nodes_at t path).

(** [s] has the subdirectory [folder]. *)
Definition has_dir (s : structure) (folder : string) : bool :=
  match py_get s folder with Some (VDict _) => true | _ => false end.

(** The entry [name] of kind [k] exists in [s] under the folders [path]. *)
Fixpoint present (s : structure) (path : list string) (k : kind)
    (name : string) : bool :=
  match path with
  | [] =>
      match k with
      | File => bool_decide (name ∈ get_files s)
      | Folder => has_dir s name
      end
  | d :: path' => present (get_dir s d) path' k name
  end.

(** The entry [name] of kind [k] under the folders [path] carries the mark
    [m] in the tree [t]. *)
Definition marked {str_lower : Py.Lower}
    (color_map : gmap string string) (t : Tree) (m : mark)
    (path : list string) (k : kind) (name : string) : Prop :=
  (k, name, m) ∈ entries_at color_map t path.

(** The label that the renderer gives to an entry with a mark. *)
Definition node_of {str_lower : Py.Lower}
    (color_map : gmap string string) (k : kind)
    (name : string) (m : mark) : Text :=
  match k, m with
  | File, OnlyHere =>
      mkText (FILE_ICON +:+ name) (file_color color_map name +:+ " on green")
  | File, OnlyThere =>
      mkText (FILE_ICON +:+ name) (file_color color_map name +:+ " on red")
  | File, Common => mkText (FILE_ICON +:+ name) (file_color color_map name)
  | Folder, OnlyHere => mkText (FOLDER_ICON +:+ name) "green"
  | Folder, OnlyThere => mkText (FOLDER_ICON +:+ name) "red"
  | Folder, Common => mkText (FOLDER_ICON +:+ name) ""
  end.

(** The mark of an entry, from its presence on this side and on the other
    side. *)
Definition classify (here there : bool) : option mark :=
  match here, there with
  | true, false => Some OnlyHere
  | false, true => Some OnlyThere
  | true, true => Some Common
  | false, false => None
  end.

(** ** The children one call appends *)

Section Appended.

Context {str_lower : Py.Lower}.

Variable sort_files_by_type : list string → list string.
Variables (structure other_structure : structure).
Variable color_map : gmap string string.

(** The files of [structure], on green when missing in the other side. *)
Definition here_files : list Tree :=
  if py_in FILES structure then
    (λ file,
       leaf (mkText (FILE_ICON +:+ file)
               (if bool_decide (file ∉ get_files other_structure)
                then (file_color color_map file +:+ " on green")
                else file_color color_map file)))
      <$> sort_files_by_type (get_files structure)
  else [].

(** The subdirectories of [structure], each rendered against the
    subdirectory of the same name on the other side. *)
Definition here_dirs : list Tree :=
  omap (λ item : string * value,
          match item.2 with
          | VDict content =>
              if bool_decide (item.1 ≠ FILES) then
                Some (build_comparison_tree sort_files_by_type content
                        (get_dir other_structure item.1)
                        (leaf (mkText (FOLDER_ICON +:+ item.1)
                                 (if py_in item.1 other_structure
                                  then "" else "green")))
                        color_map)
              else None
          | VList _ => None
          end) (sorted_items structure).

(** The files of the other side that are missing here, on red. *)
Definition there_files : list Tree :=
  if py_in FILES other_structure then
    omap (λ file,
            if bool_decide (file ∉ get_files structure)
            then Some (leaf (mkText (FILE_ICON +:+ file)
                               (file_color color_map file +:+ " on red")))
            else None)
         (sort_files_by_type (get_files other_structure))
  else [].

(** The subdirectories of the other side that are missing here, in red. *)
Definition there_dirs : list Tree :=
  omap (λ folder,
          if bool_decide (folder ≠ FILES) && negb (py_in folder structure)
          then Some (build_comparison_tree sort_files_by_type empty_structure
                       (get_dir other_structure folder)
                       (leaf (mkText (FOLDER_ICON +:+ folder) "red"))
                       color_map)
          else None)
       (sorted_keys other_structure).

Definition appended : list Tree :=
  here_files ++ here_dirs ++ there_files ++ there_dirs.

End Appended.

(** ** Dict equality *)

(** [a == b] on structures, as Python compares dicts: the same number of
    items, and every key of [a] bound in [b] to an equal value; lists are
    equal when they hold the same strings in the same order. *)
Definition py_eq_body (self : structure → structure → option bool)
    (a b : structure) : option bool :=
  if negb (llen (py_items a) =? llen (py_items b)) then Some false
  else
    for_each (λ (acc : bool) item,
        let '(key, va) := item in
        if negb acc then Some false
        else match py_get b key, va with
             | Some (VList lb), VList la => Some (bool_decide (la = lb))
             | Some (VDict cb), VDict ca => self ca cb
             | _, _ => Some false
             end) (py_items a) true.

Fixpoint py_eq_rec (fuel : nat) : structure → structure → option bool :=
  match fuel with
  | O => λ _ _, None
  | S fuel' => py_eq_body (py_eq_rec fuel')
  end.

Definition py_eq (a b : structure) : bool :=
  default false (py_eq_rec (height a) a b).

(** ** Export data *)

(** The file system: the contents of the regular files, by path. *)
Abbreviation filesystem := (gmap string string).

(** [comparison_data["dir1"]] and [comparison_data["dir2"]] *)
Record side : Type := mkSide {
  path : string;
  name : string;
  structure_of : structure
}.

(** [comparison_data["metadata"]] *)
Record metadata_t : Type := mkMetadata {
  exclude_patterns : list string;
  include_patterns : list string;
  pattern_type : string
}.

Record comparison_data : Type := mkComparisonData {
  dir1 : side;
  dir2 : side;
  metadata : metadata_t
}.

(** One item of [a] against the dict [b]: the key is in [b] with an equal
    value. *)
Definition item_eq (b : structure) (item : string * value) : bool :=
  match py_get b item.1, item.2 with
  | Some (VList lb), VList la => bool_decide (la = lb)
  | Some (VDict cb), VDict ca => py_eq ca cb
  | _, _ => false
  end.

(** The same for a key of [a]. *)
Definition key_eq (a b : structure) (key : string) : bool :=
  match py_get a key with
  | Some v => item_eq b (key, v)
  | None => true
  end.

(** ** Text export *)

Section TextExport.

Variable sort_files_by_type : list string → list string.

(** The body of [_build_txt_tree]; [self] is the recursive call. *)
Definition build_txt_tree_body
    (self : structure → string → bool → option (list string))
    (structure : structure) (prefix : string) (is_last : bool)
    : option (list string) :=
  let lines : list string := [] in
  let items := sorted_items structure in
  lines ← for_each (λ lines entry,
      let '(i, (name, content)) := entry in
      if bool_decide (name = FILES) then Some lines (* continue *)
      else
        let is_last_item :=
          (i =? llen items - 1)
          || ((i =? llen items - 2) && py_in FILES structure) in
        let '(lines, new_prefix) :=
          if is_last_item
          then (lines ++ [prefix +:+ "└── 📁 " +:+ name], prefix +:+ "    ")
          else (lines ++ [prefix +:+ "├── 📁 " +:+ name], prefix +:+ "│   ") in
        match content with
        | VDict content =>
            sub ← self content new_prefix is_last_item;
            Some (lines ++ sub)
        | VList _ => Some lines (* not a dict *)
        end) (enumerate items) lines;
  let lines :=
    if py_in FILES structure then
      let files := sort_files_by_type (get_files structure) in
      foldl (λ lines entry,
               let '(i, file) := entry in
               let is_last_file := i =? llen files - 1 in
               if is_last_file
               then lines ++ [prefix +:+ "└── 📄 " +:+ file]
               else lines ++ [prefix +:+ "├── 📄 " +:+ file])
            lines (enumerate files)
    else lines in
  Some lines.

Fixpoint build_txt_tree_rec (fuel : nat)
    : structure → string → bool → option (list string) :=
  match fuel with
  | O => λ _ _ _, None
  | S fuel' => build_txt_tree_body (build_txt_tree_rec fuel')
  end.

(** [_build_txt_tree(structure, prefix, is_last)] *)
Definition build_txt_tree (structure : structure) (prefix : string)
    (is_last : bool) : list string :=
  default [] (build_txt_tree_rec (height structure) structure prefix is_last).

(** [max(len(line) for line in lines)]; the list holds the root line. *)
Definition max_len (lines : list string) : Z :=
  match Py.len <$> lines with
  | [] => 0
  | n :: ns => foldl Z.max n ns
  end.

(** The header of the text export, up to the closing rule. *)
Definition txt_header (comparison_data : comparison_data) : list string :=
  let combined_lines := ["Directory Comparison:"] in
  let combined_lines := combined_lines ++ [Py.repeat_str "=" 80] in
  let combined_lines :=
    combined_lines ++ ["Left: " +:+ path (dir1 comparison_data)] in
  let combined_lines :=
    combined_lines ++ ["Right: " +:+ path (dir2 comparison_data)] in
  let metadata := metadata comparison_data in
  let combined_lines :=
    if negb (bool_decide (exclude_patterns metadata = []))
       || negb (bool_decide (include_patterns metadata = []))
    then
      let combined_lines := combined_lines ++ [Py.repeat_str "-" 80] in
      let pattern_type := pattern_type metadata in
      let combined_lines :=
        if negb (bool_decide (exclude_patterns metadata = []))
        then combined_lines ++
             ["Exclude " +:+ pattern_type +:+ " patterns: "
                +:+ Py.join ", " (exclude_patterns metadata)]
        else combined_lines in
      if negb (bool_decide (include_patterns metadata = []))
      then combined_lines ++
           ["Include " +:+ pattern_type +:+ " patterns: "
              +:+ Py.join ", " (include_patterns metadata)]
      else combined_lines
    else combined_lines in
  combined_lines ++ [Py.repeat_str "=" 80].

(** What [_export_comparison_to_txt] writes. *)
Definition txt_document (comparison_data : comparison_data) : string :=
  let dir1_name := name (dir1 comparison_data) in
  let dir2_name := name (dir2 comparison_data) in
  let dir1_structure := structure_of (dir1 comparison_data) in
  let dir2_structure := structure_of (dir2 comparison_data) in
  let dir1_lines := [ROOT_ICON +:+ dir1_name] ++ build_txt_tree dir1_structure "" true in
  let dir2_lines := [ROOT_ICON +:+ dir2_name] ++ build_txt_tree dir2_structure "" true in
  let max_width := max_len dir1_lines + 4 in
  let combined_lines := txt_header comparison_data in
  let combined_lines :=
    foldl (λ combined_lines i,
             let left := default "" (dir1_lines !! i) in
             let right := default "" (dir2_lines !! i) in
             combined_lines ++ [Py.ljust left max_width +:+ " | " +:+ right])
          combined_lines
          (seq 0 (Nat.max (length dir1_lines) (length dir2_lines))) in
  Py.join Py.nl combined_lines.

(** [_export_comparison_to_txt(comparison_data, output_path)]: the file at
    [output_path] is opened for writing and receives the document. This is
    the file system after a call whose [open] succeeds; an [open] that
    fails raises [OSError] before anything is written, and is not part of
    the model. *)
Definition export_comparison_to_txt (comparison_data : comparison_data)
    (output_path : string) (fs : filesystem) : filesystem :=
  <[output_path := txt_document comparison_data]> fs.

End TextExport.

(** ** The lines one call of [_build_txt_tree] gives *)

Section TxtLines.

Variable sort_files_by_type : list string → list string.

(** The line of a subdirectory and the lines of its own tree. *)
Definition dir_lines (structure : structure) (prefix : string)
    (entry : Z * (string * value)) : list string :=
  let '(i, (name, content)) := entry in
  let items := sorted_items structure in
  if bool_decide (name = FILES) then []
  else
    let is_last_item :=
      (i =? llen items - 1)
      || ((i =? llen items - 2) && py_in FILES structure) in
    let connector := if is_last_item then "└── 📁 " else "├── 📁 " in
    let new_prefix := prefix +:+ (if is_last_item then "    " else "│   ") in
    [prefix +:+ connector +:+ name]
    ++ match content with
       | VDict content =>
           build_txt_tree sort_files_by_type content new_prefix is_last_item
       | VList _ => []
       end.

(** The lines of the files. *)
Definition file_lines (structure : structure) (prefix : string) : list string :=
  if py_in FILES structure then
    let files := sort_files_by_type (get_files structure) in
    (λ entry : Z * string,
       prefix +:+ (if entry.1 =? llen files - 1 then "└── 📄 " else "├── 📄 ")
       +:+ entry.2) <$> enumerate files
  else [].

End TxtLines.

(** The number of entries of a structure: the files and the
    subdirectories at every depth. *)
Fixpoint entry_count (s : structure) : nat :=
  match s with
  | Structure f d =>
      (length (default [] f)
       + map_fold (λ k c acc,
                     if bool_decide (k = FILES) then acc
                     else S (entry_count c + acc)) 0 d)%nat
  end.

(** The entries that one item of a dict stands for: a subdirectory and its
    own entries. *)
Definition item_count (item : string * value) : nat :=
  match item.2 with
  | VDict c => if bool_decide (item.1 = FILES) then 0%nat else S (entry_count c)
  | VList _ => 0%nat
  end.

(** ** The layout of the text export, as the specification words it *)

Section TextLayout.

Variable sort_files_by_type : list string → list string.

(** The rule of 80 characters. *)
Definition rule (c : string) : string := Py.repeat_str c 80.

(** The pattern block: present only when exclude or include patterns were
    supplied; it names the pattern type and the patterns. *)
Definition pattern_block (m : metadata_t) : list string :=
  match exclude_patterns m, include_patterns m with
  | [], [] => []
  | _, _ =>
      [rule "-"]
      ++ match exclude_patterns m with
         | [] => []
         | ps => ["Exclude " +:+ pattern_type m +:+ " patterns: " +:+ Py.join ", " ps]
         end
      ++ match include_patterns m with
         | [] => []
         | ps => ["Include " +:+ pattern_type m +:+ " patterns: " +:+ Py.join ", " ps]
         end
  end.

(** The header block: title, rule, the two root paths, the pattern block,
    closing rule. *)
Definition header_block (data : comparison_data) : list string :=
  ["Directory Comparison:"; rule "=";
   "Left: " +:+ path (dir1 data); "Right: " +:+ path (dir2 data)]
  ++ pattern_block (metadata data) ++ [rule "="].

(** One side's column: its root line and the lines of its own tree. *)
Definition column (side : side) : list string :=
  (ROOT_ICON +:+ name side)
  :: build_txt_tree sort_files_by_type (structure_of side) "" true.

(** The fixed margin added to the widest line of the left column. *)
Definition MARGIN : Z := 4.

(** One row: the left line padded to [width], a bar, the right line. *)
Definition row (width : Z) (left right : string) : string :=
  Py.ljust left width +:+ " | " +:+ right.

(** The rows: as many as the longer column has lines, a column that has
    ended giving the empty line. *)
Definition rows (left right : list string) : list string :=
  (λ i, row (max_len left + MARGIN)
          (default "" (left !! i)) (default "" (right !! i)))
    <$> seq 0 (Nat.max (length left) (length right)).

Definition txt_layout (data : comparison_data) : string :=
  Py.join Py.nl
    (header_block data ++ rows (column (dir1 data)) (column (dir2 data))).

End TextLayout.

(** ** HTML export *)

(** The document template of [_export_comparison_to_html] and the block
    that lists the applied patterns. *)
Definition html_template (dir1_name dir2_name dir1_path dir2_path
    pattern_info_html tree1 tree2 : string) : string :=
  "
    <!DOCTYPE html>
    <html>
    <head>
        <meta charset=" +:+ Py.dquote +:+ "utf-8" +:+ Py.dquote +:+ ">
        <title>Directory Comparison - " +:+ dir1_name +:+ " vs " +:+ dir2_name +:+ "</title>
        <style>
            body {
                font-family: Arial, sans-serif;
                margin: 0;
                padding: 20px;
            }
            .comparison-container {
                display: flex;
                border: 1px solid #ccc;
            }
            .directory-tree {
                flex: 1;
                padding: 15px;
                overflow: auto;
                border-right: 1px solid #ccc;
            }
            .directory-tree:last-child {
                border-right: none;
            }
            h1, h2 {
                text-align: center;
            }
            h3 {
                margin-top: 0;
                padding: 10px;
                background-color: #f0f0f0;
                border-bottom: 1px solid #ccc;
            }
            ul {
                list-style-type: none;
                padding-left: 20px;
            }
            .directory {
                color: #2c3e50;
                font-weight: bold;
            }
            .file {
                color: #34495e;
            }
            .file-unique {
                background-color: #fcf3cf;
            }
            .directory-unique {
                background-color: #fcf3cf;
            }
            .legend {
                margin-bottom: 20px;
                padding: 10px;
                background-color: #f8f9fa;
                border: 1px solid #ddd;
                border-radius: 4px;
            }
            .legend-item {
                display: inline-block;
                margin-right: 20px;
            }
            .legend-color {
                display: inline-block;
                width: 15px;
                height: 15px;
                margin-right: 5px;
                vertical-align: middle;
            }
            .legend-unique {
                background-color: #fcf3cf;
            }
            .pattern-info {
                margin-bottom: 20px;
                padding: 10px;
                background-color: #f0f8ff;
                border: 1px solid #add8e6;
                border-radius: 4px;
            }
            dt {
                font-weight: bold;
                margin-top: 10px;
            }
            dd {
                margin-left: 20px;
                margin-bottom: 10px;
            }
        </style>
    </head>
    <body>
        <h1>Directory Comparison</h1>
        " +:+ pattern_info_html +:+ "
        <div class=" +:+ Py.dquote +:+ "legend" +:+ Py.dquote +:+ ">
            <div class=" +:+ Py.dquote +:+ "legend-item" +:+ Py.dquote +:+ ">
                <span class=" +:+ Py.dquote +:+ "legend-color legend-unique" +:+ Py.dquote +:+ "></span>
                <span>Unique to this directory</span>
            </div>
        </div>
        <div class=" +:+ Py.dquote +:+ "comparison-container" +:+ Py.dquote +:+ ">
            <div class=" +:+ Py.dquote +:+ "directory-tree" +:+ Py.dquote +:+ ">
                <h3>📂 " +:+ dir1_name +:+ "</h3>
                <p><em>Path: " +:+ dir1_path +:+ "</em></p>
                " +:+ tree1 +:+ "
            </div>
            <div class=" +:+ Py.dquote +:+ "directory-tree" +:+ Py.dquote +:+ ">
                <h3>📂 " +:+ dir2_name +:+ "</h3>
                <p><em>Path: " +:+ dir2_path +:+ "</em></p>
                " +:+ tree2 +:+ "
            </div>
        </div>
    </body>
    </html>
    ".

Definition pattern_info_block (pattern_items : list string) : string :=
  "
            <div class=" +:+ Py.dquote +:+ "pattern-info" +:+ Py.dquote +:+ ">
                <h3>Applied Patterns</h3>
                <dl>
                    " +:+ Py.join "" pattern_items +:+ "
                </dl>
            </div>
            ".

Section HtmlExport.

Variable sort_files_by_type : list string → list string.
Variable comparison_data : comparison_data.

(** The body of [_build_html_tree], a closure over [comparison_data];
    [self] is the recursive call. *)
Definition build_html_tree_body (self : structure → bool → option string)
    (structure : structure) (include_differences : bool) : option string :=
  let html_content := ["<ul>"] in
  html_content ← for_each (λ html_content item,
      let '(name, content) := item in
      if bool_decide (name ≠ FILES) then
        let dir_class := "" in
        let dir_class :=
          if include_differences then
            let other_structure :=
              if py_eq structure (structure_of (dir1 comparison_data))
              then structure_of (dir2 comparison_data)
              else structure_of (dir1 comparison_data) in
            if negb (py_in name other_structure)
            then " class=" +:+ Py.dquote +:+ "directory-unique" +:+ Py.dquote
            else dir_class
          else dir_class in
        let html_content :=
          html_content ++
          ["<li" +:+ dir_class +:+ "><span class=" +:+ Py.dquote +:+ "directory"
             +:+ Py.dquote +:+ ">📁 " +:+ Py.escape name +:+ "</span>"] in
        match content with
        | VDict content =>
            sub ← self content include_differences;
            Some (html_content ++ [sub] ++ ["</li>"])
        | VList _ => None (* a list has no [items] *)
        end
      else Some html_content) (sorted_items structure) html_content;
  let html_content :=
    if py_in FILES structure then
      foldl (λ html_content file,
               let file_class := "" in
               let file_class :=
                 if include_differences then
                   let other_structure :=
                     if py_eq structure (structure_of (dir1 comparison_data))
                     then structure_of (dir2 comparison_data)
                     else structure_of (dir1 comparison_data) in
                   let other_files := get_files other_structure in
                   if bool_decide (file ∉ other_files)
                   then " class=" +:+ Py.dquote +:+ "file-unique" +:+ Py.dquote
                   else file_class
                 else file_class in
               html_content ++
               ["<li" +:+ file_class +:+ "><span class=" +:+ Py.dquote +:+ "file"
                  +:+ Py.dquote +:+ ">📄 " +:+ Py.escape file +:+ "</span></li>"])
            html_content (sort_files_by_type (get_files structure))
    else html_content in
  let html_content := html_content ++ ["</ul>"] in
  Some (Py.join Py.nl html_content).

Fixpoint build_html_tree_rec (fuel : nat) : structure → bool → option string :=
  match fuel with
  | O => λ _ _, None
  | S fuel' => build_html_tree_body (build_html_tree_rec fuel')
  end.

(** [_build_html_tree(structure, include_differences)] *)
Definition build_html_tree (structure : structure)
    (include_differences : bool) : string :=
  default "" (build_html_tree_rec (height structure) structure include_differences).

(** The pattern block of the document. *)
Definition pattern_info_html : string :=
  let pattern_info_html := "" in
  let metadata := metadata comparison_data in
  if negb (bool_decide (exclude_patterns metadata = []))
     || negb (bool_decide (include_patterns metadata = []))
  then
    let pattern_type := Py.capitalize (pattern_type metadata) in
    let pattern_items : list string := [] in
    let pattern_items :=
      if negb (bool_decide (exclude_patterns metadata = [])) then
        let patterns := Py.escape <$> exclude_patterns metadata in
        pattern_items ++
        ["<dt>Exclude " +:+ pattern_type +:+ " Patterns:</dt><dd>"
           +:+ Py.join ", " patterns +:+ "</dd>"]
      else pattern_items in
    let pattern_items :=
      if negb (bool_decide (include_patterns metadata = [])) then
        let patterns := Py.escape <$> include_patterns metadata in
        pattern_items ++
        ["<dt>Include " +:+ pattern_type +:+ " Patterns:</dt><dd>"
           +:+ Py.join ", " patterns +:+ "</dd>"]
      else pattern_items in
    if negb (bool_decide (pattern_items = []))
    then pattern_info_block pattern_items
    else pattern_info_html
  else pattern_info_html.

(** What [_export_comparison_to_html] writes. *)
Definition html_document : string :=
  let dir1_name := Py.escape (name (dir1 comparison_data)) in
  let dir2_name := Py.escape (name (dir2 comparison_data)) in
  let dir1_path := Py.escape (path (dir1 comparison_data)) in
  let dir2_path := Py.escape (path (dir2 comparison_data)) in
  html_template dir1_name dir2_name dir1_path dir2_path pattern_info_html
    (build_html_tree (structure_of (dir1 comparison_data)) true)
    (build_html_tree (structure_of (dir2 comparison_data)) true).

(** [_export_comparison_to_html(comparison_data, output_path)]: as for the
    text export, the file system after a call whose [open] succeeds. *)
Definition export_comparison_to_html (output_path : string)
    (fs : filesystem) : filesystem :=
  <[output_path := html_document]> fs.

End HtmlExport.

(** ** Comparator and entry points *)

(** A raised exception. *)
Inductive exception : Type :=
  | ValueError (message : string).

(** What [console.print] receives in [display_comparison]. *)
Inductive renderable : Type :=
  | RString (s : string)
  | RText (spans : list Text)
  | RTree (t : Tree)
  | RPanel (content : renderable) (title : option string) (border_style : string)
  | RColumns (items : list renderable).

(** One element of the set comprehension that normalizes the excluded
    extensions:
    [ext.lower() if ext.startswith(".") else f".{ext.lower()}"]. *)
Definition normalize_extension {str_lower : Py.Lower} (ext : string) : string :=
  if Py.startswith "." ext then Py.lower ext else "." +:+ Py.lower ext.

Definition normalize_extensions {str_lower : Py.Lower}
    (exclude_extensions : gset string) : gset string :=
  set_map normalize_extension exclude_extensions.

Section Comparator.

Context {str_lower : Py.Lower}.

(** The collaborators imported from [recursivist.core]. *)
Variable Pattern : Type.
Variable compile_regex_patterns : list string → bool → list Pattern.
Variable get_directory_structure :
  filesystem → string → option (list string) → option string →
  option (gset string) → option (list Pattern) → option (list Pattern) →
  structure * gset string.
Variable generate_color_for_extension : string → string.
Variable sort_files_by_type : list string → list string.

(** [compare_directory_structures(dir1, dir2, exclude_dirs, ignore_file,
    exclude_extensions, exclude_patterns, include_patterns)]; the walks
    read the file system [fs]. *)
Definition compare_directory_structures (fs : filesystem) (dir1 dir2 : string)
    (exclude_dirs : option (list string)) (ignore_file : option string)
    (exclude_extensions : option (gset string))
    (exclude_patterns include_patterns : option (list Pattern))
    : structure * structure * gset string :=
  let '(structure1, extensions1) :=
    get_directory_structure fs dir1 exclude_dirs ignore_file
      exclude_extensions exclude_patterns include_patterns in
  let '(structure2, extensions2) :=
    get_directory_structure fs dir2 exclude_dirs ignore_file
      exclude_extensions exclude_patterns include_patterns in
  let combined_extensions := extensions1 ∪ extensions2 in
  (structure1, structure2, combined_extensions).

(** [display_comparison(dir1, dir2, ...)]: what is printed on the console,
    in order. *)
Definition display_comparison (fs : filesystem) (dir1 dir2 : string)
    (exclude_dirs : option (list string)) (ignore_file : option string)
    (exclude_extensions : option (gset string))
    (exclude_patterns include_patterns : option (list string))
    (use_regex : bool) : list renderable :=
  let exclude_dirs := default [] exclude_dirs in
  let exclude_extensions := default ∅ exclude_extensions in
  let exclude_patterns := default [] exclude_patterns in
  let include_patterns := default [] include_patterns in
  let exclude_extensions := normalize_extensions exclude_extensions in
  let compiled_exclude := compile_regex_patterns exclude_patterns use_regex in
  let compiled_include := compile_regex_patterns include_patterns use_regex in
  let '(structure1, structure2, extensions) :=
    compare_directory_structures fs dir1 dir2 (Some exclude_dirs) ignore_file
      (Some exclude_extensions) (Some compiled_exclude) (Some compiled_include) in
  let color_map : gmap string string :=
    set_to_map (λ ext, (ext, generate_color_for_extension ext)) extensions in
  let console : list renderable := [] in
  let tree1 := leaf (mkText (ROOT_ICON +:+ Py.basename dir1) "bold") in
  let tree2 := leaf (mkText (ROOT_ICON +:+ Py.basename dir2) "bold") in
  let tree1 :=
    build_comparison_tree sort_files_by_type structure1 structure2 tree1 color_map in
  let tree2 :=
    build_comparison_tree sort_files_by_type structure2 structure1 tree2 color_map in
  let legend_text :=
    [mkText "Legend: " "bold"; mkText "Green background " "on green";
     mkText "= Only in left directory, " ""; mkText "Red background " "on red";
     mkText "= Only in right directory" ""] in
  let console :=
    if negb (bool_decide (exclude_patterns = []))
       || negb (bool_decide (include_patterns = []))
    then
      let pattern_info : list string := [] in
      let pattern_info :=
        if negb (bool_decide (exclude_patterns = [])) then
          let pattern_type := if use_regex then "Regex" else "Glob" in
          pattern_info ++
          [pattern_type +:+ " exclusion patterns: " +:+ Py.join ", " exclude_patterns]
        else pattern_info in
      let pattern_info :=
        if negb (bool_decide (include_patterns = [])) then
          let pattern_type := if use_regex then "Regex" else "Glob" in
          pattern_info ++
          [pattern_type +:+ " inclusion patterns: " +:+ Py.join ", " include_patterns]
        else pattern_info in
      if negb (bool_decide (pattern_info = [])) then
        console ++
        [RPanel (RString (Py.join Py.nl pattern_info)) (Some "Applied Patterns") "blue"]
      else console
    else console in
  let legend_panel := RPanel (RText legend_text) None "dim" in
  let console := console ++ [legend_panel] in
  console ++
  [RColumns
     [RPanel (RTree tree1) (Some ("Directory 1: " +:+ Py.basename dir1)) "blue";
      RPanel (RTree tree2) (Some ("Directory 2: " +:+ Py.basename dir2)) "green"]].

(** [export_comparison(dir1, dir2, format_type, output_path, ...)]: the
    exception raised by the function itself, if any, and the file system
    after the call. The [OSError] of an [open] that fails in one of the
    exporters is not part of the model. *)
Definition export_comparison (dir1 dir2 format_type output_path : string)
    (exclude_dirs : option (list string)) (ignore_file : option string)
    (exclude_extensions : option (gset string))
    (exclude_patterns include_patterns : option (list string))
    (use_regex : bool) (fs : filesystem) : (exception + unit) * filesystem :=
  let exclude_dirs := default [] exclude_dirs in
  let exclude_extensions := default ∅ exclude_extensions in
  let exclude_patterns := default [] exclude_patterns in
  let include_patterns := default [] include_patterns in
  let exclude_extensions := normalize_extensions exclude_extensions in
  let compiled_exclude := compile_regex_patterns exclude_patterns use_regex in
  let compiled_include := compile_regex_patterns include_patterns use_regex in
  let '(structure1, structure2, _) :=
    compare_directory_structures fs dir1 dir2 (Some exclude_dirs) ignore_file
      (Some exclude_extensions) (Some compiled_exclude) (Some compiled_include) in
  let comparison_data :=
    {| dir1 := {| path := dir1; name := Py.basename dir1; structure_of := structure1 |};
       dir2 := {| path := dir2; name := Py.basename dir2; structure_of := structure2 |};
       metadata := {| exclude_patterns := exclude_patterns;
                      include_patterns := include_patterns;
                      pattern_type := if use_regex then "regex" else "glob" |} |} in
  if String.eqb format_type "txt" then
    (inr (), export_comparison_to_txt sort_files_by_type comparison_data output_path fs)
  else if String.eqb format_type "html" then
    (inr (), export_comparison_to_html sort_files_by_type comparison_data output_path fs)
  else
    (inl (ValueError ("Unsupported format: " +:+ format_type)), fs).

End Comparator.

(** ** The renderers over a store of mutable objects *)

(** Python passes dicts and lists by reference. To tell what a call does to
    the objects it receives, the functions are given a second time over a
    store that holds every list and dict at a location; a computation takes
    the store and returns its result with the store it leaves, or [None]
    when it raises or the allowed nesting of calls is exceeded. *)
Module Store.

Definition loc : Type := positive.

Inductive obj : Type :=
  | OList (items : list string)
  | ODict (entries : gmap string loc)
  | OColors (colors : gmap string string).

Abbreviation store := (gmap loc obj).

(** What a variable holds: an object of the store, or a literal [{}] or
    [[]] that the call has just built. *)
Inductive ref : Type :=
  | RLoc (l : loc)
  | REmptyDict
  | REmptyList.

Definition M (A : Type) : Type := store → option (A * store).

Definition ret {A} (a : A) : M A := λ h, Some (a, h).

Definition bind {A B} (m : M A) (k : A → M B) : M B :=
  λ h, match m h with
       | Some (a, h') => k a h'
       | None => None
       end.

Definition raise {A} : M A := λ _, None.

Notation "'do' x <- m 'in' k" := (bind m (λ x, k))
  (at level 10, x name, m at level 100, k at level 200,
   format "'[' 'do'  x  <-  m  'in'  '/' k ']'").

(** Reading an object. *)
Definition read (r : ref) : M obj :=
  λ h, match r with
       | RLoc l => match h !! l with Some o => Some (o, h) | None => None end
       | REmptyDict => Some (ODict ∅, h)
       | REmptyList => Some (OList [], h)
       end.

Definition read_dict (r : ref) : M (gmap string loc) :=
  do o <- read r in
  match o with ODict d => ret d | _ => raise end.

Definition read_list (r : ref) : M (list string) :=
  do o <- read r in
  match o with OList l => ret l | _ => raise end.

(** [key in r], [bool(r)], [r.get(key, default)], [r[key]],
    [sorted(r.items())] and [sorted(r.keys())] on a dict; [x in r] on a
    list; [color_map.get(ext, default)]. *)
Definition contains (key : string) (r : ref) : M bool :=
  do d <- read_dict r in ret (bool_decide (is_Some (d !! key))).

Definition truth (r : ref) : M bool :=
  do d <- read_dict r in ret (negb (bool_decide (d = ∅))).

Definition get (r : ref) (key : string) (default : ref) : M ref :=
  do d <- read_dict r in ret (from_option RLoc default (d !! key)).

Definition getitem (r : ref) (key : string) : M ref :=
  do d <- read_dict r in
  match d !! key with Some l => ret (RLoc l) | None => raise end.

Definition sorted_items (r : ref) : M (list (string * loc)) :=
  do d <- read_dict r in ret (merge_sort item_le (map_to_list d)).

Definition sorted_keys (r : ref) : M (list string) :=
  do d <- read_dict r in ret (merge_sort str_le (map_to_list d).*1).

Definition list_contains (x : string) (r : ref) : M bool :=
  do l <- read_list r in ret (bool_decide (x ∈ l)).

Definition color_get (color_map : loc) (ext default : string) : M string :=
  do o <- read (RLoc color_map) in
  match o with
  | OColors colors => ret (from_option id default (colors !! ext))
  | _ => raise
  end.

(** A [for] loop. *)
Fixpoint for_each {S A} (body : S → A → M S) (l : list A) (state : S) : M S :=
  match l with
  | [] => ret state
  | x :: l' => do state <- body state x in for_each body l' state
  end.

Section Functions.

Context {str_lower : Py.Lower}.

(** [sort_files_by_type], called on a list of the store. *)
Variable sort_files_by_type : ref → M (list string).

(** [build_comparison_tree], with the tree it builds as the result. *)
Definition build_comparison_tree_body
    (self : ref → ref → Tree → loc → M Tree)
    (structure other_structure : ref) (tree : Tree) (color_map : loc)
    : M Tree :=
  do has_files <- contains FILES structure in
  do tree <- (if has_files then
            do other_truth <- truth other_structure in
            do files_in_other <-
              (if other_truth then get other_structure FILES REmptyList
               else ret REmptyList) in
            do files <- getitem structure FILES in
            do files <- sort_files_by_type files in
            for_each (λ tree file,
                do color <- color_get color_map
                          (Py.lower (Py.splitext file).2) DEFAULT_COLOR in
                do found <- list_contains file files_in_other in
                if negb found
                then ret (add tree (leaf (mkText (FILE_ICON +:+ file)
                                            (color +:+ " on green"))))
                else ret (add tree (leaf (mkText (FILE_ICON +:+ file) color))))
              files tree
          else ret tree) in
  do items <- sorted_items structure in
  do tree <- for_each (λ tree item,
            let '(folder, content) := item in
            if bool_decide (folder ≠ FILES) then
              do other_truth <- truth other_structure in
              do other_content <-
                (if other_truth then get other_structure folder REmptyDict
                 else ret REmptyDict) in
              do found <-
                (if other_truth then contains folder other_structure
                 else ret false) in
              let subtree :=
                if negb found
                then leaf (mkText (FOLDER_ICON +:+ folder) "green")
                else leaf (mkText (FOLDER_ICON +:+ folder) "") in
              do subtree <- self (RLoc content) other_content subtree color_map in
              ret (add tree subtree)
            else ret tree) items tree in
  do other_truth <- truth other_structure in
  do other_has_files <-
    (if other_truth then contains FILES other_structure else ret false) in
  do tree <- (if other_has_files then
            do files_in_this <- get structure FILES REmptyList in
            do files <- getitem other_structure FILES in
            do files <- sort_files_by_type files in
            for_each (λ tree file,
                do found <- list_contains file files_in_this in
                if negb found then
                  do color <- color_get color_map
                            (Py.lower (Py.splitext file).2) DEFAULT_COLOR in
                  ret (add tree (leaf (mkText (FILE_ICON +:+ file)
                                         (color +:+ " on red"))))
                else ret tree)
              files tree
          else ret tree) in
  do other_truth <- truth other_structure in
  if other_truth then
    do keys <- sorted_keys other_structure in
    for_each (λ tree folder,
        do found <- contains folder structure in
        if bool_decide (folder ≠ FILES) && negb found then
          let subtree := leaf (mkText (FOLDER_ICON +:+ folder) "red") in
          do content <- getitem other_structure folder in
          do subtree <- self REmptyDict content subtree color_map in
          ret (add tree subtree)
        else ret tree) keys tree
  else ret tree.

Fixpoint build_comparison_tree_rec (fuel : nat)
    : ref → ref → Tree → loc → M Tree :=
  match fuel with
  | O => λ _ _ _ _, raise
  | S fuel' => build_comparison_tree_body (build_comparison_tree_rec fuel')
  end.

(** [_build_txt_tree] *)
Definition build_txt_tree_body (self : ref → string → bool → M (list string))
    (structure : ref) (prefix : string) (is_last : bool) : M (list string) :=
  let lines : list string := [] in
  do items <- sorted_items structure in
  do has_files <- contains FILES structure in
  do lines <- for_each (λ lines entry,
      let '(i, (name, content)) := entry in
      if bool_decide (name = FILES) then ret lines
      else
        let is_last_item :=
          (i =? llen items - 1) || ((i =? llen items - 2) && has_files) in
        let '(lines, new_prefix) :=
          if is_last_item
          then (lines ++ [prefix +:+ "└── 📁 " +:+ name], prefix +:+ "    ")
          else (lines ++ [prefix +:+ "├── 📁 " +:+ name], prefix +:+ "│   ") in
        do o <- read (RLoc content) in
        match o with
        | ODict _ =>
            do sub <- self (RLoc content) new_prefix is_last_item in
            ret (lines ++ sub)
        | _ => ret lines
        end) (enumerate items) lines in
  if has_files then
    do files <- getitem structure FILES in
    do files <- sort_files_by_type files in
    ret (foldl (λ lines entry,
                  let '(i, file) := entry in
                  let is_last_file := i =? llen files - 1 in
                  if is_last_file
                  then lines ++ [prefix +:+ "└── 📄 " +:+ file]
                  else lines ++ [prefix +:+ "├── 📄 " +:+ file])
               lines (enumerate files))
  else ret lines.

Fixpoint build_txt_tree_rec (fuel : nat) : ref → string → bool → M (list string) :=
  match fuel with
  | O => λ _ _ _, raise
  | S fuel' => build_txt_tree_body (build_txt_tree_rec fuel')
  end.

(** [comparison_data], the two structures being objects of the store. *)
Record side_ref : Type := mkSideRef {
  path_of : string;
  name_of : string;
  structure_at : ref
}.

Record data_ref : Type := mkDataRef {
  left : side_ref;
  right : side_ref;
  meta : metadata_t
}.

(** The same data with the structures read as values [s1] and [s2]; the
    header of the text export and the pattern block of the HTML export
    read nothing else. *)
Definition plain_data (data : data_ref) (s1 s2 : structure)
    : comparison_data :=
  mkComparisonData
    (mkSide (path_of (left data)) (name_of (left data)) s1)
    (mkSide (path_of (right data)) (name_of (right data)) s2)
    (meta data).

(** [_export_comparison_to_txt]: the document, then the write. *)
Definition txt_document (fuel : nat) (data : data_ref) : M string :=
  let dir1_name := name_of (left data) in
  let dir2_name := name_of (right data) in
  let dir1_structure := structure_at (left data) in
  let dir2_structure := structure_at (right data) in
  do tree1 <- build_txt_tree_rec fuel dir1_structure "" true in
  let dir1_lines := [ROOT_ICON +:+ dir1_name] ++ tree1 in
  do tree2 <- build_txt_tree_rec fuel dir2_structure "" true in
  let dir2_lines := [ROOT_ICON +:+ dir2_name] ++ tree2 in
  let max_width := max_len dir1_lines + 4 in
  let combined_lines :=
    txt_header (plain_data data empty_structure empty_structure) in
  let combined_lines :=
    foldl (λ combined_lines i,
             let left := default "" (dir1_lines !! i) in
             let right := default "" (dir2_lines !! i) in
             combined_lines ++ [Py.ljust left max_width +:+ " | " +:+ right])
          combined_lines
          (seq 0 (Nat.max (length dir1_lines) (length dir2_lines))) in
  ret (Py.join Py.nl combined_lines).

Definition export_comparison_to_txt (fuel : nat) (data : data_ref)
    (output_path : string) (h : store) (fs : filesystem)
    : option (store * filesystem) :=
  match txt_document fuel data h with
  | Some (document, h') => Some (h', <[output_path := document]> fs)
  | None => None
  end.

(** [a == b] on two dicts of the store. *)
Definition py_eq_body (self : ref → ref → M bool) (a b : ref) : M bool :=
  do da <- read_dict a in
  do db <- read_dict b in
  if negb (llen (map_to_list da) =? llen (map_to_list db)) then ret false
  else
    for_each (λ (acc : bool) item,
        let '(key, va) := item in
        if negb acc then ret false
        else match db !! key with
             | None => ret false
             | Some vb =>
                 do oa <- read (RLoc va) in
                 do ob <- read (RLoc vb) in
                 match oa, ob with
                 | OList la, OList lb => ret (bool_decide (la = lb))
                 | ODict _, ODict _ => self (RLoc va) (RLoc vb)
                 | _, _ => ret false
                 end
             end) (map_to_list da) true.

Fixpoint py_eq_rec (fuel : nat) : ref → ref → M bool :=
  match fuel with
  | O => λ _ _, raise
  | S fuel' => py_eq_body (py_eq_rec fuel')
  end.

(** [_build_html_tree], a closure over [comparison_data]; [fuel] bounds
    the nesting of the comparisons [==] it makes. *)
Definition build_html_tree_body (fuel : nat) (data : data_ref)
    (self : ref → bool → M string)
    (structure : ref) (include_differences : bool) : M string :=
  let html_content := ["<ul>"] in
  do items <- sorted_items structure in
  do html_content <- for_each (λ html_content item,
      let '(name, content) := item in
      if bool_decide (name ≠ FILES) then
        let dir_class := "" in
        do dir_class <-
          (if include_differences then
             do same <- py_eq_rec fuel structure (structure_at (left data)) in
             let other_structure :=
               if same then structure_at (right data)
               else structure_at (left data) in
             do found <- contains name other_structure in
             if negb found
             then ret (" class=" +:+ Py.dquote +:+ "directory-unique" +:+ Py.dquote)
             else ret dir_class
           else ret dir_class) in
        let html_content :=
          html_content ++
          ["<li" +:+ dir_class +:+ "><span class=" +:+ Py.dquote +:+ "directory"
             +:+ Py.dquote +:+ ">📁 " +:+ Py.escape name +:+ "</span>"] in
        do sub <- self (RLoc content) include_differences in
        ret (html_content ++ [sub] ++ ["</li>"])
      else ret html_content) items html_content in
  do has_files <- contains FILES structure in
  do html_content <-
    (if has_files then
       do files <- getitem structure FILES in
       do files <- sort_files_by_type files in
       for_each (λ html_content file,
           let file_class := "" in
           do file_class <-
             (if include_differences then
                do same <- py_eq_rec fuel structure (structure_at (left data)) in
                let other_structure :=
                  if same then structure_at (right data)
                  else structure_at (left data) in
                do other_files <- get other_structure FILES REmptyList in
                do found <- list_contains file other_files in
                if negb found
                then ret (" class=" +:+ Py.dquote +:+ "file-unique" +:+ Py.dquote)
                else ret file_class
              else ret file_class) in
           ret (html_content ++
                ["<li" +:+ file_class +:+ "><span class=" +:+ Py.dquote +:+ "file"
                   +:+ Py.dquote +:+ ">📄 " +:+ Py.escape file +:+ "</span></li>"]))
         files html_content
     else ret html_content) in
  let html_content := html_content ++ ["</ul>"] in
  ret (Py.join Py.nl html_content).

Fixpoint build_html_tree_rec (depth : nat) (data : data_ref)
    (fuel : nat) : ref → bool → M string :=
  match fuel with
  | O => λ _ _, raise
  | S fuel' =>
      build_html_tree_body depth data (build_html_tree_rec depth data fuel')
  end.

(** [_export_comparison_to_html]: the document, then the write. *)
Definition html_document (fuel : nat) (data : data_ref) : M string :=
  let dir1_name := Py.escape (name_of (left data)) in
  let dir2_name := Py.escape (name_of (right data)) in
  let dir1_path := Py.escape (path_of (left data)) in
  let dir2_path := Py.escape (path_of (right data)) in
  let pattern_info :=
    pattern_info_html (plain_data data empty_structure empty_structure) in
  do tree1 <- build_html_tree_rec fuel data fuel (structure_at (left data)) true in
  do tree2 <- build_html_tree_rec fuel data fuel (structure_at (right data)) true in
  ret (html_template dir1_name dir2_name dir1_path dir2_path pattern_info
         tree1 tree2).

Definition export_comparison_to_html (fuel : nat) (data : data_ref)
    (output_path : string) (h : store) (fs : filesystem)
    : option (store * filesystem) :=
  match html_document fuel data h with
  | Some (document, h') => Some (h', <[output_path := document]> fs)
  | None => None
  end.

End Functions.

(** The dict at [r] and the dicts below it, down to [depth] levels, are
    well formed: [_files] holds a list and every other key a dict. *)
Fixpoint dict_ok (h : store) (depth : nat) (r : ref) : bool :=
  match depth with
  | O => false
  | S depth' =>
      match r with
      | REmptyDict => true
      | REmptyList => false
      | RLoc l =>
          match h !! l with
          | Some (ODict d) =>
              forallb (λ item : string * loc,
                         if bool_decide (item.1 = FILES)
                         then match h !! item.2 with
                              | Some (OList _) => true
                              | _ => false
                              end
                         else dict_ok h depth' (RLoc item.2))
                      (map_to_list d)
          | _ => false
          end
      end
  end.

(** The computation [m] returns from the store [h] with a result that
    satisfies [Q], and leaves the store as it found it. *)
Definition runs {A} (m : M A) (h : store) (Q : A → Prop) : Prop :=
  ∃ a, m h = Some (a, h) ∧ Q a.

(** The entries of a well-formed dict whose nested dicts are well formed
    down to [depth] levels. *)
Definition entries_ok (h : store) (depth : nat) (d : gmap string loc) : Prop :=
  ∀ key l, d !! key = Some l →
    if bool_decide (key = FILES)
    then ∃ files, h !! l = Some (OList files)
    else dict_ok h depth (RLoc l) = true.

(** The dict at [r] holds the structure [s], down to [depth] levels: the
    same keys, the list of [s] under [_files] and, under every other key,
    a dict that holds the subdirectory of [s]. *)
Fixpoint holds (h : store) (depth : nat) (r : ref) (s : structure) : bool :=
  match depth with
  | O => false
  | S depth' =>
      match r with
      | REmptyList => false
      | REmptyDict =>
          bool_decide (files s = None)
          && bool_decide (map_to_list (dirs s) = [])
      | RLoc l =>
          match h !! l with
          | Some (ODict d) =>
              match files s, d !! FILES with
              | Some fl, Some lf =>
                  match h !! lf with
                  | Some (OList fl') => bool_decide (fl = fl')
                  | _ => false
                  end
              | None, None => true
              | _, _ => false
              end
              && match dirs s !! FILES with None => true | Some _ => false end
              && forallb (λ item : string * structure,
                            match d !! item.1 with
                            | Some lk => holds h depth' (RLoc lk) item.2
                            | None => false
                            end) (map_to_list (dirs s))
              && forallb (λ item : string * loc,
                            bool_decide (item.1 = FILES)
                            || bool_decide (is_Some (dirs s !! item.1)))
                         (map_to_list d)
          | _ => false
          end
      end
  end.

(** The value under a key of the dict of the store and the value under
    that key of the structure. *)
Definition entry_holds (h : store) (depth : nat) (ol : option loc)
    (ov : option value) : Prop :=
  match ol, ov with
  | None, None => True
  | Some l, Some (VList fl) => h !! l = Some (OList fl)
  | Some l, Some (VDict c) => holds h depth (RLoc l) c = true
  | _, _ => False
  end.

Definition dict_holds (h : store) (depth : nat) (d : gmap string loc)
    (s : structure) : Prop :=
  ∀ key, entry_holds h depth (d !! key) (py_get s key).

Definition item_holds (h : store) (depth : nat) (x : string * loc)
    (y : string * value) : Prop :=
  x.1 = y.1 ∧ entry_holds h depth (Some x.2) (Some y.2).

End Store.

(** ** A file order and sample structures *)

(** Modelled from the spec: [recursivist.core.sort_files_by_type] is not
    among the sources; the spec describes a stable order by file type, then
    by name. The type of a file is taken to be its extension. *)
Definition file_le (a b : string) : Prop :=
  let ea := (Py.splitext a).2 in
  let eb := (Py.splitext b).2 in
  String.ltb ea eb = true ∨ (ea = eb ∧ String.leb a b = true).

Global Instance file_le_dec a b : Decision (file_le a b).
Proof. unfold file_le. apply _. Defined.

Definition sort_by_extension (files : list string) : list string :=
  merge_sort file_le files.

(** Scenario A of the spec: [src/a.py] and [src/b.py] on the left,
    [src/a.py] and [src/c.py] on the right. *)
Definition scenario_left : structure :=
  Structure None {[ "src" := Structure (Some ["a.py"; "b.py"]) ∅ ]}.
Definition scenario_right : structure :=
  Structure None {[ "src" := Structure (Some ["a.py"; "c.py"]) ∅ ]}.

(** A larger pair, with files at the root and folders on one side only. *)
Definition sample_left : structure :=
  Structure (Some ["x.py"; "README"])
    {[ "src" := Structure (Some ["a.py"; "b.py"]) ∅;
       "Docs" := Structure None ∅ ]}.
Definition sample_right : structure :=
  Structure (Some ["x.py"])
    {[ "src" := Structure (Some ["a.py"; "c.py"]) ∅;
       "zz" := Structure (Some ["q"]) {[ "in" := empty_structure ]} ]}.

Definition root_left : Text := mkText (ROOT_ICON +:+ "left") "bold".
Definition root_right : Text := mkText (ROOT_ICON +:+ "right") "bold".

(** Sample collaborators: a walk that finds scenario A, drops the Python
    files when [.py] is excluded, and reports the extensions it kept; a
    second walk that also reacts to the unnormalized [PY]. *)
Definition sample_walk (fs : filesystem) (dir : string)
    (exclude_dirs : option (list string)) (ignore_file : option string)
    (exclude_extensions : option (gset string))
    (exclude_patterns include_patterns : option (list string))
    : structure * gset string :=
  if bool_decide (".py" ∈ default ∅ exclude_extensions)
  then (empty_structure, ∅)
  else if String.eqb dir "left" then (scenario_left, {[ ".py" ]})
  else (scenario_right, {[ ".py" ]}).

Definition sample_walk_raw (fs : filesystem) (dir : string)
    (exclude_dirs : option (list string)) (ignore_file : option string)
    (exclude_extensions : option (gset string))
    (exclude_patterns include_patterns : option (list string))
    : structure * gset string :=
  if bool_decide ("PY" ∈ default ∅ exclude_extensions)
  then (empty_structure, ∅)
  else sample_walk fs dir exclude_dirs ignore_file exclude_extensions
         exclude_patterns include_patterns.

(** The lower-casing used with the samples: their strings are ASCII, on
    which [str.lower()] is [Py.ascii_lower]. *)
Definition sample_lower : Py.Lower := Py.ascii_lower.

Definition sample_compile (patterns : list string) (use_regex : bool)
    : list string := patterns.

Definition sample_color (ext : string) : string := "#3572A5".

Definition scenario_data : comparison_data :=
  mkComparisonData (mkSide "/tmp/left" "left" scenario_left)
    (mkSide "/tmp/right" "right" scenario_right) (mkMetadata [] [] "glob").

(** The list items of the HTML trees. *)
Definition li_file (unique : bool) (file : string) : string :=
  "<li" +:+ (if unique
             then " class=" +:+ Py.dquote +:+ "file-unique" +:+ Py.dquote
             else "")
  +:+ "><span class=" +:+ Py.dquote +:+ "file" +:+ Py.dquote +:+ ">📄 "
  +:+ Py.escape file +:+ "</span></li>".

Definition li_directory (unique : bool) (name : string) : string :=
  "<li" +:+ (if unique
             then " class=" +:+ Py.dquote +:+ "directory-unique" +:+ Py.dquote
             else "")
  +:+ "><span class=" +:+ Py.dquote +:+ "directory" +:+ Py.dquote +:+ ">📁 "
  +:+ Py.escape name +:+ "</span>".

(** Scenario A in a store: the left structure at location 1, the right one
    at location 4, the colour map at location 7. *)
Definition sample_store : gmap Store.loc Store.obj :=
  {[ 1%positive := Store.ODict {[ "src" := 2%positive ]};
     2%positive := Store.ODict {[ "_files" := 3%positive ]};
     3%positive := Store.OList ["a.py"; "b.py"];
     4%positive := Store.ODict {[ "src" := 5%positive ]};
     5%positive := Store.ODict {[ "_files" := 6%positive ]};
     6%positive := Store.OList ["a.py"; "c.py"];
     7%positive := Store.OColors {[ ".py" := "#3572A5" ]} ]}.

Definition sample_data_ref : Store.data_ref :=
  Store.mkDataRef
    (Store.mkSideRef "/tmp/left" "left" (Store.RLoc 1%positive))
    (Store.mkSideRef "/tmp/right" "right" (Store.RLoc 4%positive))
    (mkMetadata [] [] "glob").

(** A file order on the store: it reads the list and returns a sorted
    copy. *)
Definition store_sort (r : Store.ref) : Store.M (list string) :=
  Store.bind (Store.read_list r) (λ l, Store.ret (sort_by_extension l)).

(** ** Reading the text tree *)

(** The glyph before the name of an entry. *)
Definition icon (k : kind) : string :=
  match k with File => FILE_ICON | Folder => FOLDER_ICON end.

(** The indentation of a line [depth] folders below the root: one segment
    of four characters for each folder above it, a bar and three spaces or
    four spaces. *)
Fixpoint is_indent (depth : nat) (s : string) : bool :=
  match depth with
  | O => String.eqb s ""
  | S depth' =>
      match strip_prefix "│   " s with
      | Some rest => is_indent depth' rest
      | None =>
          match strip_prefix "    " s with
          | Some rest => is_indent depth' rest
          | None => false
          end
      end
  end.

(** ** Reading the HTML tree *)

(** A structure is a dict of the structure builder: no subdirectory is
    kept under the key [_files], at any depth. *)
Fixpoint wf (s : structure) : bool :=
  match s with
  | Structure _ d =>
      bool_decide (d !! FILES = None)
      && map_fold (λ _ c acc, wf c && acc) true d
  end.

Section HtmlLevel.

Variable sort_files_by_type : list string → list string.
Variable comparison_data : comparison_data.

(** The list items of one directory when its entries are marked against
    the directory [other]: an entry is unique when [other] does not have
    it. The items below a subdirectory are those of [_build_html_tree]. *)
Definition html_level (structure other : structure) : string :=
  Py.join Py.nl
    (["<ul>"]
     ++ concat
          ((λ item : string * value,
              match item.2 with
              | VDict content =>
                  if bool_decide (item.1 ≠ FILES) then
                    [li_directory (negb (py_in item.1 other)) item.1;
                     build_html_tree sort_files_by_type comparison_data
                       content true;
                     "</li>"]
                  else []
              | VList _ => []
              end) <$> sorted_items structure)
     ++ (if py_in FILES structure then
           (λ file, li_file (bool_decide (file ∉ get_files other)) file)
             <$> sort_files_by_type (get_files structure)
         else [])
     ++ ["</ul>"]).

End HtmlLevel.

(** ** Characters of a name *)

(** [c in s] for a character [c], and whether [s] is made of dots only. *)
Fixpoint char_in (c : ascii) (s : string) : bool :=
  match s with
  | EmptyString => false
  | String a s' => Ascii.eqb a c || char_in c s'
  end.

Fixpoint all_dots (s : string) : bool :=
  match s with
  | EmptyString => true
  | String a s' => Ascii.eqb a Py.dot && all_dots s'
  end.

(** ** Counting the tags of the HTML tree *)

(** [s.count(c)] for a character [c]. *)
Fixpoint count_char (c : ascii) (s : string) : nat :=
  match s with
  | EmptyString => 0%nat
  | String a s' => ((if Ascii.eqb a c then 1 else 0) + count_char c s')%nat
  end.

(** The tags that [_build_html_tree] writes for a structure: [<ul>] and
    [</ul>]; for a file the four of its item; for a subdirectory the three
    tags of its item, its own list and [</li>]. *)
Fixpoint html_tags (s : structure) : nat :=
  match s with
  | Structure f d =>
      (2 + 4 * length (default [] f)
       + map_fold (λ k c acc,
                     if bool_decide (k = FILES) then acc
                     else 4 + html_tags c + acc) 0 d)%nat
  end.

(** The tags that one item of a dict stands for. *)
Definition item_tags (item : string * value) : nat :=
  match item.2 with
  | VDict c =>
      if bool_decide (item.1 = FILES) then 0%nat else (4 + html_tags c)%nat
  | VList _ => 0%nat
  end.

(** * Properties *)

(** ** The string primitives on examples *)

Example splitext_py : Py.splitext "a.b/.bashrc" = ("a.b/.bashrc", "").
Proof. reflexivity. Qed.
Example splitext_tar : Py.splitext "x.tar.GZ" = ("x.tar", ".GZ").
Proof. reflexivity. Qed.
Example splitext_dots : Py.splitext "..x" = ("..x", "").
Proof. reflexivity. Qed.
Example splitext_dots2 : Py.splitext "..x.y" = ("..x", ".y").
Proof. reflexivity. Qed.
Example len_icon : Py.len "📁 a" = 3.
Proof. reflexivity. Qed.
Example basename_1 : Py.basename "/tmp/left" = "left".
Proof. reflexivity. Qed.
Example escape_1 : Py.escape "a<b&c" = "a&lt;b&amp;c".
Proof. reflexivity. Qed.

(** ** Depth of structures *)

Lemma height_pos s : (1 ≤ height s)%nat.
Proof. destruct s; simpl; lia. Qed.

Lemma height_empty : height empty_structure = 1%nat.
Proof. reflexivity. Qed.

Lemma map_fold_max_le (d : gmap string structure) k c :
  d !! k = Some c →
  (height c ≤ map_fold (λ _ c acc, Nat.max (height c) acc) 0%nat d)%nat.
Proof.
  revert k c. induction d as [|i x m Hi IH] using map_ind; intros k c Hk.
  - by rewrite lookup_empty in Hk.
  - rewrite map_fold_insert_L; [| intros; lia | done].
    destruct (decide (i = k)) as [->|Hne].
    + rewrite lookup_insert_eq in Hk. injection Hk as ->. lia.
    + rewrite lookup_insert_ne in Hk by done. specialize (IH _ _ Hk). lia.
Qed.

Lemma height_child s k c : dirs s !! k = Some c → (height c < height s)%nat.
Proof.
  destruct s as [f d]; simpl. intros H.
  pose proof (map_fold_max_le d k c H). lia.
Qed.

(** ** Dict operations *)

Lemma elem_of_py_items s k v : (k, v) ∈ py_items s ↔ py_get s k = Some v.
Proof.
  unfold py_items, py_get. rewrite elem_of_app, list_elem_of_fmap. split.
  - intros [Hf | [[k' c] [Heq Hin]]].
    + destruct (files s) as [l|]; [|by apply not_elem_of_nil in Hf].
      apply list_elem_of_singleton in Hf. injection Hf as -> ->.
      by rewrite decide_True.
    + simpl in Heq. injection Heq as -> ->.
      apply list_elem_of_filter in Hin as [Hne Hin]. simpl in Hne.
      apply elem_of_map_to_list in Hin.
      rewrite decide_False by done. by rewrite Hin.
  - destruct (decide (k = FILES)) as [->|Hne].
    + destruct (files s) as [l|]; simpl; [|done].
      intros [= <-]. left. by apply list_elem_of_singleton.
    + destruct (dirs s !! k) as [c|] eqn:Hc; simpl; [|done].
      intros [= <-]. right. exists (k, c). split; [done|].
      apply list_elem_of_filter. split; [done|]. by apply elem_of_map_to_list.
Qed.

Lemma elem_of_py_keys s k : k ∈ py_keys s ↔ is_Some (py_get s k).
Proof.
  unfold py_keys. rewrite list_elem_of_fmap. split.
  - intros [[k' v] [-> Hin]]. apply elem_of_py_items in Hin. by exists v.
  - intros [v Hv]. exists (k, v). split; [done|]. by apply elem_of_py_items.
Qed.

Lemma NoDup_py_keys s : NoDup (py_keys s).
Proof.
  unfold py_keys, py_items. rewrite fmap_app, <- list_fmap_compose.
  apply NoDup_app. split_and!.
  - destruct (files s); simpl; [apply NoDup_singleton | apply NoDup_nil_2].
  - intros k Hk Hk'. destruct (files s); simpl in Hk; [|by apply not_elem_of_nil in Hk].
    apply list_elem_of_singleton in Hk as ->.
    apply list_elem_of_fmap in Hk' as [[k c] [Hk Hin]]. simpl in Hk.
    apply list_elem_of_filter in Hin as [Hne _]. simpl in Hne. congruence.
  - apply (NoDup_fmap_2_strong _).
    + intros [k1 c1] [k2 c2] H1 H2 Heq. simpl in Heq. subst k2.
      apply list_elem_of_filter in H1 as [_ H1], H2 as [_ H2].
      apply elem_of_map_to_list in H1, H2. congruence.
    + apply NoDup_filter, NoDup_map_to_list.
Qed.

Lemma elem_of_sorted_items s k v :
  (k, v) ∈ sorted_items s ↔ py_get s k = Some v.
Proof.
  unfold sorted_items. rewrite merge_sort_Permutation. apply elem_of_py_items.
Qed.

Lemma elem_of_sorted_keys s k : k ∈ sorted_keys s ↔ is_Some (py_get s k).
Proof.
  unfold sorted_keys. rewrite merge_sort_Permutation. apply elem_of_py_keys.
Qed.

Lemma NoDup_sorted_keys s : NoDup (sorted_keys s).
Proof.
  unfold sorted_keys. rewrite merge_sort_Permutation. apply NoDup_py_keys.
Qed.

Lemma NoDup_sorted_items_keys s : NoDup (sorted_items s).*1.
Proof.
  unfold sorted_items. rewrite merge_sort_Permutation. apply NoDup_py_keys.
Qed.

Lemma py_in_true k s : py_in k s = true ↔ is_Some (py_get s k).
Proof. unfold py_in. apply bool_decide_eq_true. Qed.

Lemma py_in_false k s : py_in k s = false ↔ py_get s k = None.
Proof.
  unfold py_in. rewrite bool_decide_eq_false, <- eq_None_not_Some. done.
Qed.

Lemma py_get_files s : py_get s FILES = VList <$> files s.
Proof. unfold py_get. by rewrite decide_True. Qed.

Lemma py_get_dir s k : k ≠ FILES → py_get s k = VDict <$> dirs s !! k.
Proof. intros. unfold py_get. by rewrite decide_False. Qed.

Lemma py_get_FILES_list s v : py_get s FILES = Some v → ∃ l, v = VList l.
Proof.
  rewrite py_get_files. destruct (files s) as [l|]; [|done].
  intros [= <-]. by exists l.
Qed.

Lemma py_get_dir_dict s k v :
  k ≠ FILES → py_get s k = Some v → ∃ c, v = VDict c ∧ dirs s !! k = Some c.
Proof.
  intros Hne. rewrite py_get_dir by done.
  destruct (dirs s !! k) as [c|]; [|done]. intros [= <-]. by exists c.
Qed.

Lemma truthy_false s : truthy s = false → ∀ k, py_get s k = None.
Proof.
  unfold truthy. intros H k. apply negb_false_iff, bool_decide_eq_true in H.
  destruct (py_get s k) as [v|] eqn:Hv; [|done].
  apply elem_of_py_items in Hv. rewrite H in Hv. by apply not_elem_of_nil in Hv.
Qed.

Lemma truthy_get_files s :
  (if truthy s then get_files s else []) = get_files s.
Proof.
  destruct (truthy s) eqn:H; [done|].
  unfold get_files. by rewrite (truthy_false _ H).
Qed.

Lemma truthy_get_dir s k :
  (if truthy s then get_dir s k else empty_structure) = get_dir s k.
Proof.
  destruct (truthy s) eqn:H; [done|].
  unfold get_dir. by rewrite (truthy_false _ H).
Qed.

Lemma truthy_py_in s k : truthy s && py_in k s = py_in k s.
Proof.
  destruct (truthy s) eqn:H; [done|]. simpl. symmetry.
  apply py_in_false. by apply truthy_false.
Qed.

Lemma truthy_false_keys s : truthy s = false → sorted_keys s = [].
Proof.
  intros H. apply elem_of_nil_inv. intros k Hk.
  apply elem_of_sorted_keys in Hk as [v Hv].
  by rewrite (truthy_false _ H) in Hv.
Qed.

Lemma height_get_dir s k : (height (get_dir s k) ≤ height s)%nat.
Proof.
  unfold get_dir. destruct (py_get s k) as [[l|c]|] eqn:Hk;
    try (rewrite height_empty; apply height_pos).
  destruct (decide (k = FILES)) as [->|Hne].
  - apply py_get_FILES_list in Hk as [? ?]. done.
  - apply py_get_dir_dict in Hk as (c' & [= <-] & Hc); [|done].
    apply height_child in Hc. lia.
Qed.

(** [sorted] gives its items and keys in ascending order. *)
Global Instance str_le_total : Total str_le.
Proof. intros a b. apply String.leb_total. Qed.

Global Instance item_le_total {A} : Total (@item_le A).
Proof. intros x y. apply String.leb_total. Qed.

Lemma sorted_items_sorted s : Sorted item_le (sorted_items s).
Proof. apply Sorted_merge_sort, _. Qed.

Lemma sorted_keys_sorted s : Sorted str_le (sorted_keys s).
Proof. apply Sorted_merge_sort, _. Qed.

(** ** Loops *)

Lemma for_each_ext {S A} (f g : S → A → option S) l st :
  (∀ st x, x ∈ l → f st x = g st x) → for_each f l st = for_each g l st.
Proof.
  revert st. induction l as [|x l IH]; intros st H; simpl; [done|].
  rewrite H by left. destruct (g st x); [|done].
  apply IH. intros. apply H. by right.
Qed.

(** A loop that appends at most one child per iteration. *)
Lemma for_each_add {A} (body : Tree → A → option Tree) (h : A → option Tree)
    l tree :
  (∀ tree x, x ∈ l →
     body tree x = Some (match h x with Some c => add tree c | None => tree end)) →
  for_each body l tree = Some (Node (label tree) (children tree ++ omap h l)).
Proof.
  revert tree. induction l as [|x l IH]; intros tree H; simpl.
  - rewrite app_nil_r. by destruct tree.
  - rewrite H by left. rewrite IH by (intros; apply H; by right).
    destruct (h x) as [c|]; simpl; [|done].
    by rewrite <- app_assoc.
Qed.

Lemma foldl_add {A} (h : A → option Tree) l tree :
  foldl (λ tree x, match h x with Some c => add tree c | None => tree end) tree l
  = Node (label tree) (children tree ++ omap h l).
Proof.
  revert tree. induction l as [|x l IH]; intros tree; simpl.
  - rewrite app_nil_r. by destruct tree.
  - rewrite IH. destruct (h x) as [c|]; simpl; [|done].
    by rewrite <- app_assoc.
Qed.

Lemma foldl_ext_in {A B} (f g : B → A → B) l b :
  (∀ b x, x ∈ l → f b x = g b x) → foldl f b l = foldl g b l.
Proof.
  revert b. induction l as [|x l IH]; intros b H; simpl; [done|].
  rewrite H by left. apply IH. intros. apply H. by right.
Qed.

Lemma omap_Some_fmap {A B} (f : A → B) (l : list A) :
  omap (λ x, Some (f x)) l = f <$> l.
Proof. induction l; simpl; [done|]. by f_equal. Qed.

(** ** The recursion of [build_comparison_tree] terminates *)

Section RendererTermination.

Context {str_lower : Py.Lower}.

Variable sort_files_by_type : list string → list string.

Local Abbreviation bct := (build_comparison_tree sort_files_by_type).
Local Abbreviation body := (build_comparison_tree_body sort_files_by_type).

Lemma body_appended (self : renderer) s o tree cm :
  (∀ s' o' t', (height s' + height o' < height s + height o)%nat →
     self s' o' t' cm = Some (bct s' o' t' cm)) →
  body self s o tree cm
  = Some (Node (label tree)
            (children tree ++ appended sort_files_by_type s o cm)).
Proof.
  intros Hself. unfold build_comparison_tree_body, appended.
  rewrite truthy_get_files, truthy_py_in.
  (* the files of this side *)
  set (tree1 := if py_in FILES s then _ else tree).
  assert (Htree1 : tree1 = Node (label tree)
            (children tree ++ here_files sort_files_by_type s o cm)).
  { subst tree1. unfold here_files. destruct (py_in FILES s).
    - rewrite <- omap_Some_fmap. etrans; [|apply foldl_add]. apply foldl_ext_in.
      intros b x _. by destruct (bool_decide (x ∉ get_files o)).
    - rewrite app_nil_r. by destruct tree. }
  clearbody tree1. subst tree1.
  (* the subdirectories of this side *)
  erewrite (for_each_add _ (λ item : string * value,
      match item.2 with
      | VDict content =>
          if bool_decide (item.1 ≠ FILES) then
            Some (bct content (get_dir o item.1)
                    (leaf (mkText (FOLDER_ICON +:+ item.1)
                             (if py_in item.1 o then "" else "green"))) cm)
          else None
      | VList _ => None
      end)); last first.
  { intros t [folder content] Hin. simpl.
    apply elem_of_sorted_items in Hin.
    destruct (decide (folder = FILES)) as [->|Hne].
    - rewrite bool_decide_eq_false_2 by (intros ?; done).
      apply py_get_FILES_list in Hin as [l ->]. done.
    - rewrite bool_decide_eq_true_2 by done.
      apply py_get_dir_dict in Hin as (c & -> & Hc); [|done].
      rewrite truthy_get_dir.
      rewrite Hself; last first.
      { apply height_child in Hc. pose proof (height_get_dir o folder). lia. }
      simpl. by destruct (py_in folder o). }
  fold (here_dirs sort_files_by_type s o cm).
  cbn [label children mbind option_bind].
  (* the files that only the other side has *)
  set (tree3 := if py_in FILES o then _ else _).
  assert (Htree3 : tree3 = Node (label tree)
            (((children tree ++ here_files sort_files_by_type s o cm)
              ++ here_dirs sort_files_by_type s o cm)
             ++ there_files sort_files_by_type s o cm)).
  { subst tree3. unfold there_files. destruct (py_in FILES o).
    - etrans; [|apply (foldl_add _ _ (Node _ _))]. apply foldl_ext_in.
      intros b x _. by destruct (bool_decide (x ∉ get_files s)).
    - by rewrite !app_nil_r. }
  clearbody tree3. subst tree3.
  (* the subdirectories that only the other side has *)
  destruct (truthy o) eqn:Ho.
  - erewrite (for_each_add _ (λ folder,
        if bool_decide (folder ≠ FILES) && negb (py_in folder s)
        then Some (bct empty_structure (get_dir o folder)
                     (leaf (mkText (FOLDER_ICON +:+ folder) "red")) cm)
        else None)); last first.
    { intros t folder Hin. simpl.
      destruct (bool_decide (folder ≠ FILES) && negb (py_in folder s)) eqn:Hc;
        [|done].
      apply andb_true_iff in Hc as [Hne _]. apply bool_decide_eq_true in Hne.
      apply elem_of_sorted_keys in Hin as [v Hv].
      apply py_get_dir_dict in Hv as (c & -> & Hc); [|done].
      rewrite Hself; [done|].
      assert (get_dir o folder = c) as ->.
      { unfold get_dir. by rewrite py_get_dir, Hc. }
      apply height_child in Hc. pose proof height_empty.
      pose proof (height_pos s). lia. }
    fold (there_dirs sort_files_by_type s o cm).
    cbn [label children]. by rewrite <- !app_assoc.
  - unfold there_dirs. rewrite (truthy_false_keys _ Ho). simpl.
    by rewrite !app_nil_r, <- !app_assoc.
Qed.

(** Enough fuel: a number of nested calls that reaches the two depths gives
    the tree of [build_comparison_tree]. *)
Lemma build_comparison_tree_rec_enough n s o tree cm :
  (height s + height o ≤ n)%nat →
  build_comparison_tree_rec sort_files_by_type n s o tree cm
  = Some (bct s o tree cm).
Proof.
  remember (height s + height o)%nat as k eqn:Hk.
  revert n s o tree Hk. induction k as [k IH] using lt_wf_ind.
  intros n s o tree Hk Hn.
  assert (Hstep : ∀ m, (k ≤ m)%nat →
    build_comparison_tree_rec sort_files_by_type m s o tree cm
    = Some (Node (label tree)
              (children tree ++ appended sort_files_by_type s o cm))).
  { intros m Hm. destruct m as [|m].
    - pose proof (height_pos s). pose proof (height_pos o). lia.
    - simpl. apply body_appended. intros s' o' t' Hlt.
      eapply IH; [|done|]; lia. }
  rewrite (Hstep n Hn). unfold build_comparison_tree.
  rewrite <- Hk, (Hstep k) by done. done.
Qed.

(** The tree after a call: the children of [appended] follow the children
    the tree had. *)
Lemma build_comparison_tree_unfold s o tree cm :
  bct s o tree cm
  = Node (label tree) (children tree ++ appended sort_files_by_type s o cm).
Proof.
  pose proof (build_comparison_tree_rec_enough
                (S (height s + height o)) s o tree cm) as H.
  simpl in H. rewrite body_appended in H.
  - specialize (H ltac:(lia)). by injection H as <-.
  - intros s' o' t' Hlt. apply build_comparison_tree_rec_enough. lia.
Qed.

End RendererTermination.

(** ** Labels and their decoding *)

Lemma strip_prefix_app p s : strip_prefix p (p +:+ s) = Some s.
Proof. induction p as [|a p IH]; simpl; [done|]. by rewrite Ascii.eqb_refl. Qed.

Lemma strip_folder_of_file f : strip_prefix FOLDER_ICON (FILE_ICON +:+ f) = None.
Proof. reflexivity. Qed.

Lemma folder_label_inj a b : FOLDER_ICON +:+ a = FOLDER_ICON +:+ b → a = b.
Proof. intros H. simpl in H. by simplify_eq. Qed.

Lemma file_label_not_folder f d : FILE_ICON +:+ f ≠ FOLDER_ICON +:+ d.
Proof. intros H. simpl in H. simplify_eq. Qed.

Lemma append_ne s x : x ≠ "" → s +:+ x ≠ s.
Proof.
  intros Hx. induction s as [|a s IH]; simpl.
  - done.
  - intros [= H]. by apply IH.
Qed.

Lemma append_inj_l s x y : s +:+ x = s +:+ y → x = y.
Proof. induction s as [|a s IH]; simpl; [done|]. intros [= H]. by apply IH. Qed.

Lemma eqb_append_self s x : x ≠ "" → String.eqb s (s +:+ x) = false.
Proof. intros Hx. apply String.eqb_neq. intros H. by eapply append_ne. Qed.

Lemma entry_of_folder {str_lower : Py.Lower} cm d st :
  entry_of cm (mkText (FOLDER_ICON +:+ d) st)
  = if String.eqb st "green" then Some (Folder, d, OnlyHere)
    else if String.eqb st "red" then Some (Folder, d, OnlyThere)
    else if String.eqb st "" then Some (Folder, d, Common)
    else None.
Proof. unfold entry_of. cbn [plain style]. by rewrite strip_prefix_app. Qed.

Lemma entry_of_file_here {str_lower : Py.Lower} cm f :
  entry_of cm (mkText (FILE_ICON +:+ f) (file_color cm f +:+ " on green"))
  = Some (File, f, OnlyHere).
Proof.
  unfold entry_of. cbn [plain style].
  rewrite strip_folder_of_file, strip_prefix_app. by rewrite String.eqb_refl.
Qed.

Lemma entry_of_file_there {str_lower : Py.Lower} cm f :
  entry_of cm (mkText (FILE_ICON +:+ f) (file_color cm f +:+ " on red"))
  = Some (File, f, OnlyThere).
Proof.
  unfold entry_of. cbn [plain style].
  rewrite strip_folder_of_file, strip_prefix_app.
  rewrite (proj2 (String.eqb_neq _ _)); [by rewrite String.eqb_refl|].
  intros H. apply append_inj_l in H. done.
Qed.

Lemma entry_of_file_common {str_lower : Py.Lower} cm f :
  entry_of cm (mkText (FILE_ICON +:+ f) (file_color cm f))
  = Some (File, f, Common).
Proof.
  unfold entry_of. cbn [plain style].
  rewrite strip_folder_of_file, strip_prefix_app.
  rewrite !eqb_append_self by done. by rewrite String.eqb_refl.
Qed.

(** ** What a rendered tree shows *)

Lemma has_dir_spec s d : has_dir s d = true ↔ d ≠ FILES ∧ is_Some (dirs s !! d).
Proof.
  unfold has_dir. destruct (decide (d = FILES)) as [->|Hne].
  - rewrite py_get_files. destruct (files s); simpl; split; try done; by intros [? _].
  - rewrite py_get_dir by done. destruct (dirs s !! d); simpl.
    + split; [|done]. intros _. split; [done|by eexists].
    + split; [done|]. intros [_ [? ?]]. done.
Qed.

Lemma has_dir_py_in s d : d ≠ FILES → py_in d s = has_dir s d.
Proof.
  intros Hne. unfold has_dir, py_in. rewrite py_get_dir by done.
  destruct (dirs s !! d); cbn [fmap option_fmap option_map].
  - apply bool_decide_eq_true_2. by eexists.
  - apply bool_decide_eq_false_2. by intros [? ?].
Qed.

Lemma has_dir_get s d : has_dir s d = true → py_get s d = Some (VDict (get_dir s d)).
Proof.
  unfold has_dir, get_dir. by destruct (py_get s d) as [[l|c]|].
Qed.

Lemma has_dir_false_get s d : has_dir s d = false → get_dir s d = empty_structure.
Proof.
  unfold has_dir, get_dir. by destruct (py_get s d) as [[l|c]|].
Qed.

Lemma has_dir_not_FILES s : has_dir s FILES = false.
Proof. unfold has_dir. rewrite py_get_files. by destruct (files s). Qed.

Lemma get_files_nil s : py_in FILES s = false → get_files s = [].
Proof.
  intros H. apply (proj1 (py_in_false _ _)) in H. unfold get_files. by rewrite H.
Qed.

Lemma py_get_empty k : py_get empty_structure k = None.
Proof.
  unfold py_get. destruct (decide (k = FILES)); [done|].
  simpl. by rewrite lookup_empty.
Qed.

Lemma get_dir_empty d : get_dir empty_structure d = empty_structure.
Proof. unfold get_dir. by rewrite py_get_empty. Qed.

Lemma present_empty p k n : present empty_structure p k n = false.
Proof.
  induction p as [|d p IH]; simpl; [|by rewrite get_dir_empty].
  destruct k; [done|]. unfold has_dir. by rewrite py_get_empty.
Qed.

Lemma bind_omap {A B C} (h : A → option B) (f : B → list C) (l : list A) :
  omap h l ≫= f = l ≫= (λ x, from_option f [] (h x)).
Proof.
  induction l as [|x l IH]; [done|]. cbn [omap list_omap].
  destruct (h x) as [y|] eqn:E; rewrite !bind_cons, ?E; cbn [from_option];
    by rewrite IH.
Qed.

Lemma bind_all_nil {A B} (f : A → list B) (l : list A) :
  (∀ x, x ∈ l → f x = []) → l ≫= f = [].
Proof.
  induction l as [|x l IH]; intros H; [done|].
  rewrite bind_cons, H by left. simpl. apply IH. intros. apply H. by right.
Qed.

Lemma bind_unique {A B} (f : A → list B) (l : list A) x :
  NoDup l → x ∈ l → (∀ y, y ∈ l → y ≠ x → f y = []) → l ≫= f = f x.
Proof.
  induction l as [|a l IH]; intros Hnd Hx Hf.
  - by apply not_elem_of_nil in Hx.
  - apply NoDup_cons in Hnd as [Ha Hnd]. rewrite bind_cons.
    apply elem_of_cons in Hx as [->|Hx].
    + rewrite bind_all_nil; [by rewrite app_nil_r|].
      intros y Hy. apply Hf; [by right|]. by intros ->.
    + rewrite Hf; [|left|by intros ->]. simpl.
      apply IH; [done|done|]. intros. apply Hf; [by right|done].
Qed.

Lemma nodes_at_nil t : nodes_at t [] = label <$> children t.
Proof. done. Qed.

Lemma nodes_at_cons t d p :
  nodes_at t (d :: p)
  = children t ≫= λ c,
      if decide (plain (label c) = FOLDER_ICON +:+ d) then nodes_at c p else [].
Proof. done. Qed.

Lemma nodes_at_children t t' p : children t = children t' → nodes_at t p = nodes_at t' p.
Proof. intros H. destruct p; by rewrite ?nodes_at_nil, ?nodes_at_cons, H. Qed.

Lemma NoDup_sorted_items s : NoDup (sorted_items s).
Proof. eapply NoDup_fmap_1, NoDup_sorted_items_keys. Qed.

Section Shown.

Context {str_lower : Py.Lower}.

Variable sort_files_by_type : list string → list string.

Local Abbreviation bct := (build_comparison_tree sort_files_by_type).

Lemma label_build_comparison_tree s o t cm : label (bct s o t cm) = label t.
Proof. by rewrite build_comparison_tree_unfold. Qed.

Lemma children_build_comparison_tree s o l cm :
  children (bct s o (leaf l) cm) = appended sort_files_by_type s o cm.
Proof. by rewrite build_comparison_tree_unfold. Qed.

Lemma nodes_at_root s o l cm :
  nodes_at (bct s o (leaf l) cm) [] = label <$> appended sort_files_by_type s o cm.
Proof. by rewrite nodes_at_nil, children_build_comparison_tree. Qed.

Lemma nodes_at_leaf s o l l' cm p :
  nodes_at (bct s o (leaf l) cm) p = nodes_at (bct s o (leaf l') cm) p.
Proof. apply nodes_at_children. by rewrite !children_build_comparison_tree. Qed.

(** Below a folder [d] the tree shows the rendering of the two
    subdirectories [d], missing ones counting as empty. *)
Lemma nodes_at_folder s o l cm d p :
  nodes_at (bct s o (leaf l) cm) (d :: p)
  = if has_dir s d || has_dir o d
    then nodes_at (bct (get_dir s d) (get_dir o d) (leaf l) cm) p
    else [].
Proof.
  rewrite nodes_at_cons, children_build_comparison_tree. unfold appended.
  set (F := λ c : Tree,
         if decide (plain (label c) = FOLDER_ICON +:+ d) then nodes_at c p else []).
  rewrite !bind_app.
  assert (Hhf : here_files sort_files_by_type s o cm ≫= F = []).
  { apply bind_all_nil. intros c Hc. unfold here_files in Hc.
    destruct (py_in FILES s); [|by apply not_elem_of_nil in Hc].
    apply list_elem_of_fmap in Hc as (f & -> & _). unfold F. cbn [label leaf plain].
    rewrite decide_False; [done|]. apply file_label_not_folder. }
  assert (Htf : there_files sort_files_by_type s o cm ≫= F = []).
  { apply bind_all_nil. intros c Hc. unfold there_files in Hc.
    destruct (py_in FILES o); [|by apply not_elem_of_nil in Hc].
    apply list_elem_of_omap in Hc as (f & _ & Hf).
    destruct (bool_decide (f ∉ get_files s)); [|done]. injection Hf as <-.
    unfold F. cbn [label leaf plain].
    rewrite decide_False; [done|]. apply file_label_not_folder. }
  rewrite Hhf, Htf. cbn [app]. unfold here_dirs, there_dirs. rewrite !bind_omap.
  destruct (has_dir s d) eqn:Hs; cbn [orb].
  - (* [d] is a subdirectory of this side *)
    pose proof (proj1 (has_dir_spec _ _) Hs) as [Hne _].
    rewrite (bind_unique _ _ (d, VDict (get_dir s d))).
    + rewrite (bind_all_nil _ (sorted_keys o)).
      * rewrite app_nil_r. cbn [from_option fst snd].
        rewrite bool_decide_eq_true_2 by done. cbn [from_option]. unfold F.
        rewrite label_build_comparison_tree. cbn [label leaf plain].
        rewrite decide_True by done. apply nodes_at_leaf.
      * intros k Hk.
        destruct (bool_decide (k ≠ FILES) && negb (py_in k s)) eqn:Hc; [|done].
        apply andb_true_iff in Hc as [Hk1 Hk2].
        apply bool_decide_eq_true in Hk1. apply negb_true_iff in Hk2.
        cbn [from_option]. unfold F.
        rewrite label_build_comparison_tree. cbn [label leaf plain].
        rewrite decide_False; [done|]. intros Heq%folder_label_inj. subst k.
        rewrite has_dir_py_in in Hk2 by done. congruence.
    + apply NoDup_sorted_items.
    + apply elem_of_sorted_items. by apply has_dir_get.
    + intros [k v] Hin Hneq. apply elem_of_sorted_items in Hin.
      cbn [fst snd]. destruct v as [fl|c]; [done|].
      destruct (bool_decide (k ≠ FILES)); [|done].
      cbn [from_option]. unfold F.
      rewrite label_build_comparison_tree. cbn [label leaf plain].
      rewrite decide_False; [done|]. intros Heq%folder_label_inj. subst k.
      rewrite (has_dir_get _ _ Hs) in Hin. congruence.
  - (* [d] is no subdirectory of this side *)
    rewrite (bind_all_nil _ (sorted_items s)); last first.
    { intros [k v] Hin. apply elem_of_sorted_items in Hin.
      cbn [fst snd]. destruct v as [fl|c]; [done|].
      destruct (bool_decide (k ≠ FILES)) eqn:Hk; [|done].
      apply bool_decide_eq_true in Hk.
      cbn [from_option]. unfold F.
      rewrite label_build_comparison_tree. cbn [label leaf plain].
      rewrite decide_False; [done|]. intros Heq%folder_label_inj. subst k.
      unfold has_dir in Hs. by rewrite Hin in Hs. }
    cbn [app]. destruct (has_dir o d) eqn:Ho.
    + pose proof (proj1 (has_dir_spec _ _) Ho) as [Hne _].
      rewrite (bind_unique _ _ d).
      * rewrite bool_decide_eq_true_2 by done.
        rewrite has_dir_py_in, Hs by done. cbn [negb andb from_option].
        unfold F. rewrite label_build_comparison_tree. cbn [label leaf plain].
        rewrite decide_True by done.
        rewrite (has_dir_false_get _ _ Hs). apply nodes_at_leaf.
      * apply NoDup_sorted_keys.
      * apply elem_of_sorted_keys. rewrite (has_dir_get _ _ Ho). by eexists.
      * intros k Hk Hkd.
        destruct (bool_decide (k ≠ FILES) && negb (py_in k s)); [|done].
        cbn [from_option]. unfold F.
        rewrite label_build_comparison_tree. cbn [label leaf plain].
        rewrite decide_False; [done|]. by intros Heq%folder_label_inj.
    + apply bind_all_nil. intros k Hk.
      destruct (bool_decide (k ≠ FILES) && negb (py_in k s)) eqn:Hc; [|done].
      apply andb_true_iff in Hc as [Hk1 _]. apply bool_decide_eq_true in Hk1.
      cbn [from_option]. unfold F.
      rewrite label_build_comparison_tree. cbn [label leaf plain].
      rewrite decide_False; [done|]. intros Heq%folder_label_inj. subst k.
      apply elem_of_sorted_keys in Hk. apply py_in_true in Hk.
      rewrite has_dir_py_in in Hk by done. congruence.
Qed.

End Shown.

(** ** The children of one call, one by one *)

Section Children.

Context {str_lower : Py.Lower}.

Variable sort_files_by_type : list string → list string.
Hypothesis sort_files_perm : ∀ l, sort_files_by_type l ≡ₚ l.

Local Abbreviation bct := (build_comparison_tree sort_files_by_type).

Lemma elem_of_here_files s o cm c :
  c ∈ here_files sort_files_by_type s o cm ↔
  ∃ f, f ∈ get_files s ∧
       c = leaf (mkText (FILE_ICON +:+ f)
                   (if bool_decide (f ∉ get_files o)
                    then (file_color cm f +:+ " on green")
                    else file_color cm f)).
Proof.
  unfold here_files. destruct (py_in FILES s) eqn:Hin.
  - rewrite list_elem_of_fmap. setoid_rewrite sort_files_perm.
    split; intros (f & ? & ?); by exists f.
  - rewrite (get_files_nil _ Hin). rewrite elem_of_nil.
    split; [done|]. intros (f & Hf & _). by apply not_elem_of_nil in Hf.
Qed.

Lemma elem_of_there_files s o cm c :
  c ∈ there_files sort_files_by_type s o cm ↔
  ∃ f, f ∈ get_files o ∧ (f ∉ get_files s) ∧
       c = leaf (mkText (FILE_ICON +:+ f) (file_color cm f +:+ " on red")).
Proof.
  unfold there_files. destruct (py_in FILES o) eqn:Hin.
  - rewrite list_elem_of_omap. setoid_rewrite sort_files_perm. split.
    + intros (f & Hf & Hc). exists f.
      destruct (bool_decide (f ∉ get_files s)) eqn:Hs; [|done].
      apply bool_decide_eq_true in Hs. by injection Hc as <-.
    + intros (f & Hf & Hs & ->). exists f. split; [done|].
      by rewrite bool_decide_eq_true_2.
  - rewrite (get_files_nil _ Hin). rewrite elem_of_nil.
    split; [done|]. intros (f & Hf & _). by apply not_elem_of_nil in Hf.
Qed.

Lemma elem_of_here_dirs s o cm c :
  c ∈ here_dirs sort_files_by_type s o cm ↔
  ∃ d, has_dir s d = true ∧
       c = bct (get_dir s d) (get_dir o d)
             (leaf (mkText (FOLDER_ICON +:+ d)
                      (if has_dir o d then "" else "green"))) cm.
Proof.
  unfold here_dirs. rewrite list_elem_of_omap. split.
  - intros ([k v] & Hin & Hc). cbn [fst snd] in Hc.
    apply elem_of_sorted_items in Hin.
    destruct v as [fl|c']; [done|].
    destruct (bool_decide (k ≠ FILES)) eqn:Hk; [|done].
    apply bool_decide_eq_true in Hk. injection Hc as <-.
    exists k. rewrite has_dir_py_in by done.
    assert (get_dir s k = c') as -> by (unfold get_dir; by rewrite Hin).
    split; [|done]. unfold has_dir. by rewrite Hin.
  - intros (d & Hd & ->). exists (d, VDict (get_dir s d)). split.
    + apply elem_of_sorted_items. by apply has_dir_get.
    + cbn [fst snd]. apply has_dir_spec in Hd as [Hne _].
      rewrite bool_decide_eq_true_2 by done. by rewrite has_dir_py_in.
Qed.

Lemma elem_of_there_dirs s o cm c :
  c ∈ there_dirs sort_files_by_type s o cm ↔
  ∃ d, has_dir o d = true ∧ has_dir s d = false ∧
       c = bct empty_structure (get_dir o d)
             (leaf (mkText (FOLDER_ICON +:+ d) "red")) cm.
Proof.
  unfold there_dirs. rewrite list_elem_of_omap. split.
  - intros (k & Hin & Hc).
    destruct (bool_decide (k ≠ FILES) && negb (py_in k s)) eqn:Hk; [|done].
    apply andb_true_iff in Hk as [Hk1 Hk2].
    apply bool_decide_eq_true in Hk1. apply negb_true_iff in Hk2.
    injection Hc as <-. exists k.
    rewrite has_dir_py_in in Hk2 by done.
    apply elem_of_sorted_keys, py_in_true in Hin.
    rewrite has_dir_py_in in Hin by done. done.
  - intros (d & Ho & Hs & ->). exists d.
    pose proof (proj1 (has_dir_spec _ _) Ho) as [Hne _]. split.
    + apply elem_of_sorted_keys. rewrite (has_dir_get _ _ Ho). by eexists.
    + rewrite bool_decide_eq_true_2 by done.
      by rewrite has_dir_py_in, Hs.
Qed.

(** The labels shown at the root. *)
Lemma elem_of_nodes_at_root s o l cm t :
  t ∈ nodes_at (bct s o (leaf l) cm) [] ↔
  (∃ f, f ∈ get_files s ∧
        t = mkText (FILE_ICON +:+ f)
              (if bool_decide (f ∉ get_files o)
               then (file_color cm f +:+ " on green") else file_color cm f)) ∨
  (∃ d, has_dir s d = true ∧
        t = mkText (FOLDER_ICON +:+ d) (if has_dir o d then "" else "green")) ∨
  (∃ f, f ∈ get_files o ∧ (f ∉ get_files s) ∧
        t = mkText (FILE_ICON +:+ f) (file_color cm f +:+ " on red")) ∨
  (∃ d, has_dir o d = true ∧ has_dir s d = false ∧
        t = mkText (FOLDER_ICON +:+ d) "red").
Proof.
  rewrite nodes_at_root, list_elem_of_fmap. unfold appended.
  setoid_rewrite elem_of_app. setoid_rewrite elem_of_app.
  setoid_rewrite elem_of_app.
  setoid_rewrite elem_of_here_files. setoid_rewrite elem_of_here_dirs.
  setoid_rewrite elem_of_there_files. setoid_rewrite elem_of_there_dirs.
  split.
  - intros (c & -> & [(f & ? & ->) | [(d & ? & ->) | [(f & ? & ? & ->) | (d & ? & ? & ->)]]]);
      rewrite ?label_build_comparison_tree; cbn [label leaf]; eauto 10.
  - intros [(f & ? & ->) | [(d & ? & ->) | [(f & ? & ? & ->) | (d & ? & ? & ->)]]].
    + eexists. split; [|left; eauto]. done.
    + eexists. split; [|right; left; eauto].
      by rewrite label_build_comparison_tree.
    + eexists. split; [|right; right; left; eauto]. done.
    + eexists. split; [|right; right; right; eauto].
      by rewrite label_build_comparison_tree.
Qed.

Lemma entry_of_node_of cm k n m : entry_of cm (node_of cm k n m) = Some (k, n, m).
Proof.
  destruct k, m; cbn [node_of];
    auto using entry_of_file_here, entry_of_file_there, entry_of_file_common;
    by rewrite entry_of_folder.
Qed.

(** The labels shown at the root are those of the entries of either side,
    marked by their presence on the two sides. *)
Lemma nodes_at_root_classify s o l cm t :
  t ∈ nodes_at (bct s o (leaf l) cm) [] ↔
  ∃ k n m, classify (present s [] k n) (present o [] k n) = Some m ∧
           t = node_of cm k n m.
Proof.
  rewrite elem_of_nodes_at_root. cbn [present]. split.
  - intros [(f & Hf & ->) | [(d & Hd & ->) | [(f & Hf & Hs & ->) | (d & Ho & Hs & ->)]]].
    + exists File, f. destruct (bool_decide (f ∉ get_files o)) eqn:Hfo.
      * exists OnlyHere. apply bool_decide_eq_true in Hfo.
        by rewrite bool_decide_eq_true_2, bool_decide_eq_false_2.
      * exists Common. apply bool_decide_eq_false in Hfo. apply dec_stable in Hfo.
        by rewrite !bool_decide_eq_true_2.
    + exists Folder, d. rewrite Hd.
      destruct (has_dir o d); [by exists Common | by exists OnlyHere].
    + exists File, f, OnlyThere.
      by rewrite bool_decide_eq_false_2, bool_decide_eq_true_2.
    + exists Folder, d, OnlyThere. by rewrite Hs, Ho.
  - intros (k & n & m & Hc & ->). destruct k.
    + destruct (bool_decide (n ∈ get_files s)) eqn:Hs,
               (bool_decide (n ∈ get_files o)) eqn:Ho;
        simpl in Hc; [| | |done]; injection Hc as <-;
        try apply bool_decide_eq_true in Hs; try apply bool_decide_eq_true in Ho;
        try apply bool_decide_eq_false in Hs; try apply bool_decide_eq_false in Ho.
      * left. exists n. split; [done|].
        by rewrite bool_decide_eq_false_2 by (intros ?; done).
      * left. exists n. split; [done|]. by rewrite bool_decide_eq_true_2.
      * right; right; left. by exists n.
    + destruct (has_dir s n) eqn:Hs, (has_dir o n) eqn:Ho;
        simpl in Hc; [| | |done]; injection Hc as <-.
      * right; left. exists n. by rewrite Ho.
      * right; left. exists n. by rewrite Ho.
      * right; right; right. by exists n.
Qed.

(** The same at any depth: every label shown is that of an entry of either
    side with the mark of its presence, and every such entry is shown. *)
Lemma nodes_at_classify s o l cm p t :
  t ∈ nodes_at (bct s o (leaf l) cm) p ↔
  ∃ k n m, classify (present s p k n) (present o p k n) = Some m ∧
           t = node_of cm k n m.
Proof.
  revert s o. induction p as [|d p IH]; intros s o.
  - apply nodes_at_root_classify.
  - rewrite nodes_at_folder. cbn [present].
    destruct (has_dir s d || has_dir o d) eqn:Hd.
    + apply IH.
    + apply orb_false_iff in Hd as [Hs Ho].
      rewrite (has_dir_false_get _ _ Hs), (has_dir_false_get _ _ Ho).
      rewrite elem_of_nil. split; [done|].
      intros (k & n & m & Hc & _). by rewrite !present_empty in Hc.
Qed.

Lemma entries_at_classify s o l cm p k n m :
  (k, n, m) ∈ entries_at cm (bct s o (leaf l) cm) p ↔
  classify (present s p k n) (present o p k n) = Some m.
Proof.
  unfold entries_at. rewrite list_elem_of_omap.
  setoid_rewrite nodes_at_classify. split.
  - intros (t & (k' & n' & m' & Hc & ->) & He).
    rewrite entry_of_node_of in He. by injection He as -> -> ->.
  - intros Hc. exists (node_of cm k n m). split; [eauto|].
    apply entry_of_node_of.
Qed.

(** Every label shown decodes to an entry. *)
Lemma nodes_at_decode s o l cm p t :
  t ∈ nodes_at (bct s o (leaf l) cm) p → is_Some (entry_of cm t).
Proof.
  intros (k & n & m & _ & ->)%nodes_at_classify.
  rewrite entry_of_node_of. by eexists.
Qed.

End Children.

Lemma sort_by_extension_perm l : sort_by_extension l ≡ₚ l.
Proof. apply merge_sort_Permutation. Qed.

(** ** The diff classification *)

Section Classification.

Context {str_lower : Py.Lower}.

Variable sort_files_by_type : list string → list string.
Hypothesis sort_files_perm : ∀ l, sort_files_by_type l ≡ₚ l.

Local Abbreviation bct := (build_comparison_tree sort_files_by_type).

(** C1 (symmetry of the diff classification): the entries that the call
    on (S1, S2) marks only-here are exactly those that the call on (S2, S1)
    marks only-there, and conversely; no entry is marked only-here by both
    calls. Entries are files and folders at every relative path. *)
Theorem diff_symmetry (S1 S2 : structure) (cm : gmap string string)
    (l1 l2 : Text) (p : list string) (k : kind) (n : string) :
  let t12 := bct S1 S2 (leaf l1) cm in
  let t21 := bct S2 S1 (leaf l2) cm in
  (marked cm t12 OnlyHere p k n ↔ marked cm t21 OnlyThere p k n) ∧
  (marked cm t12 OnlyThere p k n ↔ marked cm t21 OnlyHere p k n) ∧
  ¬ (marked cm t12 OnlyHere p k n ∧ marked cm t21 OnlyHere p k n).
Proof.
  intros t12 t21. subst t12 t21. unfold marked.
  rewrite !entries_at_classify by done.
  destruct (present S1 p k n), (present S2 p k n); simpl;
    split_and!; try split; try done; by intros [? ?].
Qed.

(** C3 (partition): a file that is in the file list of either side at a
    relative path is shown at that path with exactly one mark among common,
    only-here (left) and only-there (right). *)
Theorem diff_partition (S1 S2 : structure) (cm : gmap string string)
    (l : Text) (p : list string) (f : string) :
  present S1 p File f || present S2 p File f = true →
  ∃ m, marked cm (bct S1 S2 (leaf l) cm) m p File f ∧
       ∀ m', marked cm (bct S1 S2 (leaf l) cm) m' p File f → m' = m.
Proof.
  intros H. unfold marked. setoid_rewrite entries_at_classify; [|done..].
  destruct (present S1 p File f), (present S2 p File f); simpl in *;
    [exists Common | exists OnlyHere | exists OnlyThere | done];
    (split; [done|]; by intros m' [= <-]).
Qed.

(** C4, as amended (empty side): against an empty other side every entry
    of [S] is marked only-here and nothing else is shown; the text and HTML
    trees of the empty side have no entry; the diff tree of the empty side
    shows every entry of [S], marked only-there. *)
Theorem empty_side (S : structure) (cm : gmap string string) (l : Text)
    (data : comparison_data) (p : list string) (k : kind) (n : string) :
  (present S p k n = true →
   marked cm (bct S empty_structure (leaf l) cm) OnlyHere p k n) ∧
  (∀ m, marked cm (bct S empty_structure (leaf l) cm) m p k n → m = OnlyHere) ∧
  build_txt_tree sort_files_by_type empty_structure "" true = [] ∧
  build_html_tree sort_files_by_type data empty_structure true
  = "<ul>" +:+ Py.nl +:+ "</ul>" ∧
  (∀ m, marked cm (bct empty_structure S (leaf l) cm) m p k n ↔
        m = OnlyThere ∧ present S p k n = true).
Proof.
  unfold marked. setoid_rewrite entries_at_classify; [|done..].
  rewrite present_empty. split_and!.
  - by intros ->.
  - intros m. destruct (present S p k n); simpl; [|done]. by intros [= <-].
  - done.
  - done.
  - intros m. destruct (present S p k n); simpl; split; try done.
    + by intros [= <-].
    + by intros [-> _].
    + by intros [_ ?].
Qed.

(** C10 (white fallback): a file of either side whose lower-cased extension
    has no colour in the map is shown, in the default colour [#FFFFFF],
    alone when common, on green when only here, on red when only there. *)
Theorem color_fallback (S1 S2 : structure) (cm : gmap string string)
    (l : Text) (p : list string) (f : string) :
  cm !! Py.lower (Py.splitext f).2 = None →
  present S1 p File f || present S2 p File f = true →
  mkText (FILE_ICON +:+ f)
    (if present S1 p File f
     then if present S2 p File f then "#FFFFFF" else "#FFFFFF on green"
     else "#FFFFFF on red")
  ∈ nodes_at (bct S1 S2 (leaf l) cm) p.
Proof.
  intros Hcm Hin. apply nodes_at_classify; [done|]. exists File, f.
  assert (Hcol : file_color cm f = "#FFFFFF").
  { unfold file_color. by rewrite Hcm. }
  destruct (present S1 p File f), (present S2 p File f); simpl in *;
    [exists Common | exists OnlyHere | exists OnlyThere | done];
    (split; [done|]); cbn [node_of]; by rewrite Hcol.
Qed.

End Classification.

Section ClassificationSamples.

#[local] Existing Instance sample_lower.


(** The empty side's diff tree is not empty (C4 as stated fails): with
    [a.py] on the left and nothing on the right, the right tree shows
    [a.py] on red. *)
Lemma empty_side_render_counterexample :
  children (build_comparison_tree sort_by_extension empty_structure
              (Structure (Some ["a.py"]) ∅) (leaf root_right) ∅)
  = [leaf (mkText "📄 a.py" "#FFFFFF on red")] ∧
  children (build_comparison_tree sort_by_extension empty_structure
              (Structure (Some ["a.py"]) ∅) (leaf root_right) ∅) ≠ [].
Proof. split; [by vm_compute|]. by vm_compute. Qed.

Lemma diff_symmetry_witness :
  let cm : gmap string string := {[ ".py" := "#3572A5" ]} in
  let t12 := build_comparison_tree sort_by_extension sample_left sample_right
               (leaf root_left) cm in
  let t21 := build_comparison_tree sort_by_extension sample_right sample_left
               (leaf root_right) cm in
  (marked cm t12 OnlyHere ["src"] File "b.py" ↔
   marked cm t21 OnlyThere ["src"] File "b.py") ∧
  (marked cm t12 OnlyThere ["src"] File "b.py" ↔
   marked cm t21 OnlyHere ["src"] File "b.py") ∧
  ¬ (marked cm t12 OnlyHere ["src"] File "b.py" ∧
     marked cm t21 OnlyHere ["src"] File "b.py").
Proof.
  exact (diff_symmetry sort_by_extension sort_by_extension_perm
           sample_left sample_right {[ ".py" := "#3572A5" ]}
           root_left root_right ["src"] File "b.py").
Defined.

Lemma diff_partition_witness :
  ∃ m, marked ∅ (build_comparison_tree sort_by_extension scenario_left
                   scenario_right (leaf root_left) ∅) m ["src"] File "c.py" ∧
       ∀ m', marked ∅ (build_comparison_tree sort_by_extension scenario_left
                         scenario_right (leaf root_left) ∅) m' ["src"] File "c.py" →
             m' = m.
Proof.
  apply (diff_partition sort_by_extension sort_by_extension_perm
           scenario_left scenario_right ∅ root_left ["src"] "c.py").
  vm_compute. reflexivity.
Defined.

Lemma empty_side_witness :
  (present sample_left ["src"] File "a.py" = true →
   marked ∅ (build_comparison_tree sort_by_extension sample_left
               empty_structure (leaf root_left) ∅) OnlyHere ["src"] File "a.py") ∧
  (∀ m, marked ∅ (build_comparison_tree sort_by_extension sample_left
                    empty_structure (leaf root_left) ∅) m ["src"] File "a.py" →
        m = OnlyHere) ∧
  build_txt_tree sort_by_extension empty_structure "" true = [] ∧
  build_html_tree sort_by_extension
    (mkComparisonData (mkSide "/l" "l" sample_left)
       (mkSide "/r" "r" empty_structure) (mkMetadata [] [] "glob"))
    empty_structure true
  = "<ul>" +:+ Py.nl +:+ "</ul>" ∧
  (∀ m, marked ∅ (build_comparison_tree sort_by_extension empty_structure
                    sample_left (leaf root_left) ∅) m ["src"] File "a.py" ↔
        m = OnlyThere ∧ present sample_left ["src"] File "a.py" = true).
Proof.
  exact (empty_side sort_by_extension sort_by_extension_perm sample_left ∅
           root_left _ ["src"] File "a.py").
Defined.

Lemma color_fallback_witness :
  mkText "📄 README" "#FFFFFF on green"
  ∈ nodes_at (build_comparison_tree sort_by_extension sample_left sample_right
                (leaf root_left) {[ ".py" := "#3572A5" ]}) [].
Proof.
  apply (color_fallback sort_by_extension sort_by_extension_perm
           sample_left sample_right {[ ".py" := "#3572A5" ]} root_left [] "README").
  - vm_compute. reflexivity.
  - vm_compute. reflexivity.
Defined.

End ClassificationSamples.

(** ** Strings *)

Lemma len_app s t : Py.len (s +:+ t) = Py.len s + Py.len t.
Proof. induction s as [|a s IH]; simpl; [done|]. rewrite IH. lia. Qed.

Lemma len_nonneg s : 0 ≤ Py.len s.
Proof. induction s as [|a s IH]; simpl; [done|]. destruct (Py.is_continuation a); lia. Qed.

Lemma len_spaces n : Py.len (Py.repeat_str " " n) = Z.of_nat n.
Proof.
  unfold Py.repeat_str. induction n as [|n IH]; [done|].
  cbn [replicate]. destruct n as [|n'].
  - done.
  - change (String.concat "" (" " :: replicate (S n') " "))
      with (" " +:+ "" +:+ String.concat "" (replicate (S n') " ")).
    rewrite !len_app, IH. simpl Py.len. lia.
Qed.

(** A line no longer than the field is padded to the width of the field. *)
Lemma len_ljust s width : Py.len s ≤ width → Py.len (Py.ljust s width) = width.
Proof.
  intros H. unfold Py.ljust. rewrite len_app, len_spaces. lia.
Qed.

Lemma foldl_max_le (n : Z) (ns : list Z) : n ≤ foldl Z.max n ns.
Proof.
  revert n. induction ns as [|m ns IH]; intros n; simpl; [lia|].
  etrans; [|apply IH]. lia.
Qed.

Lemma foldl_max_elem (n : Z) (ns : list Z) x : x ∈ ns → x ≤ foldl Z.max n ns.
Proof.
  revert n. induction ns as [|m ns IH]; intros n Hx; simpl.
  - by apply not_elem_of_nil in Hx.
  - apply elem_of_cons in Hx as [->|Hx].
    + etrans; [|apply foldl_max_le]. lia.
    + by apply IH.
Qed.

Lemma max_len_ge lines line : line ∈ lines → Py.len line ≤ max_len lines.
Proof.
  intros Hin. unfold max_len. destruct lines as [|l0 lines]; simpl.
  - by apply not_elem_of_nil in Hin.
  - apply elem_of_cons in Hin as [->|Hin].
    + apply foldl_max_le.
    + apply foldl_max_elem. by apply list_elem_of_fmap_2.
Qed.

Lemma max_len_nonneg lines : 0 ≤ max_len lines.
Proof.
  unfold max_len. destruct lines as [|l0 lines]; simpl; [done|].
  etrans; [apply (len_nonneg l0)|apply foldl_max_le].
Qed.

Lemma foldl_snoc {A B} (f : A → B) (l : list A) (acc : list B) :
  foldl (λ acc x, acc ++ [f x]) acc l = acc ++ (f <$> l).
Proof.
  revert acc. induction l as [|x l IH]; intros acc; simpl.
  - by rewrite app_nil_r.
  - by rewrite IH, <- app_assoc.
Qed.

Lemma lower_ascii_idem a : Py.lower_ascii (Py.lower_ascii a) = Py.lower_ascii a.
Proof. by destruct a as [[] [] [] [] [] [] [] []]. Qed.

Lemma lower_idem s : Py.ascii_lower (Py.ascii_lower s) = Py.ascii_lower s.
Proof. induction s as [|a s IH]; simpl; [done|]. by rewrite lower_ascii_idem, IH. Qed.

Lemma lower_app s t :
  Py.ascii_lower (s +:+ t) = Py.ascii_lower s +:+ Py.ascii_lower t.
Proof. induction s as [|a s IH]; simpl; [done|]. by rewrite IH. Qed.

Lemma lower_ascii_dot a :
  Ascii.eqb Py.dot (Py.lower_ascii a) = Ascii.eqb Py.dot a.
Proof. by destruct a as [[] [] [] [] [] [] [] []]. Qed.

Lemma prefix_empty s : String.prefix "" s = true.
Proof. by destruct s. Qed.

Lemma startswith_dot_lower s :
  Py.startswith "." (Py.ascii_lower s) = Py.startswith "." s.
Proof.
  destruct s as [|a s]; [done|]. unfold Py.startswith.
  cbn [Py.ascii_lower String.prefix].
  pose proof (lower_ascii_dot a) as H.
  change Py.dot with "."%char in H.
  destruct (ascii_dec "." (Py.lower_ascii a)) as [E1|E1],
           (ascii_dec "." a) as [E2|E2]; rewrite ?prefix_empty; try done.
  - apply Ascii.eqb_eq in E1. rewrite E1 in H. symmetry in H.
    by apply Ascii.eqb_eq in H.
  - apply Ascii.eqb_eq in E2. rewrite E2 in H. by apply Ascii.eqb_eq in H.
Qed.

(** ** The recursion of [_build_txt_tree] terminates *)

Lemma for_each_concat {A B} (body : list B → A → option (list B))
    (g : A → list B) l acc :
  (∀ acc x, x ∈ l → body acc x = Some (acc ++ g x)) →
  for_each body l acc = Some (acc ++ concat (g <$> l)).
Proof.
  revert acc. induction l as [|x l IH]; intros acc H; simpl.
  - by rewrite app_nil_r.
  - rewrite H by left. rewrite IH by (intros; apply H; by right).
    by rewrite <- app_assoc.
Qed.

Lemma elem_of_enumerate {A} (l : list A) i x : (i, x) ∈ enumerate l → x ∈ l.
Proof. unfold enumerate. intros H. by apply elem_of_zip_r in H. Qed.

Section TxtTermination.

Context {str_lower : Py.Lower}.

Variable sort_files_by_type : list string → list string.

Local Abbreviation txt := (build_txt_tree sort_files_by_type).

Lemma txt_body_lines self s prefix is_last :
  (∀ c p l, (height c < height s)%nat → self c p l = Some (txt c p l)) →
  build_txt_tree_body sort_files_by_type self s prefix is_last
  = Some (concat (dir_lines sort_files_by_type s prefix
                    <$> enumerate (sorted_items s))
          ++ file_lines sort_files_by_type s prefix).
Proof.
  intros Hself. unfold build_txt_tree_body.
  erewrite (for_each_concat _ (dir_lines sort_files_by_type s prefix)); last first.
  { intros acc [i [name content]] Hin. unfold dir_lines.
    apply elem_of_enumerate, elem_of_sorted_items in Hin.
    destruct (bool_decide (name = FILES)) eqn:Hname; [by rewrite app_nil_r|].
    apply bool_decide_eq_false in Hname.
    apply py_get_dir_dict in Hin as (c & -> & Hc); [|done].
    apply height_child in Hc.
    destruct (_ || _); rewrite Hself by done; simpl;
      f_equal; by rewrite <- (app_assoc acc [_]). }
  cbn [mbind option_bind app]. f_equal. unfold file_lines.
  destruct (py_in FILES s); [|by rewrite app_nil_r].
  etrans; [|apply foldl_snoc].
  apply foldl_ext_in. intros acc [i file] _. simpl. by destruct (_ =? _).
Qed.

(** Enough fuel: a number of nested calls that reaches the depth gives the
    lines of [build_txt_tree]. *)
Lemma build_txt_tree_rec_enough n s prefix is_last :
  (height s ≤ n)%nat →
  build_txt_tree_rec sort_files_by_type n s prefix is_last
  = Some (txt s prefix is_last).
Proof.
  remember (height s) as k eqn:Hk.
  revert n s prefix is_last Hk. induction k as [k IH] using lt_wf_ind.
  intros n s prefix is_last Hk Hn.
  assert (Hstep : ∀ m, (k ≤ m)%nat →
    build_txt_tree_rec sort_files_by_type m s prefix is_last
    = Some (concat (dir_lines sort_files_by_type s prefix
                      <$> enumerate (sorted_items s))
            ++ file_lines sort_files_by_type s prefix)).
  { intros m Hm. destruct m as [|m].
    - pose proof (height_pos s). lia.
    - simpl. apply txt_body_lines. intros c p l Hlt.
      eapply IH; [|done|]; lia. }
  rewrite (Hstep n Hn). unfold build_txt_tree.
  rewrite <- Hk, (Hstep k) by done. done.
Qed.

(** The lines of a directory: for each subdirectory its line and its own
    lines, then the lines of the files. *)
Lemma build_txt_tree_unfold s prefix is_last :
  txt s prefix is_last
  = concat (dir_lines sort_files_by_type s prefix <$> enumerate (sorted_items s))
    ++ file_lines sort_files_by_type s prefix.
Proof.
  pose proof (build_txt_tree_rec_enough (S (height s)) s prefix is_last) as H.
  simpl in H. rewrite txt_body_lines in H.
  - specialize (H ltac:(lia)). by injection H as <-.
  - intros c p l Hlt. apply build_txt_tree_rec_enough. lia.
Qed.

End TxtTermination.

(** ** The recursions of [_build_html_tree] and of [==] terminate *)

Lemma for_each_is_Some {S A} (body : S → A → option S) l st :
  (∀ st x, x ∈ l → is_Some (body st x)) → is_Some (for_each body l st).
Proof.
  revert st. induction l as [|x l IH]; intros st H; simpl; [by eexists|].
  destruct (H st x) as [st' ->]; [left|]. apply IH. intros. apply H. by right.
Qed.

Section HtmlTermination.

Context {str_lower : Py.Lower}.

Variable sort_files_by_type : list string → list string.
Variable data : comparison_data.

Local Abbreviation html_body := (build_html_tree_body sort_files_by_type data).
Local Abbreviation html_rec := (build_html_tree_rec sort_files_by_type data).

Lemma html_body_ext self1 self2 s incl :
  (∀ c i, (height c < height s)%nat → self1 c i = self2 c i) →
  html_body self1 s incl = html_body self2 s incl.
Proof.
  intros H. unfold build_html_tree_body. f_equal.
  apply for_each_ext. intros acc [name content] Hin.
  apply elem_of_sorted_items in Hin.
  destruct (bool_decide (name ≠ FILES)) eqn:Hname; [|done].
  apply bool_decide_eq_true in Hname.
  apply py_get_dir_dict in Hin as (c & -> & Hc); [|done].
  apply height_child in Hc. by rewrite H.
Qed.

Lemma html_body_total self s incl :
  (∀ c i, (height c < height s)%nat → is_Some (self c i)) →
  is_Some (html_body self s incl).
Proof.
  intros H. unfold build_html_tree_body.
  match goal with
  | |- is_Some (for_each ?f ?l ?st ≫= _) =>
      destruct (for_each_is_Some f l st) as [html ->]
  end; [|by eexists].
  intros acc [name content] Hin. apply elem_of_sorted_items in Hin.
  destruct (bool_decide (name ≠ FILES)) eqn:Hname; [|by eexists].
  apply bool_decide_eq_true in Hname.
  apply py_get_dir_dict in Hin as (c & -> & Hc); [|done].
  apply height_child in Hc. destruct (H c incl Hc) as [sub ->]. by eexists.
Qed.

Lemma html_rec_stable n s incl :
  (height s ≤ n)%nat →
  is_Some (html_rec n s incl) ∧ html_rec n s incl = html_rec (height s) s incl.
Proof.
  remember (height s) as k eqn:Hk.
  revert n s incl Hk. induction k as [k IH] using lt_wf_ind.
  intros n s incl Hk Hn.
  destruct n as [|n]; [pose proof (height_pos s); lia|].
  destruct k as [|k]; [pose proof (height_pos s); lia|].
  cbn [build_html_tree_rec]. split.
  - apply html_body_total. intros c i Hc.
    eapply (IH (height c)); [lia|done|lia].
  - apply html_body_ext. intros c i Hc.
    destruct (IH (height c) ltac:(lia) n c i eq_refl ltac:(lia)) as [_ ->].
    destruct (IH (height c) ltac:(lia) k c i eq_refl ltac:(lia)) as [_ ->].
    done.
Qed.

(** Enough fuel: a number of nested calls that reaches the depth gives the
    list of [build_html_tree]. *)
Lemma build_html_tree_rec_enough n s incl :
  (height s ≤ n)%nat →
  html_rec n s incl = Some (build_html_tree sort_files_by_type data s incl).
Proof.
  intros Hn. destruct (html_rec_stable n s incl Hn) as [[r Hr] Heq].
  unfold build_html_tree. rewrite <- Heq, Hr. done.
Qed.

End HtmlTermination.

Lemma py_eq_body_ext self1 self2 a b :
  (∀ c d, (height c < height a)%nat → self1 c d = self2 c d) →
  py_eq_body self1 a b = py_eq_body self2 a b.
Proof.
  intros H. unfold py_eq_body. destruct (negb _); [done|].
  apply for_each_ext. intros acc [key va] Hin.
  apply elem_of_py_items in Hin. destruct (negb acc); [done|].
  destruct (py_get b key) as [[lb|cb]|]; [done| |done].
  destruct va as [la|ca]; [done|].
  destruct (decide (key = FILES)) as [->|Hne].
  - by apply py_get_FILES_list in Hin as [? ?].
  - apply py_get_dir_dict in Hin as (c & [= <-] & Hc); [|done].
    apply height_child in Hc. by apply H.
Qed.

Lemma py_eq_body_total self a b :
  (∀ c d, (height c < height a)%nat → is_Some (self c d)) →
  is_Some (py_eq_body self a b).
Proof.
  intros H. unfold py_eq_body. destruct (negb _); [by eexists|].
  apply for_each_is_Some. intros acc [key va] Hin.
  apply elem_of_py_items in Hin. destruct (negb acc); [by eexists|].
  destruct (py_get b key) as [[lb|cb]|]; [destruct va; by eexists| |by eexists].
  destruct va as [la|ca]; [by eexists|].
  destruct (decide (key = FILES)) as [->|Hne].
  - by apply py_get_FILES_list in Hin as [? ?].
  - apply py_get_dir_dict in Hin as (c & [= <-] & Hc); [|done].
    apply height_child in Hc. by apply H.
Qed.

Lemma py_eq_rec_stable n a b :
  (height a ≤ n)%nat →
  is_Some (py_eq_rec n a b) ∧ py_eq_rec n a b = py_eq_rec (height a) a b.
Proof.
  remember (height a) as k eqn:Hk.
  revert n a b Hk. induction k as [k IH] using lt_wf_ind.
  intros n a b Hk Hn.
  destruct n as [|n]; [pose proof (height_pos a); lia|].
  destruct k as [|k]; [pose proof (height_pos a); lia|].
  cbn [py_eq_rec]. split.
  - apply py_eq_body_total. intros c d Hc.
    eapply (IH (height c)); [lia|done|lia].
  - apply py_eq_body_ext. intros c d Hc.
    destruct (IH (height c) ltac:(lia) n c d eq_refl ltac:(lia)) as [_ ->].
    destruct (IH (height c) ltac:(lia) k c d eq_refl ltac:(lia)) as [_ ->].
    done.
Qed.

(** Enough fuel: the depth of the first dict is enough for the comparison. *)
Lemma py_eq_rec_enough n a b :
  (height a ≤ n)%nat → py_eq_rec n a b = Some (py_eq a b).
Proof.
  intros Hn. destruct (py_eq_rec_stable n a b Hn) as [[r Hr] Heq].
  unfold py_eq. rewrite <- Heq, Hr. done.
Qed.

(** ** Dict equality, item by item *)

Lemma for_each_forallb {A} (body : bool → A → option bool) (P : A → bool) l acc :
  (∀ acc x, x ∈ l → body acc x = Some (acc && P x)) →
  for_each body l acc = Some (acc && forallb P l).
Proof.
  revert acc. induction l as [|x l IH]; intros acc H; simpl.
  - by rewrite andb_true_r.
  - rewrite H by left. rewrite IH by (intros; apply H; by right).
    by rewrite andb_assoc.
Qed.

Lemma py_eq_body_items self a b :
  (∀ c d, (height c < height a)%nat → self c d = Some (py_eq c d)) →
  py_eq_body self a b
  = Some ((llen (py_items a) =? llen (py_items b))
          && forallb (item_eq b) (py_items a)).
Proof.
  intros Hself. unfold py_eq_body. destruct (_ =? _); [|done]. cbn [negb andb].
  erewrite (for_each_forallb _ (item_eq b)); [done|].
  intros acc [key va] Hin. apply elem_of_py_items in Hin.
  destruct acc; [|done]. cbn [negb andb]. unfold item_eq. cbn [fst snd].
  destruct (py_get b key) as [[lb|cb]|]; [by destruct va| |done].
  destruct va as [la|ca]; [done|].
  destruct (decide (key = FILES)) as [->|Hne].
  - by apply py_get_FILES_list in Hin as [? ?].
  - apply py_get_dir_dict in Hin as (c & [= <-] & Hc); [|done].
    apply height_child in Hc. by apply Hself.
Qed.

(** Two dicts are equal when they have as many items and every item of
    the first is matched in the second. *)
Lemma py_eq_unfold a b :
  py_eq a b
  = (llen (py_items a) =? llen (py_items b)) && forallb (item_eq b) (py_items a).
Proof.
  pose proof (py_eq_rec_enough (S (height a)) a b ltac:(lia)) as H.
  cbn [py_eq_rec] in H. rewrite py_eq_body_items in H.
  - by injection H as <-.
  - intros c d Hc. apply py_eq_rec_enough. lia.
Qed.

Lemma forallb_fmap {A B} (f : A → B) (P : B → bool) l :
  forallb P (f <$> l) = forallb (P ∘ f) l.
Proof. induction l as [|x l IH]; [done|]. csimpl. by rewrite IH. Qed.

Lemma forallb_ext_elem {A} (P Q : A → bool) l :
  (∀ x, x ∈ l → P x = Q x) → forallb P l = forallb Q l.
Proof.
  induction l as [|x l IH]; intros H; [done|]. simpl.
  rewrite (H x) by left. rewrite IH; [done|]. intros; apply H; by right.
Qed.

Lemma forallb_elem {A} (P : A → bool) l :
  forallb P l = true ↔ ∀ x, x ∈ l → P x = true.
Proof.
  rewrite forallb_forall. split; intros H x Hx; apply H.
  - by apply list_elem_of_In.
  - by apply list_elem_of_In.
Qed.

Lemma forallb_perm {A} (P : A → bool) l k : l ≡ₚ k → forallb P l = forallb P k.
Proof.
  intros Hp. destruct (forallb P l) eqn:Hl; symmetry.
  - apply forallb_elem. intros x Hx. rewrite forallb_elem in Hl.
    apply Hl. by rewrite Hp.
  - destruct (forallb P k) eqn:Hk; [|done]. rewrite <- Hl. symmetry.
    apply forallb_elem. intros x Hx. rewrite forallb_elem in Hk.
    apply Hk. by rewrite <- Hp.
Qed.

Lemma forallb_items_keys a b :
  forallb (item_eq b) (py_items a) = forallb (key_eq a b) (py_keys a).
Proof.
  unfold py_keys. rewrite forallb_fmap. apply forallb_ext_elem.
  intros [key v] Hin. apply elem_of_py_items in Hin.
  unfold key_eq. cbn [compose fst]. by rewrite Hin.
Qed.

(** ** The text tree has one line per entry *)

Lemma sum_list_with_snd {A B} (f : B → nat) (l : list (A * B)) :
  sum_list_with (λ x, f x.2) l = sum_list_with f l.*2.
Proof. induction l as [|x l IH]; csimpl; [done|]. by rewrite IH. Qed.

Lemma sum_list_with_fmap {A B} (g : A → B) (f : B → nat) (l : list A) :
  sum_list_with f (g <$> l) = sum_list_with (f ∘ g) l.
Proof. induction l as [|x l IH]; csimpl; [done|]. by rewrite IH. Qed.

Lemma sum_list_with_ext_in {A} (f g : A → nat) (l : list A) :
  (∀ x, x ∈ l → f x = g x) → sum_list_with f l = sum_list_with g l.
Proof.
  induction l as [|x l IH]; intros H; simpl; [done|].
  rewrite H by left. rewrite IH; [done|]. intros. apply H. by right.
Qed.

Lemma length_concat_sum {A} (ls : list (list A)) :
  length (concat ls) = sum_list_with length ls.
Proof.
  induction ls as [|l ls IH]; simpl; [done|]. by rewrite length_app, IH.
Qed.

Lemma enumerate_snd {A} (l : list A) : (enumerate l).*2 = l.
Proof.
  unfold enumerate. apply snd_zip. by rewrite length_fmap, length_seq.
Qed.

Lemma length_enumerate {A} (l : list A) : length (enumerate l) = length l.
Proof. by rewrite <- (enumerate_snd l) at 2; rewrite length_fmap. Qed.

Lemma get_files_default s : get_files s = default [] (files s).
Proof. unfold get_files. rewrite py_get_files. by destruct (files s). Qed.

Lemma entry_count_items s :
  entry_count s
  = (length (get_files s) + sum_list_with item_count (py_items s))%nat.
Proof.
  rewrite get_files_default. destruct s as [f d]. cbn [entry_count files].
  f_equal. unfold py_items. cbn [files dirs].
  rewrite sum_list_with_app.
  assert (sum_list_with item_count
            match f with Some l => [(FILES, VList l)] | None => [] end = 0%nat)
    as -> by (by destruct f).
  rewrite map_fold_foldr. cbn [Nat.add].
  induction (map_to_list d) as [|[k c] l IH]; [done|].
  cbn [foldr uncurry]. rewrite filter_cons. cbn [fst].
  destruct (decide (k ≠ FILES)) as [Hne|Heq].
  - rewrite bool_decide_eq_false_2 by done.
    cbn [fmap list_fmap sum_list_with]. unfold item_count at 1. cbn [fst snd].
    rewrite bool_decide_eq_false_2 by done. rewrite IH. done.
  - apply dec_stable in Heq. rewrite bool_decide_eq_true_2 by done. done.
Qed.

Section TxtCount.

Context {str_lower : Py.Lower}.

Variable sort_files_by_type : list string → list string.
Hypothesis sort_files_perm : ∀ l, sort_files_by_type l ≡ₚ l.

Lemma length_file_lines s prefix :
  length (file_lines sort_files_by_type s prefix) = length (get_files s).
Proof.
  unfold file_lines. destruct (py_in FILES s) eqn:Hin.
  - by rewrite length_fmap, length_enumerate, sort_files_perm.
  - by rewrite (get_files_nil _ Hin).
Qed.

(** The tree of a structure has one line for each of its entries. *)
Lemma length_build_txt_tree s prefix is_last :
  length (build_txt_tree sort_files_by_type s prefix is_last) = entry_count s.
Proof.
  remember (height s) as k eqn:Hk.
  revert s prefix is_last Hk. induction k as [k IH] using lt_wf_ind.
  intros s prefix is_last Hk.
  rewrite build_txt_tree_unfold, length_app, length_file_lines.
  rewrite entry_count_items, Nat.add_comm. f_equal.
  rewrite length_concat_sum, sum_list_with_fmap.
  rewrite <- (sum_list_with_Permutation_proper item_count _ _
                (merge_sort_Permutation item_le (py_items s))).
  fold (sorted_items s).
  rewrite <- (enumerate_snd (sorted_items s)) at 2.
  rewrite <- sum_list_with_snd.
  apply sum_list_with_ext_in. intros [i [name content]] Hin.
  apply elem_of_enumerate, elem_of_sorted_items in Hin.
  unfold dir_lines, item_count. cbn [compose fst snd id].
  destruct (bool_decide (name = FILES)) eqn:Hname.
  - apply bool_decide_eq_true in Hname. subst name.
    apply py_get_FILES_list in Hin as [l ->]. done.
  - apply bool_decide_eq_false in Hname.
    apply py_get_dir_dict in Hin as (c & -> & Hc); [|done].
    apply height_child in Hc. rewrite length_app. cbn [length Nat.add]. f_equal.
    eapply IH; [|done]. lia.
Qed.

End TxtCount.

(** ** The text export *)

Section TextExportFacts.

Context {str_lower : Py.Lower}.

Variable sort_files_by_type : list string → list string.

Lemma txt_header_block data : txt_header data = header_block data.
Proof.
  unfold txt_header, header_block, pattern_block.
  destruct (exclude_patterns (metadata data)) as [|e es],
           (include_patterns (metadata data)) as [|i ps]; reflexivity.
Qed.

Lemma txt_document_layout data :
  txt_document sort_files_by_type data = txt_layout sort_files_by_type data.
Proof.
  unfold txt_document, txt_layout. f_equal.
  rewrite foldl_snoc, txt_header_block. done.
Qed.

Lemma pattern_block_nil m :
  pattern_block m = [] ↔ exclude_patterns m = [] ∧ include_patterns m = [].
Proof.
  unfold pattern_block.
  destruct (exclude_patterns m), (include_patterns m); split; try done;
    by intros [? ?].
Qed.

Hypothesis sort_files_perm : ∀ l, sort_files_by_type l ≡ₚ l.

(** C6 (layout of the text export): the file written holds the header
    block (with the pattern block only when patterns were supplied) and
    then one row per line of the longer column, each row being the left
    line padded to the widest left line plus the margin, a bar and the
    right line; each column is the root line and the full tree of its own
    side, one line per entry, without marks; the content is a function of
    the comparison data alone. *)
Theorem text_export_layout (data : comparison_data) (output_path : string)
    (fs fs' : filesystem) :
  let left := column sort_files_by_type (dir1 data) in
  let right := column sort_files_by_type (dir2 data) in
  let width := max_len left + MARGIN in
  export_comparison_to_txt sort_files_by_type data output_path fs !! output_path
  = Some (Py.join Py.nl (header_block data ++ rows left right)) ∧
  export_comparison_to_txt sort_files_by_type data output_path fs' !! output_path
  = export_comparison_to_txt sort_files_by_type data output_path fs !! output_path ∧
  (pattern_block (metadata data) = [] ↔
   exclude_patterns (metadata data) = [] ∧ include_patterns (metadata data) = []) ∧
  length left = S (entry_count (structure_of (dir1 data))) ∧
  length right = S (entry_count (structure_of (dir2 data))) ∧
  length (rows left right) = Nat.max (length left) (length right) ∧
  (∀ i, (i < Nat.max (length left) (length right))%nat →
        rows left right !! i
        = Some (Py.ljust (default "" (left !! i)) width +:+ " | "
                  +:+ default "" (right !! i)) ∧
        Py.len (Py.ljust (default "" (left !! i)) width) = width).
Proof.
  intros left right width. unfold export_comparison_to_txt.
  rewrite !lookup_insert_eq, txt_document_layout. split_and!; try done.
  - apply pattern_block_nil.
  - unfold left, column. cbn [length]. by rewrite length_build_txt_tree.
  - unfold right, column. cbn [length]. by rewrite length_build_txt_tree.
  - unfold rows. by rewrite length_fmap, length_seq.
  - intros i Hi. split.
    + unfold rows. rewrite list_lookup_fmap, lookup_seq_lt by done. done.
    + apply len_ljust. subst width. unfold MARGIN.
      destruct (left !! i) as [line|] eqn:Hl; simpl.
      * apply list_elem_of_lookup_2 in Hl. apply max_len_ge in Hl. lia.
      * pose proof (max_len_nonneg left). lia.
Qed.

End TextExportFacts.

(** ** Comparator and entry points *)

Lemma is_ascii_lower s :
  Py.is_ascii s = true → Py.is_ascii (Py.ascii_lower s) = true.
Proof.
  induction s as [|a s IH]; [done|]. cbn [Py.is_ascii Py.ascii_lower].
  intros [Ha Hs]%andb_true_iff. rewrite IH by done. rewrite andb_true_r.
  revert Ha. by destruct a as [[] [] [] [] [] [] [] []].
Qed.

Section AsciiExtensions.

Context {str_lower : Py.Lower}.

(** On a string of ASCII characters [str.lower()] is the ASCII map. *)
Hypothesis lower_ascii :
  ∀ s, Py.is_ascii s = true → Py.lower s = Py.ascii_lower s.

Lemma normalize_extension_ascii ext :
  Py.is_ascii ext = true →
  normalize_extension ext
  = (if Py.startswith "." ext then Py.ascii_lower ext
     else "." +:+ Py.ascii_lower ext) ∧
  Py.is_ascii (normalize_extension ext) = true.
Proof.
  intros Ha. unfold normalize_extension. rewrite lower_ascii by done.
  split; [done|]. destruct (Py.startswith "." ext).
  - by apply is_ascii_lower.
  - change (Py.is_ascii (String "." (Py.ascii_lower ext)) = true).
    cbn [Py.is_ascii]. by rewrite is_ascii_lower.
Qed.

Lemma normalize_extension_dotted ext :
  Py.is_ascii ext = true →
  Py.startswith "." (normalize_extension ext) = true.
Proof.
  intros Ha. destruct (normalize_extension_ascii ext Ha) as [-> _].
  destruct (Py.startswith "." ext) eqn:H.
  - by rewrite startswith_dot_lower.
  - unfold Py.startswith. simpl. apply prefix_empty.
Qed.

Lemma normalize_extension_lower ext :
  Py.is_ascii ext = true →
  Py.lower (normalize_extension ext) = normalize_extension ext.
Proof.
  intros Ha. destruct (normalize_extension_ascii ext Ha) as [Heq Hn].
  rewrite lower_ascii by done. rewrite Heq.
  destruct (Py.startswith "." ext).
  - apply lower_idem.
  - by rewrite lower_app, lower_idem.
Qed.

End AsciiExtensions.

Section EntryPoints.

Context {str_lower : Py.Lower}.

Variable Pattern : Type.
Variable compile_regex_patterns : list string → bool → list Pattern.
Variable generate_color_for_extension : string → string.
Variable sort_files_by_type : list string → list string.

Local Abbreviation builder :=
  (filesystem → string → option (list string) → option string →
   option (gset string) → option (list Pattern) → option (list Pattern) →
   structure * gset string).

(** C8 (comparator contract): the builder runs on both roots with the
    same filter configuration; its two structures are returned as they
    are, with the union of its two extension sets. *)
Theorem comparator_contract (get_directory_structure : builder)
    (fs : filesystem) (dir1 dir2 : string)
    (exclude_dirs : option (list string)) (ignore_file : option string)
    (exclude_extensions : option (gset string))
    (exclude_patterns include_patterns : option (list Pattern)) :
  let walk dir :=
    get_directory_structure fs dir exclude_dirs ignore_file
      exclude_extensions exclude_patterns include_patterns in
  let result :=
    compare_directory_structures Pattern get_directory_structure fs dir1 dir2
      exclude_dirs ignore_file exclude_extensions exclude_patterns
      include_patterns in
  result.1.1 = (walk dir1).1 ∧
  result.1.2 = (walk dir2).1 ∧
  result.2 = (walk dir1).2 ∪ (walk dir2).2 ∧
  ∀ ext, ext ∈ result.2 ↔ ext ∈ (walk dir1).2 ∨ ext ∈ (walk dir2).2.
Proof.
  intros walk result. subst walk result. unfold compare_directory_structures.
  destruct (get_directory_structure fs dir1 _ _ _ _ _) as [s1 e1].
  destruct (get_directory_structure fs dir2 _ _ _ _ _) as [s2 e2].
  simpl. split_and!; try done. intros ext. apply elem_of_union.
Qed.

(** C7 (normalization of the excluded extensions): in both entry points
    the walk receives the normalized set only, so two builders that agree
    on it give the same display and the same export; the normalized set
    holds exactly the lower-cased extensions, an extension without a
    leading dot getting one; extensions with the same lower-casing give
    the same exclusion; every normalized ASCII extension starts with a dot
    and is in lower case; [PY] and [.py] both become [.py]. The lower-casing
    is [str.lower()], which on ASCII strings is the ASCII map. *)
Theorem extension_normalization (walk walk' : builder)
    (fs : filesystem) (dir1 dir2 format_type output_path : string)
    (exclude_dirs : option (list string)) (ignore_file : option string)
    (exclude_extensions : option (gset string))
    (exclude_patterns include_patterns : option (list string))
    (use_regex : bool) :
  let normalized := normalize_extensions (default ∅ exclude_extensions) in
  (∀ s, Py.is_ascii s = true → Py.lower s = Py.ascii_lower s) →
  (∀ fs dir dirs ignore excl incl,
     walk fs dir dirs ignore (Some normalized) excl incl
     = walk' fs dir dirs ignore (Some normalized) excl incl) →
  display_comparison Pattern compile_regex_patterns walk
    generate_color_for_extension sort_files_by_type fs dir1 dir2 exclude_dirs
    ignore_file exclude_extensions exclude_patterns include_patterns use_regex
  = display_comparison Pattern compile_regex_patterns walk'
      generate_color_for_extension sort_files_by_type fs dir1 dir2 exclude_dirs
      ignore_file exclude_extensions exclude_patterns include_patterns use_regex ∧
  export_comparison Pattern compile_regex_patterns walk sort_files_by_type
    dir1 dir2 format_type output_path exclude_dirs ignore_file
    exclude_extensions exclude_patterns include_patterns use_regex fs
  = export_comparison Pattern compile_regex_patterns walk' sort_files_by_type
      dir1 dir2 format_type output_path exclude_dirs ignore_file
      exclude_extensions exclude_patterns include_patterns use_regex fs ∧
  (∀ ext, ext ∈ normalized ↔
          ∃ e, e ∈ default ∅ exclude_extensions ∧
               ext = if Py.startswith "." e then Py.lower e
                     else "." +:+ Py.lower e) ∧
  (∀ e e', Py.lower e = Py.lower e' →
           Py.startswith "." e = Py.startswith "." e' →
           normalize_extension e = normalize_extension e') ∧
  (∀ e, e ∈ default ∅ exclude_extensions → Py.is_ascii e = true →
        Py.startswith "." (normalize_extension e) = true ∧
        Py.lower (normalize_extension e) = normalize_extension e) ∧
  normalize_extension "PY" = ".py" ∧ normalize_extension ".py" = ".py".
Proof.
  intros normalized Hascii Hwalk. split_and!.
  - unfold display_comparison, compare_directory_structures.
    fold normalized. by rewrite !Hwalk.
  - unfold export_comparison, compare_directory_structures.
    fold normalized. by rewrite !Hwalk.
  - intros ext. unfold normalized, normalize_extensions.
    rewrite elem_of_map. split.
    + intros (e & -> & He). by exists e.
    + intros (e & He & ->). by exists e.
  - intros e e' Hl Hd. unfold normalize_extension. by rewrite Hl, Hd.
  - intros e _ He.
    split; [by apply normalize_extension_dotted|].
    by apply normalize_extension_lower.
  - by destruct (normalize_extension_ascii Hascii "PY" eq_refl) as [-> _].
  - by destruct (normalize_extension_ascii Hascii ".py" eq_refl) as [-> _].
Qed.

(** C5 (unsupported export format): for a format other than [txt] and
    [html] the call raises [ValueError] with the format in its message, and
    the file system is left as it was, so that no file appears at the
    output path. *)
Theorem unsupported_format (get_directory_structure : builder)
    (dir1 dir2 format_type output_path : string)
    (exclude_dirs : option (list string)) (ignore_file : option string)
    (exclude_extensions : option (gset string))
    (exclude_patterns include_patterns : option (list string))
    (use_regex : bool) (fs : filesystem) :
  format_type ≠ "txt" → format_type ≠ "html" →
  let result :=
    export_comparison Pattern compile_regex_patterns get_directory_structure
      sort_files_by_type dir1 dir2 format_type output_path exclude_dirs
      ignore_file exclude_extensions exclude_patterns include_patterns
      use_regex fs in
  result.1 = inl (ValueError ("Unsupported format: " +:+ format_type)) ∧
  result.2 = fs ∧
  (fs !! output_path = None → result.2 !! output_path = None).
Proof.
  intros Htxt Hhtml result. subst result. unfold export_comparison.
  destruct (compare_directory_structures _ _ _ _ _ _ _ _ _ _) as [[s1 s2] e].
  apply String.eqb_neq in Htxt, Hhtml. rewrite Htxt, Hhtml. simpl. done.
Qed.

End EntryPoints.

(** ** Instances *)

Section EntryPointSamples.

#[local] Existing Instance sample_lower.


Lemma unsupported_format_witness :
  let result :=
    export_comparison string sample_compile sample_walk sort_by_extension
      "left" "right" "pdf" "out.pdf" None None None None None false ∅ in
  result.1 = inl (ValueError "Unsupported format: pdf") ∧
  result.2 = ∅ ∧
  ((∅ : filesystem) !! "out.pdf" = None → result.2 !! "out.pdf" = None).
Proof.
  apply (unsupported_format string sample_compile sort_by_extension
           sample_walk "left" "right" "pdf" "out.pdf" None None None None None
           false ∅); discriminate.
Defined.

Lemma sample_walks_agree (normalized : gset string) fs dir dirs ignore excl incl :
  "PY" ∉ normalized →
  sample_walk fs dir dirs ignore (Some normalized) excl incl
  = sample_walk_raw fs dir dirs ignore (Some normalized) excl incl.
Proof.
  intros H. unfold sample_walk_raw. simpl. by rewrite bool_decide_eq_false_2.
Qed.

Lemma extension_normalization_witness :
  display_comparison string sample_compile sample_walk sample_color
    sort_by_extension ∅ "left" "right" None None (Some {[ "PY" ]}) None None false
  = display_comparison string sample_compile sample_walk_raw sample_color
      sort_by_extension ∅ "left" "right" None None (Some {[ "PY" ]}) None None false ∧
  export_comparison string sample_compile sample_walk sort_by_extension
    "left" "right" "txt" "out.txt" None None (Some {[ "PY" ]}) None None false ∅
  = export_comparison string sample_compile sample_walk_raw sort_by_extension
      "left" "right" "txt" "out.txt" None None (Some {[ "PY" ]}) None None false ∅ ∧
  (∀ ext, ext ∈ normalize_extensions (default ∅ (Some {[ "PY" ]})) ↔
          ∃ e, e ∈ default (∅ : gset string) (Some {[ "PY" ]}) ∧
               ext = if Py.startswith "." e then Py.lower e
                     else "." +:+ Py.lower e) ∧
  (∀ e e', Py.lower e = Py.lower e' →
           Py.startswith "." e = Py.startswith "." e' →
           normalize_extension e = normalize_extension e') ∧
  (∀ e, e ∈ default (∅ : gset string) (Some {[ "PY" ]}) →
        Py.is_ascii e = true →
        Py.startswith "." (normalize_extension e) = true ∧
        Py.lower (normalize_extension e) = normalize_extension e) ∧
  normalize_extension "PY" = ".py" ∧ normalize_extension ".py" = ".py".
Proof.
  apply (extension_normalization string sample_compile sample_color
           sort_by_extension sample_walk sample_walk_raw ∅ "left" "right"
           "txt" "out.txt" None None (Some {[ "PY" ]}) None None false).
  - intros s _. reflexivity.
  - intros fs dir dirs ignore excl incl. apply sample_walks_agree.
    vm_compute. discriminate.
Defined.

Lemma text_export_layout_witness :
  let left := column sort_by_extension (dir1 scenario_data) in
  let right := column sort_by_extension (dir2 scenario_data) in
  let width := max_len left + MARGIN in
  export_comparison_to_txt sort_by_extension scenario_data "out.txt" ∅ !! "out.txt"
  = Some (Py.join Py.nl (header_block scenario_data ++ rows left right)) ∧
  export_comparison_to_txt sort_by_extension scenario_data "out.txt"
    {[ "out.txt" := "old" ]} !! "out.txt"
  = export_comparison_to_txt sort_by_extension scenario_data "out.txt" ∅ !! "out.txt" ∧
  (pattern_block (metadata scenario_data) = [] ↔
   exclude_patterns (metadata scenario_data) = [] ∧
   include_patterns (metadata scenario_data) = []) ∧
  length left = S (entry_count (structure_of (dir1 scenario_data))) ∧
  length right = S (entry_count (structure_of (dir2 scenario_data))) ∧
  length (rows left right) = Nat.max (length left) (length right) ∧
  (∀ i, (i < Nat.max (length left) (length right))%nat →
        rows left right !! i
        = Some (Py.ljust (default "" (left !! i)) width +:+ " | "
                  +:+ default "" (right !! i)) ∧
        Py.len (Py.ljust (default "" (left !! i)) width) = width).
Proof.
  exact (text_export_layout sort_by_extension sort_by_extension_perm
           scenario_data "out.txt" ∅ {[ "out.txt" := "old" ]}).
Defined.

(** The text export of scenario A. *)
Example text_export_scenario :
  txt_layout sort_by_extension scenario_data
  = Py.join Py.nl
      ["Directory Comparison:"; rule "=";
       "Left: /tmp/left"; "Right: /tmp/right"; rule "=";
       "📂 left             | 📂 right";
       "└── 📁 src          | └── 📁 src";
       "    ├── 📄 a.py     |     ├── 📄 a.py";
       "    └── 📄 b.py     |     └── 📄 c.py"].
Proof. by vm_compute. Qed.

(** C2 (the HTML export against the diff classification), at scenario A:
    [src/a.py] is on both sides and the diff tree shows it as common, but
    the left pane of the HTML export gives it the class [file-unique]:
    below the root, [_build_html_tree] tests membership against the root
    of the first structure, not against the matching subdirectory of the
    opposite one. *)
Lemma html_unique_mismatch :
  build_html_tree sort_by_extension scenario_data scenario_left true
  = Py.join Py.nl
      ["<ul>"; li_directory false "src";
       Py.join Py.nl ["<ul>"; li_file true "a.py"; li_file true "b.py"; "</ul>"];
       "</li>"; "</ul>"] ∧
  build_html_tree sort_by_extension scenario_data scenario_right true
  = Py.join Py.nl
      ["<ul>"; li_directory false "src";
       Py.join Py.nl ["<ul>"; li_file true "a.py"; li_file true "c.py"; "</ul>"];
       "</li>"; "</ul>"] ∧
  entries_at ∅ (build_comparison_tree sort_by_extension scenario_left
                  scenario_right (leaf root_left) ∅) ["src"]
  = [(File, "a.py", Common); (File, "b.py", OnlyHere); (File, "c.py", OnlyThere)].
Proof. split_and!; by vm_compute. Qed.

End EntryPointSamples.

(** ** The order of strings *)

Lemma ascii_compare_spec a b :
  CompareSpec (N_of_ascii a = N_of_ascii b) (N_of_ascii a < N_of_ascii b)%N
    (N_of_ascii b < N_of_ascii a)%N (Ascii.compare a b).
Proof. unfold Ascii.compare. apply N.compare_spec. Qed.

Lemma string_leb_trans a b c :
  String.leb a b = true → String.leb b c = true → String.leb a c = true.
Proof.
  unfold String.leb. revert b c.
  induction a as [|x a IH]; intros [|y b] [|z c]; simpl; try done.
  destruct (ascii_compare_spec x y) as [Hxy|Hxy|Hxy],
           (ascii_compare_spec y z) as [Hyz|Hyz|Hyz],
           (ascii_compare_spec x z) as [Hxz|Hxz|Hxz];
    try done; try lia.
  apply IH.
Qed.

Global Instance str_le_trans : Transitive str_le.
Proof. intros a b c. apply string_leb_trans. Qed.

Global Instance str_le_antisym : AntiSymm (=) str_le.
Proof. intros a b. apply String.leb_antisym. Qed.

(** Two sorted lists of the same distinct keys are the same list. *)
Lemma sorted_keys_unique (l1 l2 : list string) :
  Sorted str_le l1 → Sorted str_le l2 → l1 ≡ₚ l2 → l1 = l2.
Proof. apply Sorted_unique; apply _. Qed.

Lemma sorted_item_keys {A} (l : list (string * A)) :
  Sorted item_le l → Sorted str_le l.*1.
Proof. apply Sorted_fmap. by intros [] []. Qed.

Lemma Forall2_same_keys {A B} (R : string * A → string * B → Prop)
    (l1 : list (string * A)) (l2 : list (string * B)) :
  l1.*1 = l2.*1 →
  (∀ x y, x ∈ l1 → y ∈ l2 → x.1 = y.1 → R x y) →
  Forall2 R l1 l2.
Proof.
  revert l2. induction l1 as [|x l1 IH]; intros [|y l2] Hk HR; try done.
  injection Hk as Hxy Hk. constructor.
  - apply HR; [left|left|done].
  - apply IH; [done|]. intros x' y' Hx' Hy'. apply HR; by right.
Qed.

(** ** The renderers leave the store as they find it *)

Lemma runs_ret {A} (a : A) h (Q : A → Prop) :
  Q a → Store.runs (Store.ret a) h Q.
Proof. intros. by exists a. Qed.

Lemma runs_bind {A B} (m : Store.M A) (k : A → Store.M B) h
    (Q : A → Prop) (R : B → Prop) :
  Store.runs m h Q → (∀ a, Q a → Store.runs (k a) h R) →
  Store.runs (Store.bind m k) h R.
Proof.
  intros (a & Hm & Ha) Hk. destruct (Hk a Ha) as (b & Hb & HR).
  exists b. unfold Store.bind. by rewrite Hm.
Qed.

(** One step of a computation: the rule [lem] gives the result of the first
    action, which is then substituted in what follows. *)
Ltac run_step lem :=
  eapply runs_bind;
  [eapply lem; eauto
  |let a := fresh "a" in let H := fresh "H" in
   intros a H; cbv beta in H; subst a].

Section StoreFacts.

Context {str_lower : Py.Lower}.

Import Store.

Lemma runs_weaken {A} (m : M A) h (Q R : A → Prop) :
  runs m h Q → (∀ a, Q a → R a) → runs m h R.
Proof. intros (a & Hm & Ha) H. exists a. auto. Qed.

Lemma runs_for_each {S A} (body : S → A → M S) (l : list A) (st : S) h
    (I : S → Prop) :
  I st → (∀ st x, x ∈ l → I st → runs (body st x) h I) →
  runs (Store.for_each body l st) h I.
Proof.
  revert st. induction l as [|x l IH]; intros st Hst Hbody; simpl.
  - by apply runs_ret.
  - eapply runs_bind.
    + apply Hbody; [left|done].
    + intros st' Hst'. apply IH; [done|]. intros. apply Hbody; [by right|done].
Qed.

Lemma dict_ok_pos h n r : dict_ok h n r = true → ∃ n', n = S n'.
Proof. destruct n; [done|]. by exists n. Qed.

Lemma dict_ok_mono h n m r : dict_ok h n r = true → (n ≤ m)%nat → dict_ok h m r = true.
Proof.
  revert m r. induction n as [|n IH]; intros m r H Hle; [done|].
  destruct m as [|m]; [lia|]. simpl in *.
  destruct r as [l| |]; try done.
  destruct (h !! l) as [[| d |]|]; try done.
  apply forallb_forall. intros [k lk] Hin.
  eapply forallb_forall in H; [|done]. simpl in *.
  destruct (bool_decide (k = FILES)); [done|]. apply IH; [done|lia].
Qed.

Lemma dict_ok_read h n r :
  dict_ok h (S n) r = true → runs (read_dict r) h (entries_ok h n).
Proof.
  intros H. simpl in H. destruct r as [l| |]; [| |done].
  - destruct (h !! l) as [[| d |]|] eqn:Hl; try done.
    exists d. split.
    + unfold read_dict, bind, read. by rewrite Hl.
    + intros key lk Hk. apply elem_of_map_to_list, list_elem_of_In in Hk.
      eapply forallb_forall in H; [|done]. simpl in H.
      destruct (bool_decide (key = FILES)); [|done].
      destruct (h !! lk) as [[files| |]|]; try done. by exists files.
  - exists ∅. split; [done|]. intros key lk Hk. by rewrite lookup_empty in Hk.
Qed.

Lemma entries_ok_files h n d l :
  entries_ok h n d → d !! FILES = Some l → ∃ files, h !! l = Some (OList files).
Proof. intros H Hl. specialize (H _ _ Hl). by rewrite bool_decide_eq_true_2 in H. Qed.

Lemma entries_ok_dir h n d key l :
  entries_ok h n d → key ≠ FILES → d !! key = Some l →
  dict_ok h n (RLoc l) = true.
Proof. intros H Hne Hl. specialize (H _ _ Hl). by rewrite bool_decide_eq_false_2 in H. Qed.

(** The list held under [_files], or the literal in its place. *)
Lemma read_list_files h n d :
  entries_ok h n d →
  ∃ files, read_list (from_option RLoc REmptyList (d !! FILES)) h = Some (files, h).
Proof.
  intros H. destruct (d !! FILES) as [l|] eqn:Hl; simpl.
  - destruct (entries_ok_files _ _ _ _ H Hl) as [files Hf].
    exists files. unfold read_list, bind, read. by rewrite Hf.
  - by exists [].
Qed.

Lemma dict_ok_get h n d key :
  entries_ok h n d → key ≠ FILES →
  dict_ok h (S n) (from_option RLoc REmptyDict (d !! key)) = true.
Proof.
  intros H Hne. destruct (d !! key) as [l|] eqn:Hl; [|done].
  cbn [from_option]. eapply dict_ok_mono; [by eapply entries_ok_dir|lia].
Qed.

Lemma elem_of_sorted_entries (d : gmap string loc) key l :
  (key, l) ∈ merge_sort item_le (map_to_list d) → d !! key = Some l.
Proof. rewrite merge_sort_Permutation. apply elem_of_map_to_list. Qed.

Lemma elem_of_sorted_entry_keys (d : gmap string loc) key :
  key ∈ merge_sort str_le (map_to_list d).*1 → is_Some (d !! key).
Proof.
  rewrite merge_sort_Permutation. intros ([k l] & -> & Hin)%list_elem_of_fmap.
  apply elem_of_map_to_list in Hin. by exists l.
Qed.

Lemma runs_read_dict h r d :
  read_dict r h = Some (d, h) → runs (read_dict r) h (λ d', d' = d).
Proof. intros Hd. by exists d. Qed.

Lemma runs_contains h r d key :
  read_dict r h = Some (d, h) →
  runs (contains key r) h (λ b, b = bool_decide (is_Some (d !! key))).
Proof. intros Hd. eexists. unfold contains, bind. rewrite Hd. done. Qed.

Lemma runs_truth h r d :
  read_dict r h = Some (d, h) →
  runs (truth r) h (λ b, b = negb (bool_decide (d = ∅))).
Proof. intros Hd. eexists. unfold truth, bind. rewrite Hd. done. Qed.

Lemma runs_get h r d key default :
  read_dict r h = Some (d, h) →
  runs (get r key default) h (λ r', r' = from_option RLoc default (d !! key)).
Proof. intros Hd. eexists. unfold get, bind. rewrite Hd. done. Qed.

Lemma runs_getitem h r d key l :
  read_dict r h = Some (d, h) → d !! key = Some l →
  runs (getitem r key) h (λ r', r' = RLoc l).
Proof. intros Hd Hl. eexists. unfold getitem, bind. rewrite Hd, Hl. done. Qed.

Lemma runs_sorted_items h r d :
  read_dict r h = Some (d, h) →
  runs (Store.sorted_items r) h (λ l, l = merge_sort item_le (map_to_list d)).
Proof. intros Hd. eexists. unfold Store.sorted_items, bind. rewrite Hd. done. Qed.

Lemma runs_sorted_keys h r d :
  read_dict r h = Some (d, h) →
  runs (Store.sorted_keys r) h (λ l, l = merge_sort str_le (map_to_list d).*1).
Proof. intros Hd. eexists. unfold Store.sorted_keys, bind. rewrite Hd. done. Qed.

Lemma runs_list_contains h r l x :
  read_list r h = Some (l, h) →
  runs (list_contains x r) h (λ b, b = bool_decide (x ∈ l)).
Proof. intros Hl. eexists. unfold list_contains, bind. rewrite Hl. done. Qed.

Lemma runs_color_get h cm colors ext default :
  h !! cm = Some (OColors colors) →
  runs (color_get cm ext default) h (λ c, c = from_option id default (colors !! ext)).
Proof. intros Hcm. eexists. unfold color_get, bind, read. rewrite Hcm. done. Qed.

Lemma runs_read_loc h l o :
  h !! l = Some o → runs (read (RLoc l)) h (λ o', o' = o).
Proof. intros Hl. eexists. unfold read. rewrite Hl. done. Qed.

Lemma dict_ok_loc h n l :
  dict_ok h n (RLoc l) = true → ∃ d, h !! l = Some (ODict d).
Proof.
  destruct n; [done|]. simpl. destruct (h !! l) as [[| d |]|]; try done.
  by exists d.
Qed.

Section Frame.

(** [sort_files_by_type] on the store: it returns a list and leaves the
    store as it found it. *)
Variable sort_files_by_type : ref → M (list string).
Hypothesis sort_files_pure :
  ∀ r h l, read_list r h = Some (l, h) →
           ∃ l', sort_files_by_type r h = Some (l', h).

Variable h : store.
Variable color_map : loc.
Variable colors : gmap string string.
Hypothesis color_map_ok : h !! color_map = Some (OColors colors).

Lemma runs_sort_files l files :
  h !! l = Some (OList files) →
  runs (sort_files_by_type (RLoc l)) h (λ _, True).
Proof.
  intros Hl. destruct (sort_files_pure (RLoc l) h files) as [l' Hl'].
  - unfold read_list, bind, read. by rewrite Hl.
  - by exists l'.
Qed.

Lemma build_comparison_tree_runs fuel n m s o tree :
  dict_ok h n s = true → dict_ok h m o = true → (n + m ≤ fuel)%nat →
  runs (Store.build_comparison_tree_rec sort_files_by_type fuel s o tree color_map)
    h (λ _, True).
Proof.
  revert n m s o tree. induction fuel as [|fuel IH]; intros n m s o tree Hs Ho Hle.
  { apply dict_ok_pos in Hs as [? ->]. lia. }
  destruct (dict_ok_pos _ _ _ Hs) as [n' ->].
  destruct (dict_ok_pos _ _ _ Ho) as [m' ->].
  destruct (dict_ok_read _ _ _ Hs) as (ds & Hds & Hes).
  destruct (dict_ok_read _ _ _ Ho) as (dt & Hdt & Heo).
  cbn [Store.build_comparison_tree_rec]. unfold Store.build_comparison_tree_body.
  run_step runs_contains.
  eapply runs_bind with (Q := λ _, True).
  { destruct (bool_decide (is_Some (ds !! FILES))) eqn:Hf; [|by apply runs_ret].
    apply bool_decide_eq_true in Hf as [lf Hlf].
    run_step runs_truth.
    eapply runs_bind with (Q := λ r, ∃ l, read_list r h = Some (l, h)).
    { destruct (negb _).
      - eapply runs_weaken; [by eapply runs_get|].
        intros ? ->. by eapply read_list_files.
      - apply runs_ret. by exists []. }
    intros files_in_other [lo Hlo].
    run_step runs_getitem.
    destruct (entries_ok_files _ _ _ _ Hes Hlf) as [files Hfiles].
    eapply runs_bind; [by eapply runs_sort_files|]. intros sorted _.
    apply runs_for_each; [done|]. intros tree' file _ _.
    run_step runs_color_get. run_step runs_list_contains.
    destruct (negb _); by apply runs_ret. }
  intros tree1 _. run_step runs_sorted_items.
  eapply runs_bind with (Q := λ _, True).
  { apply runs_for_each; [done|]. intros tree' [folder content] Hin _.
    apply elem_of_sorted_entries in Hin.
    destruct (bool_decide (folder ≠ FILES)) eqn:Hne; [|by apply runs_ret].
    apply bool_decide_eq_true in Hne.
    run_step runs_truth.
    eapply runs_bind with (Q := λ r, dict_ok h (S m') r = true).
    { destruct (negb _).
      - eapply runs_weaken; [by eapply runs_get|].
        intros ? ->. by eapply dict_ok_get.
      - by apply runs_ret. }
    intros other_content Hoc.
    eapply runs_bind with (Q := λ _, True).
    { destruct (negb _); [|by apply runs_ret].
      eapply runs_weaken; [by eapply runs_contains|done]. }
    intros found _.
    eapply runs_bind.
    - eapply (IH n' (S m')); [by eapply entries_ok_dir|done|lia].
    - intros subtree _. by apply runs_ret. }
  intros tree2 _. run_step runs_truth.
  eapply runs_bind with (Q := λ b, b = true → is_Some (dt !! FILES)).
  { destruct (negb _).
    - eapply runs_weaken; [by eapply runs_contains|].
      intros ? -> Hb. by apply bool_decide_eq_true in Hb.
    - by apply runs_ret. }
  intros other_has_files Hohf.
  eapply runs_bind with (Q := λ _, True).
  { destruct other_has_files; [|by apply runs_ret].
    destruct (Hohf eq_refl) as [lf Hlf].
    eapply runs_bind with (Q := λ r, ∃ l, read_list r h = Some (l, h)).
    { eapply runs_weaken; [by eapply runs_get|].
      intros ? ->. by eapply read_list_files. }
    intros files_in_this [lt Hlt].
    run_step runs_getitem.
    destruct (entries_ok_files _ _ _ _ Heo Hlf) as [files Hfiles].
    eapply runs_bind; [by eapply runs_sort_files|]. intros sorted _.
    apply runs_for_each; [done|]. intros tree' file _ _.
    run_step runs_list_contains.
    destruct (negb _); [|by apply runs_ret].
    run_step runs_color_get. by apply runs_ret. }
  intros tree3 _. run_step runs_truth.
  destruct (negb _); [|by apply runs_ret].
  run_step runs_sorted_keys.
  apply runs_for_each; [done|]. intros tree' folder Hin _.
  apply elem_of_sorted_entry_keys in Hin as [lk Hlk].
  run_step runs_contains.
  destruct (bool_decide (folder ≠ FILES) && negb _) eqn:Hc; [|by apply runs_ret].
  apply andb_true_iff in Hc as [Hne _]. apply bool_decide_eq_true in Hne.
  run_step runs_getitem.
  eapply runs_bind.
  - eapply (IH 1%nat m'); [done|by eapply entries_ok_dir|lia].
  - intros subtree _. by apply runs_ret.
Qed.

Lemma build_txt_tree_runs fuel n s prefix is_last :
  dict_ok h n s = true → (n ≤ fuel)%nat →
  runs (Store.build_txt_tree_rec sort_files_by_type fuel s prefix is_last)
    h (λ _, True).
Proof.
  revert n s prefix is_last.
  induction fuel as [|fuel IH]; intros n s prefix is_last Hs Hle.
  { apply dict_ok_pos in Hs as [? ->]. lia. }
  destruct (dict_ok_pos _ _ _ Hs) as [n' ->].
  destruct (dict_ok_read _ _ _ Hs) as (ds & Hds & Hes).
  cbn [Store.build_txt_tree_rec]. unfold Store.build_txt_tree_body.
  run_step runs_sorted_items. run_step runs_contains.
  eapply runs_bind with (Q := λ _, True).
  { apply runs_for_each; [done|]. intros lines [i [name content]] Hin _.
    apply elem_of_enumerate, elem_of_sorted_entries in Hin.
    destruct (bool_decide (name = FILES)) eqn:Hname; [by apply runs_ret|].
    apply bool_decide_eq_false in Hname.
    pose proof (entries_ok_dir _ _ _ _ _ Hes Hname Hin) as Hc.
    destruct (dict_ok_loc _ _ _ Hc) as [dc Hdc].
    destruct (_ || _).
    - run_step runs_read_loc.
      eapply runs_bind; [eapply (IH n'); [done|lia]|].
      intros sub _. by apply runs_ret.
    - run_step runs_read_loc.
      eapply runs_bind; [eapply (IH n'); [done|lia]|].
      intros sub _. by apply runs_ret. }
  intros lines _.
  destruct (bool_decide (is_Some (ds !! FILES))) eqn:Hf; [|by apply runs_ret].
  apply bool_decide_eq_true in Hf as [lf Hlf].
  run_step runs_getitem.
  destruct (entries_ok_files _ _ _ _ Hes Hlf) as [files Hfiles].
  eapply runs_bind; [by eapply runs_sort_files|]. intros sorted _.
  by apply runs_ret.
Qed.

Lemma py_eq_runs fuel n m a b :
  dict_ok h n a = true → dict_ok h m b = true → (n ≤ fuel)%nat →
  runs (Store.py_eq_rec fuel a b) h (λ _, True).
Proof.
  revert n m a b. induction fuel as [|fuel IH]; intros n m a b Ha Hb Hle.
  { apply dict_ok_pos in Ha as [? ->]. lia. }
  destruct (dict_ok_pos _ _ _ Ha) as [n' ->].
  destruct (dict_ok_pos _ _ _ Hb) as [m' ->].
  destruct (dict_ok_read _ _ _ Ha) as (da & Hda & Hea).
  destruct (dict_ok_read _ _ _ Hb) as (db & Hdb & Heb).
  cbn [Store.py_eq_rec]. unfold Store.py_eq_body.
  run_step runs_read_dict. run_step runs_read_dict.
  destruct (negb _); [by apply runs_ret|].
  apply runs_for_each; [done|]. intros acc [key va] Hin _.
  apply elem_of_map_to_list in Hin.
  destruct (negb acc); [by apply runs_ret|].
  destruct (db !! key) as [vb|] eqn:Hvb; [|by apply runs_ret].
  destruct (decide (key = FILES)) as [->|Hne].
  - destruct (entries_ok_files _ _ _ _ Hea Hin) as [la Hla].
    destruct (entries_ok_files _ _ _ _ Heb Hvb) as [lb Hlb].
    run_step runs_read_loc. run_step runs_read_loc. by apply runs_ret.
  - pose proof (entries_ok_dir _ _ _ _ _ Hea Hne Hin) as Hca.
    pose proof (entries_ok_dir _ _ _ _ _ Heb Hne Hvb) as Hcb.
    destruct (dict_ok_loc _ _ _ Hca) as [dca Hdca].
    destruct (dict_ok_loc _ _ _ Hcb) as [dcb Hdcb].
    run_step runs_read_loc. run_step runs_read_loc.
    eapply (IH n' m'); [done|done|lia].
Qed.

Lemma build_html_tree_runs depth data fuel n s include_differences :
  dict_ok h depth (structure_at (left data)) = true →
  dict_ok h depth (structure_at (right data)) = true →
  dict_ok h n s = true → (n ≤ fuel)%nat → (n ≤ depth)%nat →
  runs (Store.build_html_tree_rec sort_files_by_type depth data fuel s
          include_differences) h (λ _, True).
Proof.
  intros Hleft Hright. revert n s.
  induction fuel as [|fuel IH]; intros n s Hs Hle Hdepth.
  { apply dict_ok_pos in Hs as [? ->]. lia. }
  assert (Hother : ∀ same : bool,
    dict_ok h depth (if same then structure_at (right data)
                     else structure_at (left data)) = true).
  { by intros []. }
  destruct (dict_ok_pos _ _ _ Hs) as [n' ->].
  destruct (dict_ok_read _ _ _ Hs) as (ds & Hds & Hes).
  cbn [Store.build_html_tree_rec]. unfold Store.build_html_tree_body.
  run_step runs_sorted_items.
  eapply runs_bind with (Q := λ _, True).
  { apply runs_for_each; [done|]. intros html [name content] Hin _.
    apply elem_of_sorted_entries in Hin.
    destruct (bool_decide (name ≠ FILES)) eqn:Hname; [|by apply runs_ret].
    apply bool_decide_eq_true in Hname.
    eapply runs_bind with (Q := λ _, True).
    { destruct include_differences; [|by apply runs_ret].
      eapply runs_bind; [by eapply (py_eq_runs depth (S n') depth)|].
      intros same _. specialize (Hother same).
      destruct (dict_ok_pos _ _ _ Hother) as [d' Hd']. rewrite Hd' in Hother.
      destruct (dict_ok_read _ _ _ Hother) as (dother & Hdother & _).
      run_step runs_contains. destruct (negb _); by apply runs_ret. }
    intros dir_class _.
    eapply runs_bind.
    - eapply (IH n'); [by eapply entries_ok_dir|lia|lia].
    - intros sub _. by apply runs_ret. }
  intros html _. run_step runs_contains.
  eapply runs_bind with (Q := λ _, True).
  { destruct (bool_decide (is_Some (ds !! FILES))) eqn:Hf; [|by apply runs_ret].
    apply bool_decide_eq_true in Hf as [lf Hlf].
    run_step runs_getitem.
    destruct (entries_ok_files _ _ _ _ Hes Hlf) as [files Hfiles].
    eapply runs_bind; [by eapply runs_sort_files|]. intros sorted _.
    apply runs_for_each; [done|]. intros html' file _ _.
    eapply runs_bind with (Q := λ _, True).
    { destruct include_differences; [|by apply runs_ret].
      eapply runs_bind; [by eapply (py_eq_runs depth (S n') depth)|].
      intros same _. specialize (Hother same).
      destruct (dict_ok_pos _ _ _ Hother) as [d' Hd']. rewrite Hd' in Hother.
      destruct (dict_ok_read _ _ _ Hother) as (dother & Hdother & Heother).
      eapply runs_bind with (Q := λ r, ∃ l, read_list r h = Some (l, h)).
      { eapply runs_weaken; [by eapply runs_get|].
        intros ? ->. by eapply read_list_files. }
      intros other_files [lo Hlo].
      run_step runs_list_contains. destruct (negb _); by apply runs_ret. }
    intros file_class _. by apply runs_ret. }
  intros html' _. by apply runs_ret.
Qed.

(** C9 (the renderers do not mutate their inputs): on a store that holds
    two well-formed structures and a colour map, and with enough nested
    calls allowed, [build_comparison_tree], the text exporter and the HTML
    exporter return, and the store they leave is the store they found, so
    the structures and the colour map are as before; the exporters change
    the file system at the output path only. *)
Theorem renderers_leave_inputs (depth fuel : nat) (data : data_ref)
    (tree : Tree) (output_path : string) (fs : filesystem) :
  dict_ok h depth (structure_at (left data)) = true →
  dict_ok h depth (structure_at (right data)) = true →
  (depth + depth ≤ fuel)%nat →
  (∃ tree',
     Store.build_comparison_tree_rec sort_files_by_type fuel
       (structure_at (left data)) (structure_at (right data)) tree color_map h
     = Some (tree', h)) ∧
  (∃ document,
     Store.export_comparison_to_txt sort_files_by_type fuel data output_path h fs
     = Some (h, <[output_path := document]> fs)) ∧
  (∃ document,
     Store.export_comparison_to_html sort_files_by_type fuel data output_path h fs
     = Some (h, <[output_path := document]> fs)).
Proof.
  intros Hleft Hright Hfuel. split_and!.
  - destruct (build_comparison_tree_runs fuel depth depth _ _ tree Hleft Hright Hfuel)
      as (t & Ht & _). by exists t.
  - unfold Store.export_comparison_to_txt, Store.txt_document.
    destruct (build_txt_tree_runs fuel depth _ "" true Hleft ltac:(lia))
      as (t1 & Ht1 & _).
    destruct (build_txt_tree_runs fuel depth _ "" true Hright ltac:(lia))
      as (t2 & Ht2 & _).
    unfold bind. rewrite Ht1, Ht2. unfold ret. by eexists.
  - unfold Store.export_comparison_to_html, Store.html_document.
    destruct (build_html_tree_runs fuel data fuel depth _ true
                (dict_ok_mono _ _ fuel _ Hleft ltac:(lia))
                (dict_ok_mono _ _ fuel _ Hright ltac:(lia))
                Hleft ltac:(lia) ltac:(lia)) as (t1 & Ht1 & _).
    destruct (build_html_tree_runs fuel data fuel depth _ true
                (dict_ok_mono _ _ fuel _ Hleft ltac:(lia))
                (dict_ok_mono _ _ fuel _ Hright ltac:(lia))
                Hright ltac:(lia) ltac:(lia)) as (t2 & Ht2 & _).
    unfold bind. rewrite Ht1, Ht2. unfold ret. by eexists.
Qed.

End Frame.

End StoreFacts.

Section StoreSamples.

#[local] Existing Instance sample_lower.


Lemma store_sort_pure r (h : gmap Store.loc Store.obj) l :
  Store.read_list r h = Some (l, h) →
  ∃ l', store_sort r h = Some (l', h).
Proof.
  intros H. exists (sort_by_extension l). unfold store_sort, Store.bind.
  by rewrite H.
Qed.

Lemma renderers_leave_inputs_witness :
  (∃ tree',
     Store.build_comparison_tree_rec store_sort 6%nat
       (Store.RLoc 1%positive) (Store.RLoc 4%positive) (leaf root_left) 7%positive sample_store
     = Some (tree', sample_store)) ∧
  (∃ document,
     Store.export_comparison_to_txt store_sort 6%nat sample_data_ref "out.txt"
       sample_store ∅
     = Some (sample_store, <["out.txt" := document]> ∅)) ∧
  (∃ document,
     Store.export_comparison_to_html store_sort 6%nat sample_data_ref "out.html"
       sample_store ∅
     = Some (sample_store, <["out.html" := document]> ∅)).
Proof.
  pose proof (renderers_leave_inputs store_sort store_sort_pure sample_store
                7%positive {[ ".py" := "#3572A5" ]} eq_refl 3%nat 6%nat sample_data_ref
                (leaf root_left)) as H.
  split_and!.
  - apply (H "out.txt" ∅); [by vm_compute|by vm_compute|lia].
  - apply (H "out.txt" ∅); [by vm_compute|by vm_compute|lia].
  - apply (H "out.html" ∅); [by vm_compute|by vm_compute|lia].
Defined.

(** On scenario A the functions over the store give the tree and the
    documents of the functions over values. *)
Example store_agrees_on_scenario :
  Store.build_comparison_tree_rec store_sort 6%nat (Store.RLoc 1%positive) (Store.RLoc 4%positive)
    (leaf root_left) 7%positive sample_store
  = Some (build_comparison_tree sort_by_extension scenario_left scenario_right
            (leaf root_left) {[ ".py" := "#3572A5" ]}, sample_store) ∧
  Store.txt_document store_sort 6%nat sample_data_ref sample_store
  = Some (txt_document sort_by_extension scenario_data, sample_store) ∧
  Store.html_document store_sort 6%nat sample_data_ref sample_store
  = Some (html_document sort_by_extension scenario_data, sample_store).
Proof. split_and!; by vm_compute. Qed.

End StoreSamples.

(** ** The functions over the store compute the functions over values *)

Section StoreHolds.

Context {str_lower : Py.Lower}.

Lemma holds_pos h n r s : Store.holds h n r s = true → ∃ n', n = S n'.
Proof. destruct n; [done|]. by exists n. Qed.

Lemma holds_mono h n m r s :
  Store.holds h n r s = true → (n ≤ m)%nat → Store.holds h m r s = true.
Proof.
  revert m r s. induction n as [|n IH]; intros m r s H Hle; [done|].
  destruct m as [|m]; [lia|]. simpl in *.
  destruct r as [l| |]; try done.
  destruct (h !! l) as [[| d |]|]; try done.
  apply andb_true_iff in H as [H H4]. apply andb_true_iff in H as [H H3].
  apply andb_true_iff. split; [|done]. apply andb_true_iff. split; [done|].
  apply forallb_forall. intros [k c] Hin.
  eapply forallb_forall in H3; [|done]. simpl in *.
  destruct (d !! k); [|done]. apply IH; [done|lia].
Qed.

Lemma holds_empty h n : Store.holds h (S n) Store.REmptyDict empty_structure = true.
Proof. done. Qed.

Lemma holds_read h n r s :
  Store.holds h (S n) r s = true →
  ∃ d, Store.read_dict r h = Some (d, h) ∧ Store.dict_holds h n d s.
Proof.
  intros H. simpl in H. destruct r as [l| |]; [| |done].
  - destruct (h !! l) as [[| d |]|] eqn:Hl; try done.
    apply andb_true_iff in H as [H H4]. apply andb_true_iff in H as [H H3].
    apply andb_true_iff in H as [H1 H2].
    exists d. split; [unfold Store.read_dict, Store.bind, Store.read; by rewrite Hl|].
    intros key. unfold Store.entry_holds.
    destruct (decide (key = FILES)) as [->|Hne].
    + rewrite py_get_files.
      destruct (files s) as [fl|], (d !! FILES) as [lf|]; simpl; try done.
      destruct (h !! lf) as [[fl'| |]|]; try done.
      by apply bool_decide_eq_true in H1 as ->.
    + rewrite py_get_dir by done.
      destruct (dirs s !! key) as [c|] eqn:Hc; simpl.
      * apply elem_of_map_to_list, list_elem_of_In in Hc.
        eapply forallb_forall in H3; [|done]. simpl in H3.
        by destruct (d !! key).
      * destruct (d !! key) as [lk|] eqn:Hlk; [|done].
        apply elem_of_map_to_list, list_elem_of_In in Hlk.
        eapply forallb_forall in H4; [|done]. simpl in H4.
        apply orb_true_iff in H4 as [H4|H4]; apply bool_decide_eq_true in H4.
        -- done.
        -- rewrite Hc in H4. by destruct H4.
  - apply andb_true_iff in H as [H1 H2].
    apply bool_decide_eq_true in H1, H2. apply map_to_list_empty_iff in H2.
    exists ∅. split; [done|]. intros key. rewrite lookup_empty.
    unfold Store.entry_holds, py_get. rewrite H1, H2, lookup_empty.
    by destruct (decide _).
Qed.

Section Dict.

Context (h : Store.store) (n : nat) (d : gmap string Store.loc) (s : structure).
Hypothesis Hd : Store.dict_holds h n d s.

Lemma holds_is_Some key : is_Some (d !! key) ↔ is_Some (py_get s key).
Proof.
  specialize (Hd key). unfold Store.entry_holds in Hd.
  destruct (d !! key), (py_get s key) as [[]|]; split; intros [? ?];
    try done; by eexists.
Qed.

Lemma holds_contains key : bool_decide (is_Some (d !! key)) = py_in key s.
Proof. unfold py_in. apply bool_decide_ext, holds_is_Some. Qed.

Lemma holds_truth : negb (bool_decide (d = ∅)) = truthy s.
Proof.
  unfold truthy. f_equal. apply bool_decide_ext. split.
  - intros He. apply elem_of_nil_inv. intros [k v] Hin.
    apply elem_of_py_items in Hin.
    assert (is_Some (d !! k)) as [? Hk] by (apply holds_is_Some; by eexists).
    by rewrite He, lookup_empty in Hk.
  - intros Hs. apply map_eq. intros k. rewrite lookup_empty.
    apply eq_None_not_Some. intros [v Hv]%holds_is_Some.
    apply elem_of_py_items in Hv. rewrite Hs in Hv. by apply not_elem_of_nil in Hv.
Qed.

Lemma holds_files :
  Store.read_list (from_option Store.RLoc Store.REmptyList (d !! FILES)) h = Some (get_files s, h).
Proof.
  specialize (Hd FILES). unfold Store.entry_holds in Hd. unfold get_files.
  destruct (d !! FILES) as [lf|], (py_get s FILES) as [[fl|c]|] eqn:Hs;
    simpl; try done.
  - unfold Store.read_list, Store.bind, Store.read. by rewrite Hd.
  - by apply py_get_FILES_list in Hs as [? ?].
Qed.

Lemma holds_getitem_files lf :
  d !! FILES = Some lf → h !! lf = Some (Store.OList (get_files s)).
Proof.
  intros Hlf. specialize (Hd FILES). unfold Store.entry_holds in Hd. unfold get_files.
  rewrite Hlf in Hd. destruct (py_get s FILES) as [[fl|c]|] eqn:Hs; try done.
  by apply py_get_FILES_list in Hs as [? ?].
Qed.

Lemma holds_dir key :
  key ≠ FILES →
  Store.holds h (S n) (from_option Store.RLoc Store.REmptyDict (d !! key)) (get_dir s key) = true.
Proof.
  intros Hne. specialize (Hd key). unfold Store.entry_holds in Hd. unfold get_dir.
  destruct (d !! key) as [lk|], (py_get s key) as [[fl|c]|] eqn:Hs;
    cbn [from_option]; try done.
  - by apply py_get_dir_dict in Hs as (? & ? & ?).
  - eapply holds_mono; [done|lia].
Qed.

Lemma holds_getitem_dir key lk :
  key ≠ FILES → d !! key = Some lk →
  Store.holds h n (Store.RLoc lk) (get_dir s key) = true.
Proof.
  intros Hne Hlk. specialize (Hd key). unfold Store.entry_holds in Hd. unfold get_dir.
  rewrite Hlk in Hd. destruct (py_get s key) as [[fl|c]|] eqn:Hs; try done.
  by apply py_get_dir_dict in Hs as (? & ? & ?).
Qed.

Lemma holds_key_perm : (map_to_list d).*1 ≡ₚ py_keys s.
Proof.
  apply NoDup_Permutation.
  - apply NoDup_fst_map_to_list.
  - apply NoDup_py_keys.
  - intros k. rewrite elem_of_py_keys, <- holds_is_Some.
    rewrite list_elem_of_fmap. split.
    + intros ([k' l] & -> & Hin). apply elem_of_map_to_list in Hin. by eexists.
    + intros [l Hl]. exists (k, l). split; [done|]. by apply elem_of_map_to_list.
Qed.

Lemma holds_sorted_keys : merge_sort str_le (map_to_list d).*1 = sorted_keys s.
Proof.
  apply sorted_keys_unique.
  - apply Sorted_merge_sort, _.
  - apply sorted_keys_sorted.
  - unfold sorted_keys. rewrite !merge_sort_Permutation. apply holds_key_perm.
Qed.

Lemma holds_sorted_items :
  Forall2 (λ x y, Store.item_holds h n x y ∧ y ∈ sorted_items s)
    (merge_sort item_le (map_to_list d)) (sorted_items s).
Proof.
  apply Forall2_same_keys.
  - apply sorted_keys_unique.
    + apply sorted_item_keys, Sorted_merge_sort, _.
    + apply sorted_item_keys, sorted_items_sorted.
    + unfold sorted_items. rewrite !merge_sort_Permutation. apply holds_key_perm.
  - intros [k l] [k' v] Hx Hy Hk. simpl in Hk. subst k'.
    split; [|done]. split; [done|]. simpl.
    apply elem_of_sorted_entries in Hx. apply elem_of_sorted_items in Hy.
    pose proof (Hd k) as Hk. by rewrite Hx, Hy in Hk.
Qed.

End Dict.

End StoreHolds.

Lemma runs_for_each_related {A B} (R : A → B → Prop)
    (body : Tree → A → Store.M Tree) (g : B → option Tree) l1 l2 tree h :
  Forall2 R l1 l2 →
  (∀ tree x y, R x y →
     Store.runs (body tree x) h
       (λ t, t = match g y with Some c => add tree c | None => tree end)) →
  Store.runs (Store.for_each body l1 tree) h
    (λ t, t = Node (label tree) (children tree ++ omap g l2)).
Proof.
  intros HR Hbody. revert tree.
  induction HR as [|x y l1 l2 Hxy HR IH]; intros tree; simpl.
  - apply runs_ret. rewrite app_nil_r. by destruct tree.
  - eapply runs_bind; [by apply Hbody|]. intros t Ht. cbv beta in Ht. subst t.
    eapply runs_weaken; [apply IH|]. intros t ->.
    destruct (g y) as [c|]; simpl; [|done]. by rewrite <- app_assoc.
Qed.

Lemma runs_for_each_add {A} (body : Tree → A → Store.M Tree)
    (g : A → option Tree) l tree h :
  (∀ tree x, x ∈ l →
     Store.runs (body tree x) h
       (λ t, t = match g x with Some c => add tree c | None => tree end)) →
  Store.runs (Store.for_each body l tree) h
    (λ t, t = Node (label tree) (children tree ++ omap g l)).
Proof.
  intros Hbody.
  apply (runs_for_each_related (λ x y, x = y ∧ x ∈ l)).
  - assert (H : ∀ l', (∀ x, x ∈ l' → x ∈ l) →
                      Forall2 (λ x y, x = y ∧ x ∈ l) l' l').
    { induction l' as [|x l' IH]; intros H; constructor.
      - split; [done|]. apply H. left.
      - apply IH. intros. apply H. by right. }
    by apply H.
  - intros tree' x y [-> Hin]. by apply Hbody.
Qed.

Lemma negb_bool_decide_elem (x : string) (l : list string) :
  negb (bool_decide (x ∈ l)) = bool_decide (x ∉ l).
Proof. by rewrite bool_decide_not. Qed.

Lemma runs_for_each_concat {A B C} (R : A → B → Prop)
    (body : list C → A → Store.M (list C)) (g : B → list C) l1 l2 acc h :
  Forall2 R l1 l2 →
  (∀ acc x y, R x y → Store.runs (body acc x) h (λ r, r = acc ++ g y)) →
  Store.runs (Store.for_each body l1 acc) h
    (λ r, r = acc ++ concat (g <$> l2)).
Proof.
  intros HR Hbody. revert acc.
  induction HR as [|x y l1 l2 Hxy HR IH]; intros acc; simpl.
  - apply runs_ret. by rewrite app_nil_r.
  - eapply runs_bind; [by apply Hbody|]. intros t Ht. cbv beta in Ht. subst t.
    eapply runs_weaken; [apply IH|]. intros t ->. by rewrite <- app_assoc.
Qed.

Lemma Forall2_enumerate {A B} (R : A → B → Prop) (l1 : list A) (l2 : list B) :
  Forall2 R l1 l2 →
  Forall2 (λ x y, x.1 = y.1 ∧ R x.2 y.2) (enumerate l1) (enumerate l2).
Proof.
  intros HR. unfold enumerate. rewrite <- (Forall2_length _ _ _ HR).
  generalize (Z.of_nat <$> seq 0 (length l1)). intros idx. revert idx.
  induction HR as [|x y l1 l2 Hxy HR IH]; intros [|i idx]; simpl;
    try constructor; auto.
Qed.

Lemma holds_loc h n l c :
  Store.holds h n (Store.RLoc l) c = true → ∃ d, h !! l = Some (Store.ODict d).
Proof.
  destruct n; [done|]. simpl. destruct (h !! l) as [[| d |]|]; try done.
  by exists d.
Qed.

Lemma runs_for_each_forallb {A} (body : bool → A → Store.M bool)
    (P : A → bool) l acc h :
  (∀ acc x, x ∈ l → Store.runs (body acc x) h (λ r, r = acc && P x)) →
  Store.runs (Store.for_each body l acc) h (λ r, r = acc && forallb P l).
Proof.
  revert acc. induction l as [|x l IH]; intros acc Hbody; simpl.
  - apply runs_ret. by rewrite andb_true_r.
  - eapply runs_bind; [apply Hbody; left|].
    intros t Ht. cbv beta in Ht. subst t.
    eapply runs_weaken; [apply IH; intros; apply Hbody; by right|].
    intros t ->. by rewrite andb_assoc.
Qed.

(** A loop of the store against the same loop on values, item by item. *)
Lemma runs_for_each_option {S A B} (R : A → B → Prop)
    (body : S → A → Store.M S) (body' : S → B → option S) l1 l2 acc h :
  Forall2 R l1 l2 →
  (∀ acc x y, R x y → Store.runs (body acc x) h (λ r, body' acc y = Some r)) →
  Store.runs (Store.for_each body l1 acc) h
    (λ r, for_each body' l2 acc = Some r).
Proof.
  intros HR Hbody. revert acc.
  induction HR as [|x y l1 l2 Hxy HR IH]; intros acc; simpl.
  - by apply runs_ret.
  - eapply runs_bind; [by apply Hbody|]. intros t Ht. cbv beta in Ht.
    rewrite Ht. apply IH.
Qed.

Lemma runs_bind_option {A B} (m : Store.M A) (k : A → Store.M B) h
    (o : option A) (K : A → option B) :
  Store.runs m h (λ a, o = Some a) →
  (∀ a, Store.runs (k a) h (λ b, K a = Some b)) →
  Store.runs (Store.bind m k) h (λ b, o ≫= K = Some b).
Proof.
  intros Hm Hk. eapply runs_bind; [apply Hm|].
  intros a Ha. cbv beta in Ha. rewrite Ha. apply Hk.
Qed.

Lemma runs_for_each_foldl {S A} (body : S → A → Store.M S) (f : S → A → S)
    l acc h :
  (∀ acc x, x ∈ l → Store.runs (body acc x) h (λ r, r = f acc x)) →
  Store.runs (Store.for_each body l acc) h (λ r, r = foldl f acc l).
Proof.
  revert acc. induction l as [|x l IH]; intros acc Hbody; simpl.
  - by apply runs_ret.
  - eapply runs_bind; [apply Hbody; left|].
    intros t Ht. cbv beta in Ht. subst t.
    apply IH. intros; apply Hbody; by right.
Qed.

Section Refinement.

Context {str_lower : Py.Lower}.

(** [sort_files_by_type] on the store reads the list and returns the
    sorted copy that the function on values gives. *)
Variable sort_files_by_type : list string → list string.
Variable store_sort_files : Store.ref → Store.M (list string).
Hypothesis store_sort_refines :
  ∀ r h l, Store.read_list r h = Some (l, h) →
           store_sort_files r h = Some (sort_files_by_type l, h).

Variable h : Store.store.
Variable color_map : Store.loc.
Variable colors : gmap string string.
Hypothesis color_map_holds : h !! color_map = Some (Store.OColors colors).

Lemma runs_sort_refines l files :
  h !! l = Some (Store.OList files) →
  Store.runs (store_sort_files (Store.RLoc l)) h
    (λ l', l' = sort_files_by_type files).
Proof.
  intros Hl. eexists. split; [|done]. apply store_sort_refines.
  unfold Store.read_list, Store.bind, Store.read. by rewrite Hl.
Qed.

Lemma store_build_comparison_tree fuel n m rs ro s o tree :
  Store.holds h n rs s = true → Store.holds h m ro o = true →
  (n + m ≤ fuel)%nat →
  Store.runs
    (Store.build_comparison_tree_rec store_sort_files fuel rs ro tree color_map)
    h (λ t, t = build_comparison_tree sort_files_by_type s o tree colors).
Proof.
  revert n m rs ro s o tree.
  induction fuel as [|fuel IH]; intros n m rs ro s o tree Hs Ho Hle.
  { apply holds_pos in Hs as [? ->]. lia. }
  destruct (holds_pos _ _ _ _ Hs) as [n' ->].
  destruct (holds_pos _ _ _ _ Ho) as [m' ->].
  destruct (holds_read _ _ _ _ Hs) as (ds & Hds & Hrs).
  destruct (holds_read _ _ _ _ Ho) as (dt & Hdt & Hro).
  rewrite build_comparison_tree_unfold. unfold appended.
  cbn [Store.build_comparison_tree_rec]. unfold Store.build_comparison_tree_body.
  run_step runs_contains. rewrite (holds_contains _ _ _ _ Hrs).
  (* the files of this side *)
  eapply runs_bind with
    (Q := λ t, t = Node (label tree)
                     (children tree ++ here_files sort_files_by_type s o colors)).
  { unfold here_files. destruct (py_in FILES s) eqn:Hin; last first.
    { apply runs_ret. rewrite app_nil_r. by destruct tree. }
    run_step runs_truth. rewrite (holds_truth _ _ _ _ Hro).
    eapply runs_bind with
      (Q := λ r, Store.read_list r h = Some (get_files o, h)).
    { destruct (truthy o) eqn:Ht.
      - eapply runs_weaken; [by eapply runs_get|].
        intros ? ->. by eapply holds_files.
      - apply runs_ret. by rewrite <- truthy_get_files, Ht. }
    intros files_in_other Hfo.
    rewrite <- (holds_contains _ _ _ _ Hrs) in Hin.
    apply bool_decide_eq_true in Hin as [lf Hlf].
    run_step runs_getitem.
    eapply runs_bind;
      [eapply runs_sort_refines; by eapply (holds_getitem_files _ _ _ _ Hrs)|].
    intros ? ->. rewrite <- omap_Some_fmap.
    apply runs_for_each_add. intros tree' file _.
    run_step runs_color_get. run_step runs_list_contains.
    rewrite negb_bool_decide_elem. unfold file_color.
    destruct (bool_decide (file ∉ get_files o)); by apply runs_ret. }
  intros ? ->. run_step runs_sorted_items.
  (* the subdirectories of this side *)
  eapply runs_bind with
    (Q := λ t, t = Node (label tree)
                     ((children tree ++ here_files sort_files_by_type s o colors)
                      ++ here_dirs sort_files_by_type s o colors)).
  { eapply runs_weaken.
    - eapply (runs_for_each_related
                (λ x y, Store.item_holds h n' x y ∧ y ∈ sorted_items s) _
                (λ item : string * value,
                   match item.2 with
                   | VDict content =>
                       if bool_decide (item.1 ≠ FILES) then
                         Some (build_comparison_tree sort_files_by_type content
                                 (get_dir o item.1)
                                 (leaf (mkText (FOLDER_ICON +:+ item.1)
                                          (if py_in item.1 o then "" else "green")))
                                 colors)
                       else None
                   | VList _ => None
                   end)).
      + by apply holds_sorted_items.
      + intros tree' [folder content] [folder' v] [[Hk Hv] Hin].
        simpl in Hk, Hv. subst folder'. cbn [fst snd].
        apply elem_of_sorted_items in Hin.
        destruct (bool_decide (folder ≠ FILES)) eqn:Hne; last first.
        { apply runs_ret. by destruct v. }
        apply bool_decide_eq_true in Hne.
        apply py_get_dir_dict in Hin as (c & -> & Hc); [|done].
        run_step runs_truth. rewrite (holds_truth _ _ _ _ Hro).
        eapply runs_bind with
          (Q := λ r, Store.holds h (S m') r (get_dir o folder) = true).
        { destruct (truthy o) eqn:Ht.
          - eapply runs_weaken; [by eapply runs_get|].
            intros ? ->. by eapply holds_dir.
          - apply runs_ret. by rewrite <- truthy_get_dir, Ht. }
        intros other_content Hoc.
        eapply runs_bind with (Q := λ b, b = py_in folder o).
        { destruct (truthy o) eqn:Ht.
          - eapply runs_weaken; [by eapply runs_contains|].
            intros ? ->. by eapply holds_contains.
          - apply runs_ret. by rewrite <- truthy_py_in, Ht. }
        intros ? ->.
        eapply runs_bind.
        * eapply (IH n' (S m')); [done|done|lia].
        * intros ? ->. apply runs_ret. by destruct (py_in folder o).
    - intros ? ->. done. }
  intros ? ->.
  (* the files that only the other side has *)
  run_step runs_truth. rewrite (holds_truth _ _ _ _ Hro).
  eapply runs_bind with (Q := λ b, b = py_in FILES o).
  { destruct (truthy o) eqn:Ht.
    - eapply runs_weaken; [by eapply runs_contains|].
      intros ? ->. by eapply holds_contains.
    - apply runs_ret. by rewrite <- truthy_py_in, Ht. }
  intros ? ->.
  eapply runs_bind with
    (Q := λ t, t = Node (label tree)
                     (((children tree ++ here_files sort_files_by_type s o colors)
                       ++ here_dirs sort_files_by_type s o colors)
                      ++ there_files sort_files_by_type s o colors)).
  { unfold there_files. destruct (py_in FILES o) eqn:Hin; last first.
    { apply runs_ret. by rewrite app_nil_r. }
    eapply runs_bind with
      (Q := λ r, Store.read_list r h = Some (get_files s, h)).
    { eapply runs_weaken; [by eapply runs_get|].
      intros ? ->. by eapply holds_files. }
    intros files_in_this Hft.
    rewrite <- (holds_contains _ _ _ _ Hro) in Hin.
    apply bool_decide_eq_true in Hin as [lf Hlf].
    run_step runs_getitem.
    eapply runs_bind;
      [eapply runs_sort_refines; by eapply (holds_getitem_files _ _ _ _ Hro)|].
    intros ? ->.
    eapply runs_weaken.
    - apply (runs_for_each_add _
               (λ file,
                  if bool_decide (file ∉ get_files s)
                  then Some (leaf (mkText (FILE_ICON +:+ file)
                                     (file_color colors file +:+ " on red")))
                  else None)).
      intros tree' file _. run_step runs_list_contains.
      rewrite negb_bool_decide_elem.
      destruct (bool_decide (file ∉ get_files s)); [|by apply runs_ret].
      run_step runs_color_get. by apply runs_ret.
    - intros ? ->. done. }
  intros ? ->.
  (* the subdirectories that only the other side has *)
  run_step runs_truth. rewrite (holds_truth _ _ _ _ Hro).
  unfold there_dirs. destruct (truthy o) eqn:Ht; last first.
  { apply runs_ret. rewrite (truthy_false_keys _ Ht). simpl.
    by rewrite !app_nil_r, <- !app_assoc. }
  run_step runs_sorted_keys. rewrite (holds_sorted_keys _ _ _ _ Hro).
  eapply runs_weaken.
  - apply (runs_for_each_add _
             (λ folder,
                if bool_decide (folder ≠ FILES) && negb (py_in folder s)
                then Some (build_comparison_tree sort_files_by_type empty_structure
                             (get_dir o folder)
                             (leaf (mkText (FOLDER_ICON +:+ folder) "red")) colors)
                else None)).
    intros tree' folder Hin.
    run_step runs_contains. rewrite (holds_contains _ _ _ _ Hrs).
    destruct (bool_decide (folder ≠ FILES) && negb (py_in folder s)) eqn:Hc;
      [|by apply runs_ret].
    apply andb_true_iff in Hc as [Hne _]. apply bool_decide_eq_true in Hne.
    apply elem_of_sorted_keys in Hin.
    apply (holds_is_Some _ _ _ _ Hro) in Hin as [lk Hlk].
    run_step runs_getitem.
    eapply runs_bind.
    + eapply (IH 1%nat m'); [apply holds_empty| |lia].
      by eapply (holds_getitem_dir _ _ _ _ Hro).
    + intros ? ->. by apply runs_ret.
  - intros ? ->. cbn [label children]. by rewrite <- !app_assoc.
Qed.

Lemma store_build_txt_tree fuel n r s prefix is_last :
  Store.holds h n r s = true → (n ≤ fuel)%nat →
  Store.runs (Store.build_txt_tree_rec store_sort_files fuel r prefix is_last) h
    (λ lines, lines = build_txt_tree sort_files_by_type s prefix is_last).
Proof.
  revert n r s prefix is_last.
  induction fuel as [|fuel IH]; intros n r s prefix is_last Hs Hle.
  { apply holds_pos in Hs as [? ->]. lia. }
  destruct (holds_pos _ _ _ _ Hs) as [n' ->].
  destruct (holds_read _ _ _ _ Hs) as (ds & Hds & Hrs).
  rewrite build_txt_tree_unfold.
  cbn [Store.build_txt_tree_rec]. unfold Store.build_txt_tree_body.
  run_step runs_sorted_items. run_step runs_contains.
  rewrite (holds_contains _ _ _ _ Hrs).
  pose proof (holds_sorted_items _ _ _ _ Hrs) as Hitems.
  eapply runs_bind.
  { eapply (runs_for_each_concat _ _
              (dir_lines sort_files_by_type s prefix)).
    - apply Forall2_enumerate, Hitems.
    - intros acc [i [name content]] [i' [name' v]] [Hi [[Hk Hv] Hin]].
      simpl in Hi, Hk, Hv, Hin. subst i' name'. unfold dir_lines.
      unfold llen. rewrite (Forall2_length _ _ _ Hitems).
      apply elem_of_sorted_items in Hin.
      destruct (bool_decide (name = FILES)) eqn:Hname.
      { apply runs_ret. by rewrite app_nil_r. }
      apply bool_decide_eq_false in Hname.
      apply py_get_dir_dict in Hin as (c & -> & Hc); [|done].
      destruct (holds_loc _ _ _ _ Hv) as [dc Hdc].
      destruct (_ || _); run_step runs_read_loc.
      + eapply runs_bind; [eapply (IH n'); [done|lia]|].
        intros ? ->. apply runs_ret. by rewrite <- (app_assoc acc [_]).
      + eapply runs_bind; [eapply (IH n'); [done|lia]|].
        intros ? ->. apply runs_ret. by rewrite <- (app_assoc acc [_]). }
  intros ? ->. cbn [app]. unfold file_lines.
  destruct (py_in FILES s) eqn:Hin; last first.
  { apply runs_ret. by rewrite app_nil_r. }
  rewrite <- (holds_contains _ _ _ _ Hrs) in Hin.
  apply bool_decide_eq_true in Hin as [lf Hlf].
  run_step runs_getitem.
  eapply runs_bind;
    [eapply runs_sort_refines; by eapply (holds_getitem_files _ _ _ _ Hrs)|].
  intros ? ->. apply runs_ret.
  etrans; [|apply foldl_snoc].
  apply foldl_ext_in. intros acc [i file] _. simpl. by destruct (_ =? _).
Qed.

Lemma store_txt_document fuel n data s1 s2 :
  Store.holds h n (Store.structure_at (Store.left data)) s1 = true →
  Store.holds h n (Store.structure_at (Store.right data)) s2 = true →
  (n ≤ fuel)%nat →
  Store.runs (Store.txt_document store_sort_files fuel data) h
    (λ document,
       document = txt_document sort_files_by_type (Store.plain_data data s1 s2)).
Proof.
  intros H1 H2 Hle. unfold Store.txt_document.
  eapply runs_bind; [by eapply store_build_txt_tree|]. intros ? ->.
  eapply runs_bind; [by eapply store_build_txt_tree|]. intros ? ->.
  by apply runs_ret.
Qed.

(** [a == b] on two dicts of the store is the equality of the structures
    they hold. *)
Lemma store_py_eq fuel n m ra rb a b :
  Store.holds h n ra a = true → Store.holds h m rb b = true →
  (n ≤ fuel)%nat →
  Store.runs (Store.py_eq_rec fuel ra rb) h (λ r, r = py_eq a b).
Proof.
  revert n m ra rb a b.
  induction fuel as [|fuel IH]; intros n m ra rb a b Ha Hb Hle.
  { apply holds_pos in Ha as [? ->]. lia. }
  destruct (holds_pos _ _ _ _ Ha) as [n' ->].
  destruct (holds_pos _ _ _ _ Hb) as [m' ->].
  destruct (holds_read _ _ _ _ Ha) as (da & Hda & Hra).
  destruct (holds_read _ _ _ _ Hb) as (db & Hdb & Hrb).
  rewrite py_eq_unfold, forallb_items_keys.
  cbn [Store.py_eq_rec]. unfold Store.py_eq_body.
  run_step runs_read_dict. run_step runs_read_dict.
  assert (Hlen : ∀ k d s, Store.dict_holds h k d s →
                 llen (map_to_list d) = llen (py_items s)).
  { intros k d s Hd. unfold llen. f_equal.
    rewrite <- (length_fmap fst (map_to_list d)).
    rewrite (holds_key_perm _ _ _ _ Hd). unfold py_keys. by rewrite length_fmap. }
  rewrite (Hlen _ _ _ Hra), (Hlen _ _ _ Hrb).
  destruct (_ =? _); cbn [negb andb]; [|by apply runs_ret].
  eapply runs_weaken;
    [apply (runs_for_each_forallb _ (λ item, key_eq a b item.1))|].
  - intros acc [key va] Hin. apply elem_of_map_to_list in Hin.
    destruct acc; cbn [negb andb fst]; [|by apply runs_ret].
    pose proof (Hra key) as Hka. pose proof (Hrb key) as Hkb.
    rewrite Hin in Hka. unfold key_eq, item_eq. cbn [fst snd].
    unfold Store.entry_holds in Hka, Hkb.
    destruct (py_get a key) as [[la|ca]|]; [| |done].
    + destruct (db !! key) as [vb|], (py_get b key) as [[lb|cb]|];
        try done; try by apply runs_ret.
      * run_step runs_read_loc. run_step runs_read_loc. by apply runs_ret.
      * destruct (holds_loc _ _ _ _ Hkb) as [dc Hdc].
        run_step runs_read_loc. run_step runs_read_loc. by apply runs_ret.
    + destruct (holds_loc _ _ _ _ Hka) as [dc Hdc].
      destruct (db !! key) as [vb|], (py_get b key) as [[lb|cb]|];
        try done; try by apply runs_ret.
      * run_step runs_read_loc. run_step runs_read_loc. by apply runs_ret.
      * destruct (holds_loc _ _ _ _ Hkb) as [dc' Hdc'].
        run_step runs_read_loc. run_step runs_read_loc.
        eapply (IH n'); [done|done|lia].
  - intros ? ->. cbn [andb].
    etrans; [symmetry; apply (forallb_fmap fst (key_eq a b))|].
    apply forallb_perm, (holds_key_perm _ _ _ _ Hra).
Qed.

Lemma build_html_tree_unfold data s incl :
  build_html_tree_body sort_files_by_type data
    (λ c i, Some (build_html_tree sort_files_by_type data c i)) s incl
  = Some (build_html_tree sort_files_by_type data s incl).
Proof.
  rewrite <- (build_html_tree_rec_enough _ _ (S (height s))) by lia.
  cbn [build_html_tree_rec]. apply html_body_ext. intros c i Hc.
  symmetry. apply build_html_tree_rec_enough. lia.
Qed.

(** [_build_html_tree] on the store returns the list items that the
    function on values gives for the structures the store holds. *)
Lemma store_build_html_tree depth data fuel n r s s1 s2 incl :
  Store.holds h depth (Store.structure_at (Store.left data)) s1 = true →
  Store.holds h depth (Store.structure_at (Store.right data)) s2 = true →
  Store.holds h n r s = true → (n ≤ fuel)%nat → (n ≤ depth)%nat →
  Store.runs (Store.build_html_tree_rec store_sort_files depth data fuel r incl)
    h (λ html, html = build_html_tree sort_files_by_type
                        (Store.plain_data data s1 s2) s incl).
Proof.
  intros H1 H2. revert n r s incl.
  induction fuel as [|fuel IH]; intros n r s incl Hs Hle Hdepth.
  { apply holds_pos in Hs as [? ->]. lia. }
  assert (Hother : ∀ same : bool,
    Store.holds h depth
      (if same then Store.structure_at (Store.right data)
       else Store.structure_at (Store.left data))
      (if same then s2 else s1) = true) by (by intros []).
  assert (Heq : Store.runs
            (Store.py_eq_rec depth r (Store.structure_at (Store.left data))) h
            (λ same, same = py_eq s s1)) by (by eapply store_py_eq).
  destruct (holds_pos _ _ _ _ Hs) as [n' ->].
  destruct (holds_read _ _ _ _ Hs) as (ds & Hds & Hrs).
  eapply runs_weaken with
    (Q := λ html, build_html_tree_body sort_files_by_type
                    (Store.plain_data data s1 s2)
                    (λ c i, Some (build_html_tree sort_files_by_type
                                    (Store.plain_data data s1 s2) c i)) s incl
                  = Some html);
    [|intros html Hhtml; rewrite build_html_tree_unfold in Hhtml; congruence].
  cbn [Store.build_html_tree_rec].
  unfold Store.build_html_tree_body, build_html_tree_body.
  cbn [Store.plain_data structure_of dir1 dir2].
  run_step runs_sorted_items.
  eapply runs_bind_option.
  { eapply (runs_for_each_option
              (λ x y, Store.item_holds h n' x y ∧ y ∈ sorted_items s)).
    - by apply holds_sorted_items.
    - intros acc [name content] [name' v] [[Hk Hv] Hin].
      simpl in Hk, Hv. subst name'. apply elem_of_sorted_items in Hin.
      destruct (bool_decide (name ≠ FILES)) eqn:Hname; [|by apply runs_ret].
      apply bool_decide_eq_true in Hname.
      apply py_get_dir_dict in Hin as (c & -> & Hc); [|done].
      eapply runs_bind with
        (Q := λ dir_class, dir_class =
                if incl then
                  if negb (py_in name (if py_eq s s1 then s2 else s1))
                  then " class=" +:+ Py.dquote +:+ "directory-unique" +:+ Py.dquote
                  else ""
                else "").
      { destruct incl; [|by apply runs_ret].
        eapply runs_bind; [apply Heq|]. intros ? ->.
        destruct (holds_pos _ _ _ _ (Hother (py_eq s s1))) as [d' Hd'].
        pose proof (Hother (py_eq s s1)) as Ho. rewrite Hd' in Ho.
        destruct (holds_read _ _ _ _ Ho) as (dd & Hdd & Hro).
        run_step runs_contains. rewrite (holds_contains _ _ _ _ Hro).
        destruct (negb _); by apply runs_ret. }
      intros ? ->.
      eapply runs_bind; [eapply (IH n'); [done|lia|lia]|].
      intros ? ->. by apply runs_ret. }
  intros html. run_step runs_contains. rewrite (holds_contains _ _ _ _ Hrs).
  eapply runs_bind with (Q := λ html', html' = _); last first.
  { intros ? ->. apply runs_ret. reflexivity. }
  destruct (py_in FILES s) eqn:Hin; [|by apply runs_ret].
  rewrite <- (holds_contains _ _ _ _ Hrs) in Hin.
  apply bool_decide_eq_true in Hin as [lf Hlf].
  run_step runs_getitem.
  eapply runs_bind;
    [eapply runs_sort_refines; by eapply (holds_getitem_files _ _ _ _ Hrs)|].
  intros ? ->.
  apply runs_for_each_foldl. intros acc file _.
  eapply runs_bind with
    (Q := λ file_class, file_class =
            if incl then
              if bool_decide (file ∉ get_files (if py_eq s s1 then s2 else s1))
              then " class=" +:+ Py.dquote +:+ "file-unique" +:+ Py.dquote
              else ""
            else "").
  { destruct incl; [|by apply runs_ret].
    eapply runs_bind; [apply Heq|]. intros ? ->.
    destruct (holds_pos _ _ _ _ (Hother (py_eq s s1))) as [d' Hd'].
    pose proof (Hother (py_eq s s1)) as Ho. rewrite Hd' in Ho.
    destruct (holds_read _ _ _ _ Ho) as (dd & Hdd & Hro).
    run_step runs_get.
    eapply runs_bind;
      [eapply runs_list_contains; by eapply (holds_files _ _ _ _ Hro)|].
    intros ? ->. rewrite negb_bool_decide_elem.
    destruct (bool_decide _); by apply runs_ret. }
  intros ? ->. by apply runs_ret.
Qed.

Lemma store_html_document fuel data s1 s2 :
  Store.holds h fuel (Store.structure_at (Store.left data)) s1 = true →
  Store.holds h fuel (Store.structure_at (Store.right data)) s2 = true →
  Store.runs (Store.html_document store_sort_files fuel data) h
    (λ document,
       document = html_document sort_files_by_type (Store.plain_data data s1 s2)).
Proof.
  intros H1 H2. unfold Store.html_document.
  eapply runs_bind; [by eapply (store_build_html_tree fuel data fuel fuel)|].
  intros ? ->.
  eapply runs_bind; [by eapply (store_build_html_tree fuel data fuel fuel)|].
  intros ? ->. by apply runs_ret.
Qed.

(** Both exports on the store write the documents of the functions on
    values, and leave the store as it was. *)
Lemma store_export_comparison_to_txt fuel n data s1 s2 output_path fs :
  Store.holds h n (Store.structure_at (Store.left data)) s1 = true →
  Store.holds h n (Store.structure_at (Store.right data)) s2 = true →
  (n ≤ fuel)%nat →
  Store.export_comparison_to_txt store_sort_files fuel data output_path h fs
  = Some (h, export_comparison_to_txt sort_files_by_type
               (Store.plain_data data s1 s2) output_path fs).
Proof.
  intros H1 H2 Hle.
  destruct (store_txt_document fuel n data s1 s2 H1 H2 Hle) as (doc & Hdoc & ->).
  unfold Store.export_comparison_to_txt. by rewrite Hdoc.
Qed.

Lemma store_export_comparison_to_html fuel data s1 s2 output_path fs :
  Store.holds h fuel (Store.structure_at (Store.left data)) s1 = true →
  Store.holds h fuel (Store.structure_at (Store.right data)) s2 = true →
  Store.export_comparison_to_html store_sort_files fuel data output_path h fs
  = Some (h, export_comparison_to_html sort_files_by_type
               (Store.plain_data data s1 s2) output_path fs).
Proof.
  intros H1 H2.
  destruct (store_html_document fuel data s1 s2 H1 H2) as (doc & Hdoc & ->).
  unfold Store.export_comparison_to_html. by rewrite Hdoc.
Qed.

End Refinement.

(** The sample store holds the two structures of scenario A, so its
    exports are those of the functions on values. *)
Lemma store_sort_refines_sample r (h : gmap Store.loc Store.obj) l :
  Store.read_list r h = Some (l, h) →
  store_sort r h = Some (sort_by_extension l, h).
Proof. intros H. unfold store_sort, Store.bind. by rewrite H. Qed.

Example sample_store_holds :
  Store.holds sample_store 3 (Store.RLoc 1%positive) scenario_left = true ∧
  Store.holds sample_store 3 (Store.RLoc 4%positive) scenario_right = true.
Proof. split; by vm_compute. Qed.

Example store_exports_scenario :
  Store.export_comparison_to_txt store_sort 3 sample_data_ref "out.txt"
    sample_store ∅
  = Some (sample_store,
          export_comparison_to_txt sort_by_extension scenario_data "out.txt" ∅) ∧
  Store.export_comparison_to_html store_sort 3 sample_data_ref "out.html"
    sample_store ∅
  = Some (sample_store,
          export_comparison_to_html sort_by_extension scenario_data "out.html" ∅).
Proof.
  destruct sample_store_holds as [H1 H2]. split.
  - apply (store_export_comparison_to_txt sort_by_extension store_sort
             store_sort_refines_sample sample_store 3 3 sample_data_ref
             scenario_left scenario_right "out.txt" ∅ H1 H2). lia.
  - apply (store_export_comparison_to_html sort_by_extension store_sort
             store_sort_refines_sample sample_store 3 sample_data_ref
             scenario_left scenario_right "out.html" ∅ H1 H2).
Qed.

(** * Further properties *)

(** ** The diff tree: what a call adds, and where *)

Lemma present_snoc s p d k n :
  present s (p ++ [d]) k n = true → present s p Folder d = true.
Proof.
  revert s. induction p as [|e p IH]; intros s.
  - change (present (get_dir s d) [] k n = true → has_dir s d = true).
    destruct (has_dir s d) eqn:Hd; [done|].
    rewrite (has_dir_false_get _ _ Hd). by rewrite present_empty.
  - apply IH.
Qed.

Section DiffTree.

Context {str_lower : Py.Lower}.

Variable sort_files_by_type : list string → list string.

Local Abbreviation bct := (build_comparison_tree sort_files_by_type).

(** X4: [build_comparison_tree] only appends to the tree it is given: the
    label and the children already there are kept, in their order, and the
    nodes added after them do not depend on that tree. *)
Theorem build_comparison_tree_appends (s o : structure) (tree : Tree)
    (cm : gmap string string) (l : Text) :
  label (bct s o tree cm) = label tree ∧
  children (bct s o tree cm)
  = children tree ++ children (bct s o (leaf l) cm).
Proof.
  rewrite !build_comparison_tree_unfold. by cbn [label children app].
Qed.

Hypothesis sort_files_perm : ∀ l, sort_files_by_type l ≡ₚ l.

(** X1: The labels shown under any path of the diff tree are exactly the
    labels of the entries, files and folders, that exist at that path in
    one of the two structures, each with the text and style of its mark:
    nothing else is shown and no entry is left out. *)
Theorem diff_tree_labels (S1 S2 : structure) (cm : gmap string string)
    (l : Text) (p : list string) (t : Text) :
  t ∈ nodes_at (bct S1 S2 (leaf l) cm) p ↔
  ∃ k n m, classify (present S1 p k n) (present S2 p k n) = Some m ∧
           t = node_of cm k n m.
Proof. by apply nodes_at_classify. Qed.

(** X2: A structure compared with itself shows no difference: every entry it
    has is shown as common, and nothing is marked only-here or
    only-there. *)
Theorem diff_identical (S : structure) (cm : gmap string string) (l : Text)
    (p : list string) (k : kind) (n : string) (m : mark) :
  marked cm (bct S S (leaf l) cm) m p k n ↔
  m = Common ∧ present S p k n = true.
Proof.
  unfold marked. rewrite entries_at_classify by done.
  destruct (present S p k n); simpl; split; try done.
  - by intros [= <-].
  - by intros [-> _].
  - by intros [_ ?].
Qed.

(** X3: Below a folder that exists on one side only, everything carries the
    mark of the folder: under an only-here folder every entry is only-here,
    under an only-there folder every entry is only-there. *)
Theorem one_sided_subtree (S1 S2 : structure) (cm : gmap string string)
    (l : Text) (p : list string) (d : string) (k : kind) (n : string)
    (m m' : mark) :
  m ≠ Common →
  marked cm (bct S1 S2 (leaf l) cm) m p Folder d →
  marked cm (bct S1 S2 (leaf l) cm) m' (p ++ [d]) k n →
  m' = m.
Proof.
  unfold marked. rewrite !entries_at_classify by done. intros Hm Hd Hn.
  destruct (present S1 (p ++ [d]) k n) eqn:H1, (present S2 (p ++ [d]) k n) eqn:H2;
    try apply present_snoc in H1; try apply present_snoc in H2;
    rewrite ?H1, ?H2 in Hd; simpl in *.
  - by injection Hd as <-.
  - destruct (present S2 p Folder d); simpl in *; congruence.
  - destruct (present S1 p Folder d); simpl in *; congruence.
  - done.
Qed.

End DiffTree.

Section DiffTreeSamples.

#[local] Existing Instance sample_lower.


Lemma diff_tree_labels_witness :
  mkText "📁 zz" "red"
  ∈ nodes_at (build_comparison_tree sort_by_extension sample_left sample_right
                (leaf root_left) ∅) [].
Proof.
  apply (diff_tree_labels sort_by_extension sort_by_extension_perm
           sample_left sample_right ∅ root_left [] (mkText "📁 zz" "red")).
  exists Folder, "zz", OnlyThere. split; by vm_compute.
Defined.

Lemma diff_identical_witness :
  marked ∅ (build_comparison_tree sort_by_extension sample_left sample_left
              (leaf root_left) ∅) Common ["src"] File "a.py".
Proof.
  apply (diff_identical sort_by_extension sort_by_extension_perm
           sample_left ∅ root_left ["src"] File "a.py" Common).
  split; [reflexivity|by vm_compute].
Defined.

Lemma one_sided_subtree_witness :
  let t := build_comparison_tree sort_by_extension sample_left sample_right
             (leaf root_left) ∅ in
  marked ∅ t OnlyThere [] Folder "zz" ∧
  marked ∅ t OnlyThere ["zz"] Folder "in" ∧
  OnlyThere = OnlyThere.
Proof.
  assert (H1 : marked ∅ (build_comparison_tree sort_by_extension sample_left
                           sample_right (leaf root_left) ∅)
                 OnlyThere [] Folder "zz").
  { unfold marked. apply (bool_decide_unpack _). by vm_compute. }
  assert (H2 : marked ∅ (build_comparison_tree sort_by_extension sample_left
                           sample_right (leaf root_left) ∅)
                 OnlyThere ([] ++ ["zz"]) Folder "in").
  { unfold marked. apply (bool_decide_unpack _). by vm_compute. }
  split; [exact H1|]. split; [exact H2|].
  apply (one_sided_subtree sort_by_extension sort_by_extension_perm
           sample_left sample_right ∅ root_left [] "zz" Folder "in"
           OnlyThere OnlyThere); [discriminate|exact H1|exact H2].
Defined.

End DiffTreeSamples.

(** ** The comparator and the entry points *)

Section NormalForm.

Context {str_lower : Py.Lower}.

(** On a string of ASCII characters [str.lower()] is the ASCII map. *)
Hypothesis lower_ascii :
  ∀ s, Py.is_ascii s = true → Py.lower s = Py.ascii_lower s.

Lemma normalize_extension_idem ext :
  Py.is_ascii ext = true →
  normalize_extension (normalize_extension ext) = normalize_extension ext.
Proof.
  intros Ha. unfold normalize_extension at 1.
  by rewrite normalize_extension_dotted, normalize_extension_lower.
Qed.

(** X18: For ASCII extensions, normalizing the excluded extensions a second
    time changes nothing, so a caller may pass a set that is already
    normalized; and the normal form of an extension ignores its case and an
    absent leading dot. *)
Theorem normalize_extensions_idempotent (exclude_extensions : gset string)
    (ext : string) :
  (∀ e, e ∈ exclude_extensions → Py.is_ascii e = true) →
  Py.is_ascii ext = true →
  normalize_extensions (normalize_extensions exclude_extensions)
  = normalize_extensions exclude_extensions ∧
  normalize_extension (Py.lower ext) = normalize_extension ext ∧
  (Py.startswith "." ext = false →
   normalize_extension ("." +:+ ext) = normalize_extension ext).
Proof.
  intros Hset Hext. split_and!.
  - apply set_eq. intros e. unfold normalize_extensions.
    rewrite !elem_of_map. split.
    + intros (x & -> & (y & -> & Hy)%elem_of_map).
      exists y. by rewrite normalize_extension_idem by auto.
    + intros (y & -> & Hy). exists (normalize_extension y).
      rewrite normalize_extension_idem by auto. split; [done|].
      apply elem_of_map. by exists y.
  - destruct (normalize_extension_ascii lower_ascii ext Hext) as [-> _].
    rewrite (lower_ascii ext) by done.
    destruct (normalize_extension_ascii lower_ascii (Py.ascii_lower ext)
                (is_ascii_lower _ Hext)) as [-> _].
    by rewrite lower_idem, startswith_dot_lower.
  - intros H.
    destruct (normalize_extension_ascii lower_ascii ext Hext) as [-> _].
    destruct (normalize_extension_ascii lower_ascii ("." +:+ ext))
      as [-> _]; [exact Hext|].
    rewrite H. by destruct ext.
Qed.

End NormalForm.

Section NormalFormSamples.

#[local] Existing Instance sample_lower.

Lemma normalize_extensions_idempotent_witness :
  normalize_extensions (normalize_extensions {[ "PY"; ".Md" ]})
  = normalize_extensions {[ "PY"; ".Md" ]} ∧
  normalize_extension (Py.lower "PY") = normalize_extension "PY" ∧
  (Py.startswith "." "PY" = false →
   normalize_extension ("." +:+ "PY") = normalize_extension "PY").
Proof.
  apply (normalize_extensions_idempotent (λ s _, eq_refl)
           {[ "PY"; ".Md" ]} "PY").
  - intros e [->%elem_of_singleton | ->%elem_of_singleton]%elem_of_union;
      reflexivity.
  - reflexivity.
Defined.

End NormalFormSamples.

Section EntryPointFacts.

Context {str_lower : Py.Lower}.

Variable Pattern : Type.
Variable compile_regex_patterns : list string → bool → list Pattern.
Variable generate_color_for_extension : string → string.
Variable sort_files_by_type : list string → list string.

Local Abbreviation builder :=
  (filesystem → string → option (list string) → option string →
   option (gset string) → option (list Pattern) → option (list Pattern) →
   structure * gset string).

(** X17: Swapping the two roots swaps the two structures and leaves the set of
    extensions as it is; comparing a root with itself gives its structure
    twice and the extensions of the one walk. *)
Theorem compare_swap (get_directory_structure : builder)
    (fs : filesystem) (dir1 dir2 : string)
    (exclude_dirs : option (list string)) (ignore_file : option string)
    (exclude_extensions : option (gset string))
    (exclude_patterns include_patterns : option (list Pattern)) :
  let compare d d' :=
    compare_directory_structures Pattern get_directory_structure fs d d'
      exclude_dirs ignore_file exclude_extensions exclude_patterns
      include_patterns in
  let walk d :=
    get_directory_structure fs d exclude_dirs ignore_file exclude_extensions
      exclude_patterns include_patterns in
  compare dir2 dir1
  = ((compare dir1 dir2).1.2, (compare dir1 dir2).1.1, (compare dir1 dir2).2) ∧
  compare dir1 dir1 = ((walk dir1).1, (walk dir1).1, (walk dir1).2).
Proof.
  intros compare walk. subst compare walk. unfold compare_directory_structures.
  destruct (get_directory_structure fs dir1 _ _ _ _ _) as [s1 e1].
  destruct (get_directory_structure fs dir2 _ _ _ _ _) as [s2 e2].
  simpl. split; f_equal.
  - apply (comm_L (∪)).
  - apply (idemp_L (∪)).
Qed.


(** X16: What [display_comparison] prints, in order: the panel titled
    [Applied Patterns], only when exclude or include patterns were given,
    with one line for the exclude patterns and one for the include
    patterns, each naming the pattern type and the patterns; then the
    legend; then the two trees side by side, the second being the first
    with the sides swapped. The colour map holds the colour of every
    extension found by either walk and of no other. *)
Theorem display_comparison_output (get_directory_structure : builder)
    (fs : filesystem) (dir1 dir2 : string)
    (exclude_dirs : option (list string)) (ignore_file : option string)
    (exclude_extensions : option (gset string))
    (exclude_patterns include_patterns : option (list string))
    (use_regex : bool) :
  let walk dir :=
    get_directory_structure fs dir (Some (default [] exclude_dirs)) ignore_file
      (Some (normalize_extensions (default ∅ exclude_extensions)))
      (Some (compile_regex_patterns (default [] exclude_patterns) use_regex))
      (Some (compile_regex_patterns (default [] include_patterns) use_regex)) in
  let bct := build_comparison_tree sort_files_by_type in
  let root dir := leaf (mkText (ROOT_ICON +:+ Py.basename dir) "bold") in
  let legend :=
    [mkText "Legend: " "bold"; mkText "Green background " "on green";
     mkText "= Only in left directory, " ""; mkText "Red background " "on red";
     mkText "= Only in right directory" ""] in
  let pattern_type := if use_regex then "Regex" else "Glob" in
  let pattern_info :=
    match default [] exclude_patterns with
    | [] => []
    | ps => [pattern_type +:+ " exclusion patterns: " +:+ Py.join ", " ps]
    end
    ++ match default [] include_patterns with
       | [] => []
       | ps => [pattern_type +:+ " inclusion patterns: " +:+ Py.join ", " ps]
       end in
  let patterns_panel :=
    match pattern_info with
    | [] => []
    | _ => [RPanel (RString (Py.join Py.nl pattern_info))
              (Some "Applied Patterns") "blue"]
    end in
  ∃ color_map : gmap string string,
    (∀ ext, color_map !! ext
            = if decide (ext ∈ (walk dir1).2 ∪ (walk dir2).2)
              then Some (generate_color_for_extension ext) else None) ∧
    display_comparison Pattern compile_regex_patterns get_directory_structure
      generate_color_for_extension sort_files_by_type fs dir1 dir2 exclude_dirs
      ignore_file exclude_extensions exclude_patterns include_patterns use_regex
    = patterns_panel
      ++ [RPanel (RText legend) None "dim";
          RColumns
            [RPanel (RTree (bct (walk dir1).1 (walk dir2).1 (root dir1) color_map))
               (Some ("Directory 1: " +:+ Py.basename dir1)) "blue";
             RPanel (RTree (bct (walk dir2).1 (walk dir1).1 (root dir2) color_map))
               (Some ("Directory 2: " +:+ Py.basename dir2)) "green"]].
Proof.
  intros walk bct root legend pattern_type pattern_info patterns_panel.
  subst walk bct root legend pattern_type pattern_info patterns_panel.
  unfold display_comparison, compare_directory_structures.
  destruct (get_directory_structure fs dir1 _ _ _ _ _) as [s1 e1].
  destruct (get_directory_structure fs dir2 _ _ _ _ _) as [s2 e2].
  cbn [fst snd].
  exists (set_to_map (λ ext, (ext, generate_color_for_extension ext)) (e1 ∪ e2)).
  split.
  - intros ext. destruct (decide (ext ∈ e1 ∪ e2)) as [Hin|Hin].
    + apply lookup_set_to_map; [by intros y y' _ _ [= ->]|]. by exists ext.
    + apply eq_None_not_Some. intros [c Hc].
      apply lookup_set_to_map in Hc as (y & Hy & [= -> _]);
        [done|by intros y y' _ _ [= ->]].
  - rewrite <- app_assoc.
    by destruct (default [] exclude_patterns), (default [] include_patterns).
Qed.

End EntryPointFacts.

(** ** The patterns section of the HTML document *)

(** X13: The block of the applied patterns is part of the HTML document only
    when exclude or include patterns were given. *)
Theorem html_pattern_section (data : comparison_data) :
  pattern_info_html data = "" ↔
  exclude_patterns (metadata data) = [] ∧ include_patterns (metadata data) = [].
Proof.
  unfold pattern_info_html.
  destruct (exclude_patterns (metadata data)) as [|e es],
           (include_patterns (metadata data)) as [|i is'];
    cbn [bool_decide negb orb]; split; try done; try by intros [? ?].
Qed.

(** ** The text tree *)

Lemma fmap_concat {A B} (f : A → B) (ls : list (list A)) :
  f <$> concat ls = concat ((λ l : list A, f <$> l) <$> ls).
Proof.
  induction ls as [|l ls IH]; [done|]. cbn [concat]. by rewrite fmap_app, IH.
Qed.

Lemma append_assoc (a b c : string) : (a +:+ b) +:+ c = a +:+ (b +:+ c).
Proof.
  induction a as [|x a IH]; [done|].
  change (String x ((a +:+ b) +:+ c) = String x (a +:+ (b +:+ c))).
  by rewrite IH.
Qed.

Lemma elem_of_concat {A} (x : A) (ls : list (list A)) :
  x ∈ concat ls ↔ ∃ l, l ∈ ls ∧ x ∈ l.
Proof.
  induction ls as [|l ls IH]; cbn [concat].
  - split; [by intros ?%elem_of_nil|]. by intros (l & ?%elem_of_nil & _).
  - rewrite elem_of_app, IH. split.
    + intros [H | (l' & Hl' & H)]; [exists l; split; [left|done]|].
      exists l'. split; [by right|done].
    + intros (l' & [-> | Hl']%elem_of_cons & H); [by left|].
      right. by exists l'.
Qed.

Lemma enumerate_elem {A} (l : list A) x : x ∈ l → ∃ i, (i, x) ∈ enumerate l.
Proof.
  intros Hx. rewrite <- (enumerate_snd l) in Hx.
  apply list_elem_of_fmap in Hx as ([i y] & -> & Hin). by exists i.
Qed.

Lemma is_indent_bar d s : is_indent (S d) ("│   " +:+ s) = is_indent d s.
Proof. cbn [is_indent]. by rewrite strip_prefix_app. Qed.

Lemma is_indent_blank d s : is_indent (S d) ("    " +:+ s) = is_indent d s.
Proof. cbn [is_indent]. by rewrite strip_prefix_app. Qed.

Section TxtTree.

Context {str_lower : Py.Lower}.

Variable sort_files_by_type : list string → list string.

Local Abbreviation txt := (build_txt_tree sort_files_by_type).

Lemma build_txt_tree_prefix s prefix b b' :
  txt s prefix b = (λ line, prefix +:+ line) <$> txt s "" b'.
Proof.
  remember (height s) as k eqn:Hk.
  revert s prefix b b' Hk. induction k as [k IH] using lt_wf_ind.
  intros s prefix b b' Hk.
  rewrite !build_txt_tree_unfold, fmap_app, fmap_concat. f_equal.
  - f_equal. rewrite <- list_fmap_compose. apply list_fmap_ext.
    intros j [i [name content]] Hin%list_elem_of_lookup_2.
    apply elem_of_enumerate, elem_of_sorted_items in Hin.
    unfold dir_lines. cbn [compose].
    destruct (bool_decide (name = FILES)) eqn:Hname; [done|].
    apply bool_decide_eq_false in Hname.
    apply py_get_dir_dict in Hin as (c & -> & Hc); [|done].
    apply height_child in Hc. rewrite fmap_app. cbn [fmap list_fmap String.append].
    f_equal.
    rewrite (IH (height c) ltac:(lia) c (prefix +:+ _) _ true eq_refl).
    rewrite (IH (height c) ltac:(lia) c (String.append "" _) _ true eq_refl).
    rewrite <- list_fmap_compose. apply list_fmap_ext. intros ? line _.
    cbn [compose String.append]. apply append_assoc.
  - unfold file_lines. destruct (py_in FILES s); [|done].
    rewrite <- list_fmap_compose. by apply list_fmap_ext.
Qed.

(** X7: The prefix is put before every line and changes nothing else, and the
    flag [is_last] has no effect: the tree drawn with a prefix is the tree
    drawn without one, each line behind the prefix. *)
Theorem txt_tree_prefix (s : structure) (prefix : string) (b b' : bool) :
  txt s prefix b = (λ line, prefix +:+ line) <$> txt s "" b'.
Proof. apply build_txt_tree_prefix. Qed.

Hypothesis sort_files_perm : ∀ l, sort_files_by_type l ≡ₚ l.

Lemma txt_line_entry s prefix b line :
  line ∈ txt s prefix b →
  ∃ p k n indent connector,
    present s p k n = true ∧ is_indent (length p) indent = true ∧
    (connector = "├── " ∨ connector = "└── ") ∧
    line = prefix +:+ indent +:+ connector +:+ icon k +:+ n.
Proof.
  remember (height s) as h eqn:Hh.
  revert s prefix b line Hh. induction h as [h IH] using lt_wf_ind.
  intros s prefix b line Hh.
  rewrite build_txt_tree_unfold, elem_of_app, elem_of_concat.
  intros [(lines & Hlines & Hline) | Hline].
  - apply list_elem_of_fmap in Hlines as ([i [name content]] & -> & Hin).
    apply elem_of_enumerate, elem_of_sorted_items in Hin.
    unfold dir_lines in Hline.
    destruct (bool_decide (name = FILES)) eqn:Hname;
      [by apply elem_of_nil in Hline|].
    apply bool_decide_eq_false in Hname.
    pose proof Hin as Hget.
    apply py_get_dir_dict in Hin as (c & -> & Hc); [|done].
    assert (Hdir : has_dir s name = true) by (unfold has_dir; by rewrite Hget).
    assert (Hgd : get_dir s name = c) by (unfold get_dir; by rewrite Hget).
    apply height_child in Hc.
    apply elem_of_app in Hline as [Hline%list_elem_of_singleton | Hline].
    + exists [], Folder, name, "".
      destruct (_ || _); [exists "└── " | exists "├── "];
        (split_and!; [done|done|auto|by subst line]).
    + eapply (IH (height c)) in Hline as (p & k & n & indent & conn & Hp & Hi & Hc' & ->);
        [|lia|done].
      exists (name :: p), k, n.
      destruct (_ || _);
        [exists ("    " +:+ indent) | exists ("│   " +:+ indent)];
        exists conn; cbn [present length]; rewrite Hgd;
        rewrite ?is_indent_bar, ?is_indent_blank;
        (split_and!; [done|done|done|by rewrite !append_assoc]).
  - unfold file_lines in Hline. destruct (py_in FILES s) eqn:Hf;
      [|by apply elem_of_nil in Hline].
    apply list_elem_of_fmap in Hline as ([i file] & -> & Hin).
    apply elem_of_enumerate in Hin. rewrite sort_files_perm in Hin.
    exists [], File, file, "". cbn [fst snd].
    destruct (_ =? _); [exists "└── " | exists "├── "];
      (split_and!; [by apply bool_decide_eq_true_2|done|auto|done]).
Qed.

Lemma txt_entry_line s prefix b p k n :
  present s p k n = true →
  ∃ indent connector,
    is_indent (length p) indent = true ∧
    (connector = "├── " ∨ connector = "└── ") ∧
    prefix +:+ indent +:+ connector +:+ icon k +:+ n ∈ txt s prefix b.
Proof.
  revert s prefix b. induction p as [|d p IH]; intros s prefix b Hp.
  - rewrite build_txt_tree_unfold. destruct k; cbn [present] in Hp.
    + apply bool_decide_eq_true in Hp.
      assert (Hf : py_in FILES s = true).
      { destruct (py_in FILES s) eqn:H; [done|].
        rewrite (get_files_nil _ H) in Hp. by apply elem_of_nil in Hp. }
      rewrite <- (sort_files_perm (get_files s)) in Hp.
      apply enumerate_elem in Hp as [i Hi].
      exists "".
      exists (if i =? llen (sort_files_by_type (get_files s)) - 1
              then "└── " else "├── ").
      split_and!; [done|destruct (_ =? _); auto|].
      apply elem_of_app. right. unfold file_lines. rewrite Hf.
      apply list_elem_of_fmap. exists (i, n). split; [|done].
      cbn [fst snd]. by destruct (_ =? _).
    + pose proof (has_dir_get _ _ Hp) as Hget.
      assert (Hne : n ≠ FILES).
      { intros ->. by rewrite has_dir_not_FILES in Hp. }
      apply elem_of_sorted_items, enumerate_elem in Hget as [i Hi].
      exists "".
      exists (if (i =? llen (sorted_items s) - 1)
                 || ((i =? llen (sorted_items s) - 2) && py_in FILES s)
              then "└── " else "├── ").
      split_and!; [done|destruct (_ || _); auto|].
      apply elem_of_app. left. apply elem_of_concat.
      eexists. split; [apply list_elem_of_fmap; eexists; split; [|exact Hi]; done|].
      unfold dir_lines. rewrite bool_decide_eq_false_2 by done.
      apply elem_of_app. left. apply list_elem_of_singleton.
      by destruct (_ || _).
  - cbn [present] in Hp.
    assert (Hdir : has_dir s d = true).
    { destruct (has_dir s d) eqn:H; [done|].
      rewrite (has_dir_false_get _ _ H), present_empty in Hp. done. }
    pose proof (has_dir_get _ _ Hdir) as Hget.
    assert (Hne : d ≠ FILES).
    { intros ->. by rewrite has_dir_not_FILES in Hdir. }
    apply elem_of_sorted_items, enumerate_elem in Hget as [i Hi].
    set (last := (i =? llen (sorted_items s) - 1)
                 || ((i =? llen (sorted_items s) - 2) && py_in FILES s)).
    destruct (IH (get_dir s d)
                (prefix +:+ (if last then "    " else "│   ")) last Hp)
      as (indent & conn & Hind & Hconn & Hline).
    exists ((if last then "    " else "│   ") +:+ indent), conn.
    split_and!; [|done|].
    { cbn [length]. destruct last;
        by rewrite ?is_indent_bar, ?is_indent_blank. }
    rewrite build_txt_tree_unfold. apply elem_of_app. left.
    apply elem_of_concat.
    eexists. split; [apply list_elem_of_fmap; eexists; split; [|exact Hi]; done|].
    unfold dir_lines. rewrite bool_decide_eq_false_2 by done.
    apply elem_of_app. right. fold last. clearbody last.
    destruct last; rewrite !append_assoc in Hline |- *; exact Hline.
Qed.

(** X6: The lines of the text tree are the entries of the structure: every
    line is an indentation of four characters per level, a connector, the
    glyph of a file or folder and the name of an entry that exists at that
    depth, and every entry of the structure has such a line. *)
Theorem txt_tree_lines (s : structure) (b : bool) :
  (∀ line, line ∈ txt s "" b →
     ∃ p k n indent connector,
       present s p k n = true ∧ is_indent (length p) indent = true ∧
       (connector = "├── " ∨ connector = "└── ") ∧
       line = indent +:+ connector +:+ icon k +:+ n) ∧
  (∀ p k n, present s p k n = true →
     ∃ indent connector,
       is_indent (length p) indent = true ∧
       (connector = "├── " ∨ connector = "└── ") ∧
       indent +:+ connector +:+ icon k +:+ n ∈ txt s "" b).
Proof.
  split.
  - intros line Hline. by apply txt_line_entry in Hline.
  - intros p k n Hp. by apply (txt_entry_line s "" b) in Hp.
Qed.

End TxtTree.

Lemma txt_tree_lines_witness :
  (∀ line, line ∈ build_txt_tree sort_by_extension sample_left "" true →
     ∃ p k n indent connector,
       present sample_left p k n = true ∧
       is_indent (length p) indent = true ∧
       (connector = "├── " ∨ connector = "└── ") ∧
       line = indent +:+ connector +:+ icon k +:+ n) ∧
  (∀ p k n, present sample_left p k n = true →
     ∃ indent connector,
       is_indent (length p) indent = true ∧
       (connector = "├── " ∨ connector = "└── ") ∧
       indent +:+ connector +:+ icon k +:+ n
       ∈ build_txt_tree sort_by_extension sample_left "" true).
Proof.
  exact (txt_tree_lines sort_by_extension sort_by_extension_perm
           sample_left true).
Defined.

(** ** The connectors of the folder lines *)

Lemma enumerate_lookup {A} (l : list A) k x :
  l !! k = Some x → (Z.of_nat k, x) ∈ enumerate l.
Proof.
  intros Hk. unfold enumerate. apply (list_elem_of_lookup_2 _ k).
  rewrite lookup_zip_with, list_lookup_fmap, lookup_seq_lt, Hk; [done|].
  by apply lookup_lt_Some in Hk.
Qed.

Lemma sorted_keys_after (l1 l2 : list string) x y :
  Sorted str_le (l1 ++ x :: l2) → NoDup (l1 ++ x :: l2) → y ∈ l2 →
  str_le x y ∧ y ≠ x.
Proof.
  intros Hs Hn Hy. apply (Sorted_StronglySorted _) in Hs.
  apply StronglySorted_app_1_r in Hs. apply StronglySorted_cons in Hs as [Hs _].
  rewrite Forall_forall in Hs. split; [by apply Hs|].
  intros ->. apply NoDup_app in Hn as (_ & _ & Hn).
  by apply NoDup_cons in Hn as [Hn _].
Qed.

Lemma sorted_keys_before (l1 l2 : list string) x y :
  Sorted str_le (l1 ++ x :: l2) → y ∈ l1 → str_le y x.
Proof.
  intros Hs Hy. apply (Sorted_StronglySorted _) in Hs.
  eapply StronglySorted_app_1_elem_of; [done|done|left].
Qed.

Section Connectors.

Context {str_lower : Py.Lower}.

Variable sort_files_by_type : list string → list string.

Local Abbreviation txt := (build_txt_tree sort_files_by_type).

(** The line of a subdirectory: its connector depends on how many keys
    follow it in the sorted items. *)
Lemma dir_line_connector s prefix b name l1 l2 :
  (sorted_items s).*1 = l1 ++ name :: l2 → has_dir s name = true →
  prefix
  +:+ (if bool_decide (l2 = [])
          || (bool_decide (length l2 = 1%nat) && py_in FILES s)
       then "└── 📁 " else "├── 📁 ")
  +:+ name ∈ txt s prefix b.
Proof.
  intros Hks Hdir.
  assert (Hne : name ≠ FILES).
  { intros ->. by rewrite has_dir_not_FILES in Hdir. }
  assert (Hk : (sorted_items s).*1 !! length l1 = Some name).
  { rewrite Hks. by rewrite list_lookup_middle. }
  rewrite list_lookup_fmap in Hk.
  destruct (sorted_items s !! length l1) as [[name' v]|] eqn:Hitem; [|done].
  cbn [fmap option_fmap option_map fst] in Hk. injection Hk as Hk. subst name'.
  pose proof (list_elem_of_lookup_2 _ _ _ Hitem) as Hin.
  apply elem_of_sorted_items in Hin.
  apply py_get_dir_dict in Hin as (c & -> & Hc); [|done].
  apply enumerate_lookup in Hitem.
  rewrite build_txt_tree_unfold. apply elem_of_app. left.
  apply elem_of_concat.
  eexists. split; [apply list_elem_of_fmap; eexists; split; [|exact Hitem]; done|].
  unfold dir_lines. rewrite (bool_decide_eq_false_2 (name = FILES)) by done.
  apply elem_of_app. left. apply list_elem_of_singleton.
  assert (Hlen : llen (sorted_items s)
                 = Z.of_nat (length l1) + 1 + Z.of_nat (length l2)).
  { unfold llen. rewrite <- (length_fmap fst), Hks, length_app. cbn [length]. lia. }
  rewrite Hlen.
  assert (H1 : (Z.of_nat (length l1)
                =? Z.of_nat (length l1) + 1 + Z.of_nat (length l2) - 1)
               = bool_decide (l2 = [])).
  { destruct l2; cbn [length].
    - rewrite bool_decide_eq_true_2 by done. apply Z.eqb_eq. lia.
    - rewrite bool_decide_eq_false_2 by done. apply Z.eqb_neq. lia. }
  assert (H2 : (Z.of_nat (length l1)
                =? Z.of_nat (length l1) + 1 + Z.of_nat (length l2) - 2)
               = bool_decide (length l2 = 1%nat)).
  { destruct (decide (length l2 = 1%nat)) as [Hl|Hl].
    - rewrite bool_decide_eq_true_2 by done. apply Z.eqb_eq. lia.
    - rewrite bool_decide_eq_false_2 by done. apply Z.eqb_neq. lia. }
  rewrite H1, H2. by destruct (_ || _).
Qed.

Lemma last_folder_line s prefix is_last b :
  has_dir s b = true →
  (∀ k, has_dir s k = true → str_le k b) →
  prefix +:+ "└── 📁 " +:+ b ∈ txt s prefix is_last.
Proof.
  intros Hb Hmax.
  assert (Hne : b ≠ FILES).
  { intros ->. by rewrite has_dir_not_FILES in Hb. }
  assert (Hin : b ∈ (sorted_items s).*1).
  { apply list_elem_of_fmap. exists (b, VDict (get_dir s b)). split; [done|].
    by apply elem_of_sorted_items, has_dir_get. }
  apply list_elem_of_split in Hin as (l1 & l2 & Hks).
  pose proof (dir_line_connector s prefix is_last b l1 l2 Hks Hb) as Hline.
  pose proof (sorted_item_keys _ (sorted_items_sorted s)) as Hs.
  pose proof (NoDup_sorted_items_keys s) as Hn.
  rewrite Hks in Hs, Hn.
  (* what follows the last subdirectory can only be the key of the files *)
  assert (Hl2 : ∀ y, y ∈ l2 → y = FILES).
  { intros y Hy. destruct (sorted_keys_after _ _ _ _ Hs Hn Hy) as [Hle Hyb].
    destruct (decide (y = FILES)) as [|Hyf]; [done|]. exfalso. apply Hyb.
    assert (Hy' : y ∈ (sorted_items s).*1).
    { rewrite Hks. apply elem_of_app. right. by right. }
    apply list_elem_of_fmap in Hy' as ([y' v] & -> & Hv).
    apply elem_of_sorted_items in Hv. cbn [fst] in *.
    apply py_get_dir_dict in Hv as (c & -> & Hc); [|done].
    apply (anti_symm str_le); [apply Hmax|done].
    apply has_dir_spec. split; [done|by eexists]. }
  destruct l2 as [|y [|z l2]].
  - exact Hline.
  - cbn [bool_decide length] in Hline.
    rewrite bool_decide_eq_false_2, bool_decide_eq_true_2 in Hline by done.
    assert (Hf : py_in FILES s = true).
    { apply py_in_true. rewrite (Hl2 y) in Hks by left.
      assert (Hy' : FILES ∈ (sorted_items s).*1).
      { rewrite Hks. apply elem_of_app. right. right. left. }
      apply list_elem_of_fmap in Hy' as ([y' v] & Hy' & Hv).
      apply elem_of_sorted_items in Hv. cbn [fst] in Hy'. subst y'. by eexists. }
    by rewrite Hf in Hline.
  - exfalso. apply NoDup_app in Hn as (_ & _ & Hn).
    apply NoDup_cons in Hn as [_ Hn]. apply NoDup_cons in Hn as [Hn _].
    apply Hn. rewrite (Hl2 y), (Hl2 z); [left|right; left|left].
Qed.

(** X8: The last subdirectory is always drawn with the closing connector, also
    when the lines of the files follow it. *)
Theorem txt_last_folder (s : structure) (prefix : string) (is_last : bool)
    (b : string) :
  has_dir s b = true →
  (∀ k, has_dir s k = true → str_le k b) →
  prefix +:+ "└── 📁 " +:+ b ∈ txt s prefix is_last.
Proof. apply last_folder_line. Qed.

(** X9: When the directory has files and the names of its last two
    subdirectories sort after the key [_files], both are drawn with the
    closing connector: the test for the position before the last takes the
    key of the files to be the last item. *)
Theorem txt_two_closing_connectors (s : structure) (prefix : string)
    (is_last : bool) (a b : string) :
  py_in FILES s = true →
  has_dir s a = true → has_dir s b = true → a ≠ b →
  str_le FILES a → str_le a b →
  (∀ k, has_dir s k = true → k = b ∨ str_le k a) →
  prefix +:+ "└── 📁 " +:+ a ∈ txt s prefix is_last ∧
  prefix +:+ "└── 📁 " +:+ b ∈ txt s prefix is_last.
Proof.
  intros Hf Ha Hb Hab Hfa Hle Hrest.
  assert (Hna : a ≠ FILES).
  { intros ->. by rewrite has_dir_not_FILES in Ha. }
  assert (Hkey : ∀ k, has_dir s k = true → k ∈ (sorted_items s).*1).
  { intros k Hk. apply list_elem_of_fmap. exists (k, VDict (get_dir s k)).
    split; [done|]. by apply elem_of_sorted_items, has_dir_get. }
  pose proof (Hkey b Hb) as Hbin.
  pose proof (Hkey a Ha) as Hin.
  apply list_elem_of_split in Hin as (l1 & l2 & Hks).
  pose proof (dir_line_connector s prefix is_last a l1 l2 Hks Ha) as Hline.
  pose proof (sorted_item_keys _ (sorted_items_sorted s)) as Hs.
  pose proof (NoDup_sorted_items_keys s) as Hn.
  rewrite Hks in Hs, Hn, Hbin.
  (* only [b] follows [a] *)
  assert (Hl2 : ∀ y, y ∈ l2 → y = b).
  { intros y Hy. destruct (sorted_keys_after _ _ _ _ Hs Hn Hy) as [Hay Hya].
    assert (Hy' : y ∈ (sorted_items s).*1).
    { rewrite Hks. apply elem_of_app. right. by right. }
    apply list_elem_of_fmap in Hy' as ([y' v] & -> & Hv).
    apply elem_of_sorted_items in Hv. cbn [fst] in *.
    destruct (decide (y' = FILES)) as [->|Hyf].
    { exfalso. apply Hna. by apply (anti_symm str_le). }
    apply py_get_dir_dict in Hv as (c & -> & Hc); [|done].
    destruct (Hrest y') as [|Hya']; [|done|].
    { apply has_dir_spec. split; [done|by eexists]. }
    exfalso. apply Hya. by apply (anti_symm str_le). }
  assert (Hbl2 : b ∈ l2).
  { apply elem_of_app in Hbin as [Hb1 | [->|Hb2]%elem_of_cons]; [|done|done].
    exfalso. apply Hab. apply (anti_symm str_le); [done|].
    by apply (sorted_keys_before _ _ _ _ Hs). }
  split.
  - destruct l2 as [|y [|z l2]].
    + by apply elem_of_nil in Hbl2.
    + cbn [bool_decide length] in Hline.
      rewrite bool_decide_eq_false_2, bool_decide_eq_true_2, Hf in Hline by done.
      exact Hline.
    + exfalso. apply NoDup_app in Hn as (_ & _ & Hn).
      apply NoDup_cons in Hn as [_ Hn]. apply NoDup_cons in Hn as [Hn _].
      apply Hn. rewrite (Hl2 y), (Hl2 z); [left|right; left|left].
  - apply last_folder_line; [done|]. intros k Hk.
    destruct (Hrest k Hk) as [->|Hka]; [by destruct (total str_le b b)|].
    by etrans.
Qed.

End Connectors.

Lemma sample_right_dirs k :
  has_dir sample_right k = true → k = "src" ∨ k = "zz".
Proof.
  intros [_ [c Hc]]%has_dir_spec. cbn [sample_right dirs] in Hc.
  destruct (decide (k = "src")) as [|H1]; [by left|].
  destruct (decide (k = "zz")) as [|H2]; [by right|].
  by rewrite lookup_insert_ne, lookup_singleton_ne in Hc.
Qed.

Lemma txt_last_folder_witness :
  "└── 📁 zz" ∈ build_txt_tree sort_by_extension sample_right "" true.
Proof.
  apply (txt_last_folder sort_by_extension sample_right "" true "zz").
  - by vm_compute.
  - intros k [-> | ->]%sample_right_dirs; by vm_compute.
Defined.

Lemma txt_two_closing_connectors_witness :
  "└── 📁 src" ∈ build_txt_tree sort_by_extension sample_right "" true ∧
  "└── 📁 zz" ∈ build_txt_tree sort_by_extension sample_right "" true.
Proof.
  apply (txt_two_closing_connectors sort_by_extension sample_right "" true
           "src" "zz").
  - by vm_compute.
  - by vm_compute.
  - by vm_compute.
  - discriminate.
  - by vm_compute.
  - by vm_compute.
  - intros k [-> | ->]%sample_right_dirs; [right; by vm_compute|by left].
Defined.

(** The tree of the sample: both subdirectories close the list, and the
    line of the file follows. *)
Example txt_tree_sample_right :
  build_txt_tree sort_by_extension sample_right "" true
  = ["└── 📁 src"; "    ├── 📄 a.py"; "    └── 📄 c.py";
     "└── 📁 zz"; "    └── 📁 in"; "    └── 📄 q"; "└── 📄 x.py"].
Proof. by vm_compute. Qed.

(** ** The HTML tree *)

Lemma py_eq_refl a : py_eq a a = true.
Proof.
  remember (height a) as k eqn:Hk.
  revert a Hk. induction k as [k IH] using lt_wf_ind. intros a Hk.
  rewrite py_eq_unfold, Z.eqb_refl. cbn [andb].
  apply forallb_elem. intros [key v] Hin. apply elem_of_py_items in Hin.
  unfold item_eq. cbn [fst snd]. rewrite Hin. destruct v as [l|c].
  - by apply bool_decide_eq_true_2.
  - destruct (decide (key = FILES)) as [->|Hne].
    { by apply py_get_FILES_list in Hin as [? ?]. }
    apply py_get_dir_dict in Hin as (c' & [= <-] & Hc); [|done].
    apply height_child in Hc. eapply IH; [|done]. lia.
Qed.

Lemma py_eq_items a b key v :
  py_eq a b = true → py_get a key = Some v → item_eq b (key, v) = true.
Proof.
  rewrite py_eq_unfold. intros [_ H]%andb_true_iff Hv.
  rewrite forallb_elem in H. by apply H, elem_of_py_items.
Qed.

Lemma py_eq_keys a b : py_eq a b = true → py_keys a ≡ₚ py_keys b.
Proof.
  intros Heq. apply submseteq_length_Permutation.
  - apply NoDup_submseteq; [apply NoDup_py_keys|].
    intros key [v Hv]%elem_of_py_keys. apply elem_of_py_keys.
    pose proof (py_eq_items _ _ _ _ Heq Hv) as Hi. unfold item_eq in Hi.
    cbn [fst] in Hi. destruct (py_get b key); [by eexists|done].
  - rewrite py_eq_unfold in Heq. apply andb_true_iff in Heq as [Hlen _].
    apply Z.eqb_eq in Hlen. unfold llen, py_keys in *.
    rewrite !length_fmap. lia.
Qed.

Lemma py_eq_py_in a b key : py_eq a b = true → py_in key a = py_in key b.
Proof.
  intros Heq. unfold py_in. apply bool_decide_ext.
  rewrite <- !elem_of_py_keys. by rewrite (py_eq_keys _ _ Heq).
Qed.

Lemma py_eq_get_files a b : py_eq a b = true → get_files a = get_files b.
Proof.
  intros Heq. unfold get_files.
  destruct (py_get a FILES) as [v|] eqn:Ha.
  - pose proof (py_eq_items _ _ _ _ Heq Ha) as Hi. unfold item_eq in Hi.
    cbn [fst snd] in Hi.
    apply py_get_FILES_list in Ha as [la ->].
    destruct (py_get b FILES) as [[lb|cb]|]; try done.
    by apply bool_decide_eq_true in Hi as ->.
  - assert (Hb : py_in FILES b = false).
    { rewrite <- (py_eq_py_in _ _ _ Heq). by apply py_in_false. }
    apply py_in_false in Hb. by rewrite Hb.
Qed.

Lemma wf_child s k c :
  wf s = true → dirs s !! k = Some c → k ≠ FILES ∧ wf c = true.
Proof.
  destruct s as [f d]. cbn [wf dirs]. intros [Hf Hd]%andb_true_iff Hk.
  apply bool_decide_eq_true in Hf. split; [by intros ->; rewrite Hf in Hk|].
  rewrite map_fold_foldr in Hd. apply elem_of_map_to_list in Hk.
  induction (map_to_list d) as [|[k' c'] l IH]; [by apply elem_of_nil in Hk|].
  cbn [foldr uncurry] in Hd. apply andb_true_iff in Hd as [Hc' Hl].
  apply elem_of_cons in Hk as [[= -> ->] | Hk]; [done|by apply IH].
Qed.

Lemma height_bound s n :
  (∀ k c, dirs s !! k = Some c → (height c < n)%nat) → (0 < n)%nat →
  (height s ≤ n)%nat.
Proof.
  destruct s as [f d]. cbn [height dirs]. intros Hd Hn.
  assert (Hl : ∀ k c, (k, c) ∈ map_to_list d → (height c < n)%nat).
  { intros k c Hk. apply (Hd k). by apply elem_of_map_to_list. }
  rewrite map_fold_foldr. clear Hd.
  assert (foldr (uncurry (λ (_ : string) c acc, Nat.max (height c) acc)) 0%nat
            (map_to_list d) < n)%nat; [|lia].
  induction (map_to_list d) as [|[k' c'] l IH]; [done|].
  cbn [foldr uncurry]. apply Nat.max_lub_lt.
  - apply (Hl k'). left.
  - apply IH. intros k c Hk. apply (Hl k). by right.
Qed.

(** Equal structures have the same depth. *)
Lemma py_eq_height a b :
  wf b = true → py_eq a b = true → (height b ≤ height a)%nat.
Proof.
  remember (height a) as n eqn:Hn.
  revert a b Hn. induction n as [n IH] using lt_wf_ind.
  intros a b Hn Hwf Heq. apply height_bound; [|pose proof (height_pos a); lia].
  intros k cb Hcb. destruct (wf_child _ _ _ Hwf Hcb) as [Hk Hwfc].
  assert (Hb : py_get b k = Some (VDict cb)).
  { rewrite py_get_dir by done. by rewrite Hcb. }
  assert (Hin : py_in k a = true).
  { rewrite (py_eq_py_in _ _ k Heq). apply py_in_true. by eexists. }
  apply py_in_true in Hin as [v Hv].
  pose proof (py_eq_items _ _ _ _ Heq Hv) as Hi. unfold item_eq in Hi.
  cbn [fst snd] in Hi. rewrite Hb in Hi. destruct v as [la|ca]; [done|].
  apply py_get_dir_dict in Hv as (ca' & [= <-] & Hca); [|done].
  apply height_child in Hca.
  pose proof (IH (height ca) ltac:(lia) ca cb eq_refl Hwfc Hi). lia.
Qed.

Section HtmlTree.

Context {str_lower : Py.Lower}.

Variable sort_files_by_type : list string → list string.

Local Abbreviation html := (build_html_tree sort_files_by_type).

(** One call of [_build_html_tree] marks its entries against the second
    structure when its own structure equals the first, and against the
    first structure otherwise. *)
Lemma build_html_tree_level data s :
  html data s true
  = html_level sort_files_by_type data s
      (if py_eq s (structure_of (dir1 data)) then structure_of (dir2 data)
       else structure_of (dir1 data)).
Proof.
  pose proof (build_html_tree_unfold sort_files_by_type data s true) as H.
  unfold build_html_tree_body in H.
  erewrite for_each_concat in H; last first.
  { intros acc [name content] Hin. apply elem_of_sorted_items in Hin.
    instantiate (1 := λ item : string * value,
      match item.2 with
      | VDict content =>
          if bool_decide (item.1 ≠ FILES) then
            [li_directory
               (negb (py_in item.1
                        (if py_eq s (structure_of (dir1 data))
                         then structure_of (dir2 data)
                         else structure_of (dir1 data)))) item.1;
             html data content true; "</li>"]
          else []
      | VList _ => []
      end).
    cbn [fst snd].
    destruct (bool_decide (name ≠ FILES)) eqn:Hname.
    - apply bool_decide_eq_true in Hname.
      apply py_get_dir_dict in Hin as (c & -> & Hc); [|done].
      cbn [mbind option_bind]. f_equal. rewrite <- app_assoc. by f_equal.
    - apply bool_decide_eq_false, dec_stable in Hname. subst name.
      apply py_get_FILES_list in Hin as [l ->]. by rewrite app_nil_r. }
  cbn [mbind option_bind] in H. injection H as <-.
  unfold html_level. f_equal. cbn [app].
  destruct (py_in FILES s); [|done].
  rewrite (app_comm_cons _ _ "<ul>"), app_assoc. f_equal.
  etrans; [|apply (foldl_snoc (λ file,
                     li_file (bool_decide
                                (file ∉ get_files
                                   (if py_eq s (structure_of (dir1 data))
                                    then structure_of (dir2 data)
                                    else structure_of (dir1 data)))) file))].
  apply foldl_ext_in. intros acc file _. f_equal.
Qed.

(** X10: At the root of each pane the HTML export marks exactly the entries
    that the root of the other structure does not have, as the diff
    renderer does. *)
Theorem html_root_level (data : comparison_data) :
  let s1 := structure_of (dir1 data) in
  let s2 := structure_of (dir2 data) in
  html data s1 true = html_level sort_files_by_type data s1 s2 ∧
  html data s2 true = html_level sort_files_by_type data s2 s1.
Proof.
  intros s1 s2. subst s1 s2. rewrite !build_html_tree_level. split.
  - by rewrite py_eq_refl.
  - destruct (py_eq _ _) eqn:Heq; [|done].
    unfold html_level. f_equal. f_equal. f_equal; [|f_equal].
    + f_equal. apply list_fmap_ext. intros i [name v] _. cbn [fst snd].
      by rewrite (py_eq_py_in _ _ name Heq).
    + destruct (py_in FILES _); [|done]. apply list_fmap_ext.
      intros i file _. by rewrite (py_eq_get_files _ _ Heq).
Qed.

(** X11: Below the root, the left pane never consults the right structure: the
    list under a subdirectory of the first structure is the same whatever
    the second structure is. Its entries are marked against the root of the
    first structure itself. *)
Theorem html_nested_ignores_other (data data' : comparison_data) (d : string) :
  structure_of (dir1 data') = structure_of (dir1 data) →
  wf (structure_of (dir1 data)) = true →
  has_dir (structure_of (dir1 data)) d = true →
  html data (get_dir (structure_of (dir1 data)) d) true
  = html data' (get_dir (structure_of (dir1 data)) d) true ∧
  html data (get_dir (structure_of (dir1 data)) d) true
  = html_level sort_files_by_type data (get_dir (structure_of (dir1 data)) d)
      (structure_of (dir1 data)).
Proof.
  intros Hsame Hwf Hd. set (s1 := structure_of (dir1 data)) in *.
  assert (Hne : ∀ c, (height c < height s1)%nat → py_eq c s1 = false).
  { intros c Hc. destruct (py_eq c s1) eqn:Heq; [|done].
    apply py_eq_height in Heq; [lia|done]. }
  assert (Hc : (height (get_dir s1 d) < height s1)%nat).
  { apply has_dir_get in Hd. destruct (decide (d = FILES)) as [->|Hdf].
    - by apply py_get_FILES_list in Hd as [? ?].
    - apply py_get_dir_dict in Hd as (c & [= <-] & Hc); [|done].
      by apply height_child in Hc. }
  split; [|by rewrite build_html_tree_level; fold s1; rewrite Hne].
  generalize dependent (get_dir s1 d). intros c.
  remember (height c) as n eqn:Hn.
  revert c Hn. induction n as [n IH] using lt_wf_ind. intros c Hn Hc.
  subst n.
  rewrite !build_html_tree_level, Hsame. fold s1. rewrite (Hne c Hc).
  unfold html_level. f_equal. f_equal. f_equal. f_equal.
  apply list_fmap_ext. intros i [name v] Hin%list_elem_of_lookup_2.
  apply elem_of_sorted_items in Hin. cbn [fst snd].
  destruct v as [l|c']; [done|].
  destruct (bool_decide (name ≠ FILES)) eqn:Hname; [|done].
  apply bool_decide_eq_true in Hname.
  apply py_get_dir_dict in Hin as (c'' & [= <-] & Hc'); [|done].
  apply height_child in Hc'. f_equal. f_equal.
  eapply IH; [|done|]; lia.
Qed.

(** X12: Without [include_differences] the tree of a structure does not depend
    on the comparison: no entry is tested against another structure. *)
Theorem html_without_differences (data data' : comparison_data)
    (s : structure) :
  html data s false = html data' s false.
Proof.
  remember (height s) as n eqn:Hn.
  revert s Hn. induction n as [n IH] using lt_wf_ind. intros s Hn.
  pose proof (build_html_tree_unfold sort_files_by_type data s false) as H1.
  pose proof (build_html_tree_unfold sort_files_by_type data' s false) as H2.
  assert (Some (html data s false) = Some (html data' s false)) as [= ->];
    [|done].
  rewrite <- H1, <- H2. unfold build_html_tree_body. f_equal.
  apply for_each_ext. intros acc [name content] Hin.
  apply elem_of_sorted_items in Hin.
  destruct (bool_decide (name ≠ FILES)) eqn:Hname; [|done].
  apply bool_decide_eq_true in Hname.
  apply py_get_dir_dict in Hin as (c & -> & Hc); [|done].
  apply height_child in Hc. cbn [mbind option_bind].
  by rewrite (IH (height c) ltac:(lia) c eq_refl).
Qed.

End HtmlTree.

Lemma html_nested_ignores_other_witness :
  let data' :=
    mkComparisonData (mkSide "/tmp/left" "left" scenario_left)
      (mkSide "/tmp/none" "none" empty_structure) (mkMetadata [] [] "glob") in
  build_html_tree sort_by_extension scenario_data
    (get_dir (structure_of (dir1 scenario_data)) "src") true
  = build_html_tree sort_by_extension data'
      (get_dir (structure_of (dir1 scenario_data)) "src") true ∧
  build_html_tree sort_by_extension scenario_data
    (get_dir (structure_of (dir1 scenario_data)) "src") true
  = html_level sort_by_extension scenario_data
      (get_dir (structure_of (dir1 scenario_data)) "src")
      (structure_of (dir1 scenario_data)).
Proof.
  apply (html_nested_ignores_other sort_by_extension scenario_data
           (mkComparisonData (mkSide "/tmp/left" "left" scenario_left)
              (mkSide "/tmp/none" "none" empty_structure)
              (mkMetadata [] [] "glob")) "src").
  - reflexivity.
  - by vm_compute.
  - by vm_compute.
Defined.

(** ** The colour of a file *)

Lemma char_in_app c s t : char_in c (s +:+ t) = char_in c s || char_in c t.
Proof.
  induction s as [|a s IH]; [done|].
  change (Ascii.eqb a c || char_in c (s +:+ t)
          = Ascii.eqb a c || char_in c s || char_in c t).
  by rewrite IH, orb_assoc.
Qed.

Lemma rfind_from_none c s i : char_in c s = false → Py.rfind_from c s i = -1.
Proof.
  revert i. induction s as [|a s IH]; intros i H; [done|].
  cbn [char_in] in H. apply orb_false_iff in H as [Ha Hs].
  cbn [Py.rfind_from]. rewrite IH by done. cbn. by rewrite Ha.
Qed.

Lemma rfind_from_last c s t i :
  char_in c t = false → 0 ≤ i →
  Py.rfind_from c (s +:+ String c t) i = i + Z.of_nat (String.length s).
Proof.
  intros Ht. revert i. induction s as [|a s IH]; intros i Hi.
  - change (Py.rfind_from c (String c t) i = i + 0).
    cbn [Py.rfind_from]. rewrite rfind_from_none by done. cbn.
    rewrite Ascii.eqb_refl. lia.
  - change (Py.rfind_from c (String a (s +:+ String c t)) i
            = i + Z.of_nat (S (String.length s))).
    cbn [Py.rfind_from]. rewrite IH by lia.
    destruct (0 <=? i + 1 + Z.of_nat (String.length s)) eqn:H; [lia|].
    apply Z.leb_gt in H. lia.
Qed.

Lemma rfind_from_ge c s i : 0 ≤ i → -1 ≤ Py.rfind_from c s i.
Proof.
  revert i. induction s as [|a s IH]; intros i Hi; cbn [Py.rfind_from]; [lia|].
  pose proof (IH (i + 1) ltac:(lia)).
  destruct (0 <=? _); [done|]. destruct (Ascii.eqb a c); lia.
Qed.

Lemma get_app_length pre a r :
  String.get (String.length pre) (pre +:+ String a r) = Some a.
Proof. induction pre as [|b pre IH]; [done|]. exact IH. Qed.

Lemma splitext_scan_dots pre s rest :
  Py.splitext_scan (pre +:+ s +:+ rest) (Z.of_nat (String.length pre))
    (String.length s)
  = negb (all_dots s).
Proof.
  revert pre. induction s as [|a s IH]; intros pre; [done|].
  cbn [String.length Py.splitext_scan all_dots]. unfold Py.not_dot_at.
  rewrite Nat2Z.id.
  change (pre +:+ String a s +:+ rest) with (pre +:+ String a (s +:+ rest)).
  rewrite get_app_length. destruct (Ascii.eqb a Py.dot) eqn:Ha; [|done].
  cbn [negb andb].
  replace (pre +:+ String a (s +:+ rest))
    with ((pre +:+ String a "") +:+ s +:+ rest).
  - replace (Z.of_nat (String.length pre) + 1)
      with (Z.of_nat (String.length (pre +:+ String a ""))); [apply IH|].
    clear. induction pre as [|b pre IHp]; [done|].
    change (Z.of_nat (S (String.length (pre +:+ String a "")))
            = Z.of_nat (S (String.length pre)) + 1). lia.
  - by rewrite append_assoc.
Qed.

Lemma take_drop_app s t :
  Py.take_str (String.length s) (s +:+ t) = s ∧
  Py.drop_str (String.length s) (s +:+ t) = t.
Proof.
  induction s as [|a s [IH1 IH2]]; [by destruct t|].
  change (String a (Py.take_str (String.length s) (s +:+ t)) = String a s
          ∧ Py.drop_str (String.length s) (s +:+ t) = t).
  by rewrite IH1.
Qed.

Lemma splitext_extension stem e :
  char_in Py.slash stem = false → char_in Py.slash e = false →
  char_in Py.dot e = false →
  Py.splitext (stem +:+ "." +:+ e)
  = if all_dots stem then (stem +:+ "." +:+ e, "") else (stem, "." +:+ e).
Proof.
  intros Hs He Hd. unfold Py.splitext, Py.rfind.
  rewrite (rfind_from_none Py.slash); last first.
  { rewrite char_in_app, Hs. cbn. exact He. }
  change (stem +:+ "." +:+ e) with (stem +:+ String Py.dot e).
  rewrite rfind_from_last by done.
  replace (-1 <? 0 + Z.of_nat (String.length stem)) with true
    by (symmetry; apply Z.ltb_lt; lia).
  replace (Z.to_nat (0 + Z.of_nat (String.length stem) - (-1 + 1)))
    with (String.length stem) by lia.
  replace (Z.to_nat (0 + Z.of_nat (String.length stem)))
    with (String.length stem) by lia.
  pose proof (splitext_scan_dots "" stem (String Py.dot e)) as Hscan.
  change (Py.splitext_scan (stem +:+ String Py.dot e) 0 (String.length stem)
          = negb (all_dots stem)) in Hscan.
  change (-1 + 1) with 0. rewrite Hscan.
  destruct (take_drop_app stem (String Py.dot e)) as [-> ->].
  by destruct (all_dots stem).
Qed.

(** X5: A file is coloured by its extension, which is what follows its
    last dot, the dot included: the colour map is asked for the extension
    put in lower case by [str.lower()], and the default colour is used when
    the map has no such key. A name without a dot, or with nothing but dots
    before its last dot as in [.bashrc], has the empty extension. *)
Theorem file_color_by_extension {str_lower : Py.Lower}
    (color_map : gmap string string) (stem e : string) :
  char_in Py.slash stem = false → char_in Py.slash e = false →
  char_in Py.dot e = false →
  file_color color_map (stem +:+ "." +:+ e)
  = default DEFAULT_COLOR
      (color_map !! Py.lower (if all_dots stem then "" else "." +:+ e)) ∧
  file_color color_map e = default DEFAULT_COLOR (color_map !! Py.lower "").
Proof.
  intros Hs He Hd. unfold file_color. split.
  - rewrite splitext_extension by done. by destruct (all_dots stem).
  - unfold Py.splitext, Py.rfind. rewrite (rfind_from_none Py.dot) by done.
    pose proof (rfind_from_ge Py.slash e 0 ltac:(lia)).
    replace (Py.rfind_from Py.slash e 0 <? -1) with false; [done|].
    symmetry. apply Z.ltb_ge. lia.
Qed.

Section FileColorSamples.

#[local] Existing Instance sample_lower.

Lemma file_color_by_extension_witness :
  file_color {[ ".gz" := "#112233" ]} ("x.tar" +:+ "." +:+ "GZ")
  = default DEFAULT_COLOR
      (({[ ".gz" := "#112233" ]} : gmap string string)
         !! Py.lower (if all_dots "x.tar" then "" else "." +:+ "GZ")) ∧
  file_color {[ ".gz" := "#112233" ]} "GZ"
  = default DEFAULT_COLOR
      (({[ ".gz" := "#112233" ]} : gmap string string) !! Py.lower "").
Proof.
  apply (file_color_by_extension {[ ".gz" := "#112233" ]} "x.tar" "GZ");
    reflexivity.
Defined.

End FileColorSamples.

(** ** Escaped names *)

Lemma escape_char_safe a :
  char_in "<" (Py.escape_char a) = false ∧
  char_in ">" (Py.escape_char a) = false ∧
  char_in (ascii_of_nat 34) (Py.escape_char a) = false ∧
  char_in (ascii_of_nat 39) (Py.escape_char a) = false.
Proof. by destruct a as [[] [] [] [] [] [] [] []]. Qed.

Lemma escape_char_plain a :
  Ascii.eqb a "&" = false → Ascii.eqb a "<" = false →
  Ascii.eqb a ">" = false → Ascii.eqb a (ascii_of_nat 34) = false →
  Ascii.eqb a (ascii_of_nat 39) = false →
  Py.escape_char a = String a "".
Proof. by destruct a as [[] [] [] [] [] [] [] []]. Qed.

Lemma escape_safe (s : string) :
  char_in "<" (Py.escape s) = false ∧
  char_in ">" (Py.escape s) = false ∧
  char_in (ascii_of_nat 34) (Py.escape s) = false ∧
  char_in (ascii_of_nat 39) (Py.escape s) = false.
Proof.
  induction s as [|a s (IH1 & IH2 & IH3 & IH4)]; [done|].
  cbn [Py.escape]. rewrite !char_in_app, IH1, IH2, IH3, IH4.
  by destruct (escape_char_safe a) as (-> & -> & -> & ->).
Qed.

Lemma count_char_app c s t :
  count_char c (s +:+ t) = (count_char c s + count_char c t)%nat.
Proof.
  induction s as [|a s IH]; [done|].
  change (((if Ascii.eqb a c then 1 else 0) + count_char c (s +:+ t))%nat
          = ((if Ascii.eqb a c then 1 else 0) + count_char c s
             + count_char c t)%nat).
  rewrite IH. lia.
Qed.

Lemma count_char_absent c s : char_in c s = false → count_char c s = 0%nat.
Proof.
  induction s as [|a s IH]; [done|]. cbn [char_in count_char].
  intros [-> Hs]%orb_false_iff. by rewrite IH.
Qed.

Lemma count_char_join c sep l :
  count_char c sep = 0%nat →
  count_char c (Py.join sep l) = sum_list_with (count_char c) l.
Proof.
  intros Hsep. unfold Py.join. induction l as [|x l IH]; [done|].
  destruct l as [|y l].
  - cbn [String.concat sum_list_with]. lia.
  - change (count_char c (x +:+ sep +:+ String.concat sep (y :: l))
            = (count_char c x + sum_list_with (count_char c) (y :: l))%nat).
    rewrite !count_char_app, Hsep, IH. lia.
Qed.

Lemma sum_list_with_concat {A} (f : A → nat) (ls : list (list A)) :
  sum_list_with f (concat ls) = sum_list_with (sum_list_with f) ls.
Proof.
  induction ls as [|l ls IH]; [done|]. cbn [concat sum_list_with].
  by rewrite sum_list_with_app, IH.
Qed.

Lemma sum_list_with_const {A} (f : A → nat) (l : list A) n :
  (∀ x, x ∈ l → f x = n) → sum_list_with f l = (n * length l)%nat.
Proof.
  induction l as [|x l IH]; intros H; cbn [sum_list_with length]; [lia|].
  rewrite (H x) by left. rewrite IH by (intros; apply H; by right). lia.
Qed.

Lemma count_li_file c u file :
  c = "<"%char ∨ c = ">"%char → count_char c (li_file u file) = 4%nat.
Proof.
  intros Hc. unfold li_file. rewrite !count_char_app.
  rewrite (count_char_absent c (Py.escape file)); last first.
  { destruct (escape_safe file) as (? & ? & _). by destruct Hc as [-> | ->]. }
  by destruct Hc as [-> | ->], u.
Qed.

Lemma count_li_directory c u name :
  c = "<"%char ∨ c = ">"%char → count_char c (li_directory u name) = 3%nat.
Proof.
  intros Hc. unfold li_directory. rewrite !count_char_app.
  rewrite (count_char_absent c (Py.escape name)); last first.
  { destruct (escape_safe name) as (? & ? & _). by destruct Hc as [-> | ->]. }
  by destruct Hc as [-> | ->], u.
Qed.

Lemma html_tags_items s :
  html_tags s
  = (2 + 4 * length (get_files s) + sum_list_with item_tags (py_items s))%nat.
Proof.
  rewrite get_files_default. destruct s as [f d]. cbn [html_tags files].
  f_equal. unfold py_items. cbn [files dirs].
  rewrite sum_list_with_app.
  assert (sum_list_with item_tags
            match f with Some l => [(FILES, VList l)] | None => [] end = 0%nat)
    as -> by (by destruct f).
  rewrite map_fold_foldr. cbn [Nat.add].
  induction (map_to_list d) as [|[k c] l IH]; [done|].
  cbn [foldr uncurry]. rewrite filter_cons. cbn [fst].
  destruct (decide (k ≠ FILES)) as [Hne|Heq].
  - rewrite bool_decide_eq_false_2 by done.
    cbn [fmap list_fmap sum_list_with]. unfold item_tags at 1. cbn [fst snd].
    rewrite bool_decide_eq_false_2 by done. rewrite IH. done.
  - apply dec_stable in Heq. rewrite bool_decide_eq_true_2 by done. done.
Qed.

Section HtmlTags.

Variable sort_files_by_type : list string → list string.
Hypothesis sort_files_perm : ∀ l, sort_files_by_type l ≡ₚ l.

Local Abbreviation html := (build_html_tree sort_files_by_type).

(** The items of one call, whatever the classes they carry. *)
Lemma build_html_tree_items data s incl :
  ∃ (u : string → bool) (v : string → bool),
    html data s incl
    = Py.join Py.nl
        (["<ul>"]
         ++ concat
              ((λ item : string * value,
                  match item.2 with
                  | VDict content =>
                      if bool_decide (item.1 ≠ FILES) then
                        [li_directory (u item.1) item.1;
                         html data content incl; "</li>"]
                      else []
                  | VList _ => []
                  end) <$> sorted_items s)
         ++ (if py_in FILES s then
               (λ file, li_file (v file) file)
                 <$> sort_files_by_type (get_files s)
             else [])
         ++ ["</ul>"]).
Proof.
  set (other := if py_eq s (structure_of (dir1 data))
                then structure_of (dir2 data) else structure_of (dir1 data)).
  exists (λ name, incl && negb (py_in name other)),
         (λ file, incl && bool_decide (file ∉ get_files other)).
  pose proof (build_html_tree_unfold sort_files_by_type data s incl) as H.
  unfold build_html_tree_body in H. fold other in H.
  erewrite for_each_concat in H; last first.
  { intros acc [name content] Hin. apply elem_of_sorted_items in Hin.
    instantiate (1 := λ item : string * value,
      match item.2 with
      | VDict content =>
          if bool_decide (item.1 ≠ FILES) then
            [li_directory (incl && negb (py_in item.1 other)) item.1;
             html data content incl; "</li>"]
          else []
      | VList _ => []
      end).
    cbn [fst snd].
    destruct (bool_decide (name ≠ FILES)) eqn:Hname.
    - apply bool_decide_eq_true in Hname.
      apply py_get_dir_dict in Hin as (c & -> & Hc); [|done].
      cbn [mbind option_bind]. f_equal. rewrite <- app_assoc. f_equal.
      unfold li_directory. cbn [app]. by destruct incl, (negb _).
    - apply bool_decide_eq_false, dec_stable in Hname. subst name.
      apply py_get_FILES_list in Hin as [l ->]. by rewrite app_nil_r. }
  cbn [mbind option_bind] in H. injection H as <-.
  f_equal. cbn [app].
  destruct (py_in FILES s); [|done].
  rewrite (app_comm_cons _ _ "<ul>"), app_assoc. f_equal.
  etrans; [|apply (foldl_snoc (λ file,
                     li_file (incl && bool_decide (file ∉ get_files other))
                       file))].
  apply foldl_ext_in. intros acc file _. f_equal. unfold li_file.
  by destruct incl, (bool_decide _).
Qed.

Lemma html_tree_count c data s incl :
  c = "<"%char ∨ c = ">"%char →
  count_char c (html data s incl) = html_tags s.
Proof.
  intros Hc. remember (height s) as k eqn:Hk.
  revert s Hk. induction k as [k IH] using lt_wf_ind. intros s Hk.
  destruct (build_html_tree_items data s incl) as (u & v & ->).
  rewrite count_char_join by (by destruct Hc as [-> | ->]).
  rewrite !sum_list_with_app, sum_list_with_concat, sum_list_with_fmap.
  rewrite html_tags_items.
  rewrite <- (sum_list_with_Permutation_proper item_tags _ _
                (merge_sort_Permutation item_le (py_items s))).
  fold (sorted_items s).
  assert (Hul : count_char c "<ul>" = 1%nat ∧ count_char c "</ul>" = 1%nat)
    by (by destruct Hc as [-> | ->]).
  destruct Hul as [Hul1 Hul2]. cbn [sum_list_with]. rewrite Hul1, Hul2.
  assert (Hfiles :
    sum_list_with (count_char c)
      (if py_in FILES s
       then (λ file, li_file (v file) file) <$> sort_files_by_type (get_files s)
       else [])
    = (4 * length (get_files s))%nat).
  { destruct (py_in FILES s) eqn:Hf.
    - rewrite sum_list_with_fmap.
      rewrite (sum_list_with_const _ _ 4%nat)
        by (intros; by apply count_li_file).
      by rewrite sort_files_perm.
    - by rewrite (get_files_nil _ Hf). }
  rewrite Hfiles.
  assert (Hdirs :
    sum_list_with
      (sum_list_with (count_char c)
       ∘ (λ item : string * value,
            match item.2 with
            | VDict content =>
                if bool_decide (item.1 ≠ FILES) then
                  [li_directory (u item.1) item.1;
                   html data content incl; "</li>"]
                else []
            | VList _ => []
            end)) (sorted_items s)
    = sum_list_with item_tags (sorted_items s)).
  { apply sum_list_with_ext_in. intros [name content] Hin.
    apply elem_of_sorted_items in Hin. unfold item_tags. cbn [compose fst snd].
    destruct (decide (name = FILES)) as [->|Hname].
    - apply py_get_FILES_list in Hin as [l ->]. done.
    - apply py_get_dir_dict in Hin as (c' & -> & Hc'); [|done].
      apply height_child in Hc'.
      rewrite bool_decide_eq_true_2, bool_decide_eq_false_2 by done.
      cbn [sum_list_with]. rewrite count_li_directory by done.
      rewrite (IH (height c') ltac:(lia) c' eq_refl).
      assert (count_char c "</li>" = 1%nat) as -> by (by destruct Hc as [-> | ->]).
      lia. }
  rewrite Hdirs. lia.
Qed.

(** X14: Names cannot add markup to the HTML tree: every name is written
    through [html.escape], so the tree of a structure holds exactly the
    angle brackets of its own tags, as many as the structure has files and
    folders to show, whatever the names are and whether differences are
    marked or not. *)
Theorem html_tree_tags (data : comparison_data) (s : structure)
    (include_differences : bool) :
  count_char "<" (html data s include_differences) = html_tags s ∧
  count_char ">" (html data s include_differences) = html_tags s.
Proof. split; apply html_tree_count; auto. Qed.

End HtmlTags.

Lemma html_tree_tags_witness :
  let s := Structure (Some ["a<b>.py"]) {[ "<i>" := empty_structure ]} in
  count_char "<" (build_html_tree sort_by_extension scenario_data s true)
  = html_tags s ∧
  count_char ">" (build_html_tree sort_by_extension scenario_data s true)
  = html_tags s.
Proof.
  exact (html_tree_tags sort_by_extension sort_by_extension_perm scenario_data
           (Structure (Some ["a<b>.py"]) {[ "<i>" := empty_structure ]}) true).
Defined.

(** ** The renderers read their arguments by value *)

Section ByValue.

Context {str_lower : Py.Lower}.

Variable sort_files_by_type : list string → list string.
Variable store_sort_files : Store.ref → Store.M (list string).
Hypothesis store_sort_refines :
  ∀ r h l, Store.read_list r h = Some (l, h) →
           store_sort_files r h = Some (sort_files_by_type l, h).

Variable h : Store.store.
Variable color_map : Store.loc.
Variable colors : gmap string string.
Hypothesis color_map_holds : h !! color_map = Some (Store.OColors colors).

(** X19: On a store whose dicts hold the structures [s1] and [s2], however the
    dicts and lists are laid out or shared, the three renderers return
    what the functions on values give for [s1] and [s2], and leave the
    store as it was. *)
Theorem renderers_by_value (n : nat) (data : Store.data_ref)
    (s1 s2 : structure) (tree : Tree) (output_path : string)
    (fs : filesystem) :
  Store.holds h n (Store.structure_at (Store.left data)) s1 = true →
  Store.holds h n (Store.structure_at (Store.right data)) s2 = true →
  Store.build_comparison_tree_rec store_sort_files (n + n)
    (Store.structure_at (Store.left data))
    (Store.structure_at (Store.right data)) tree color_map h
  = Some (build_comparison_tree sort_files_by_type s1 s2 tree colors, h) ∧
  Store.export_comparison_to_txt store_sort_files n data output_path h fs
  = Some (h, export_comparison_to_txt sort_files_by_type
               (Store.plain_data data s1 s2) output_path fs) ∧
  Store.export_comparison_to_html store_sort_files n data output_path h fs
  = Some (h, export_comparison_to_html sort_files_by_type
               (Store.plain_data data s1 s2) output_path fs).
Proof.
  intros H1 H2. split_and!.
  - destruct (store_build_comparison_tree sort_files_by_type store_sort_files
                store_sort_refines h color_map colors color_map_holds
                (n + n) n n _ _ s1 s2 tree H1 H2 ltac:(lia))
      as (t & Ht & ->). exact Ht.
  - by eapply store_export_comparison_to_txt.
  - by eapply store_export_comparison_to_html.
Qed.

End ByValue.

Section ByValueSamples.

#[local] Existing Instance sample_lower.

Lemma renderers_by_value_witness :
  Store.build_comparison_tree_rec store_sort (3 + 3)
    (Store.RLoc 1%positive) (Store.RLoc 4%positive) (leaf root_left)
    7%positive sample_store
  = Some (build_comparison_tree sort_by_extension scenario_left scenario_right
            (leaf root_left) {[ ".py" := "#3572A5" ]}, sample_store) ∧
  Store.export_comparison_to_txt store_sort 3 sample_data_ref "out.txt"
    sample_store ∅
  = Some (sample_store,
          export_comparison_to_txt sort_by_extension scenario_data "out.txt" ∅) ∧
  Store.export_comparison_to_html store_sort 3 sample_data_ref "out.html"
    sample_store ∅
  = Some (sample_store,
          export_comparison_to_html sort_by_extension scenario_data "out.html" ∅).
Proof.
  pose proof (renderers_by_value sort_by_extension store_sort
                store_sort_refines_sample sample_store 7%positive
                {[ ".py" := "#3572A5" ]} eq_refl 3 sample_data_ref
                scenario_left scenario_right (leaf root_left)) as H.
  split_and!.
  - apply (H "out.txt" ∅); by vm_compute.
  - apply (H "out.txt" ∅); by vm_compute.
  - apply (H "out.html" ∅); by vm_compute.
Defined.

End ByValueSamples.

(** ** The name shown for a root *)

Lemma drop_str_middle s a t :
  Py.drop_str (S (String.length s)) (s +:+ String a t) = t.
Proof. induction s as [|b s IH]; [by destruct t|exact IH]. Qed.

Lemma basename_split p n :
  char_in Py.slash n = false → Py.basename (p +:+ "/" +:+ n) = n.
Proof.
  intros Hn. unfold Py.basename, Py.rfind.
  change (p +:+ "/" +:+ n) with (p +:+ String Py.slash n).
  rewrite rfind_from_last by done.
  replace (Z.to_nat (0 + Z.of_nat (String.length p) + 1))
    with (S (String.length p)) by lia.
  apply drop_str_middle.
Qed.

Section RootNames.

Context {str_lower : Py.Lower}.

Variable Pattern : Type.
Variable compile_regex_patterns : list string → bool → list Pattern.
Variable generate_color_for_extension : string → string.
Variable sort_files_by_type : list string → list string.

Local Abbreviation builder :=
  (filesystem → string → option (list string) → option string →
   option (gset string) → option (list Pattern) → option (list Pattern) →
   structure * gset string).

(** X20: The name shown for a root is the last component of its path: for
    the roots [p1/n1] and [p2/n2], [display_comparison] labels the two
    trees with [n1] and [n2] and titles their panels with them. A root
    given with a trailing slash, [n1] being empty, is therefore shown
    without a name. *)
Theorem root_names (get_directory_structure : builder)
    (fs : filesystem) (p1 n1 p2 n2 : string)
    (exclude_dirs : option (list string)) (ignore_file : option string)
    (exclude_extensions : option (gset string))
    (exclude_patterns include_patterns : option (list string))
    (use_regex : bool) :
  char_in Py.slash n1 = false → char_in Py.slash n2 = false →
  let dir1 := p1 +:+ "/" +:+ n1 in
  let dir2 := p2 +:+ "/" +:+ n2 in
  ∃ console tree1 tree2,
    display_comparison Pattern compile_regex_patterns get_directory_structure
      generate_color_for_extension sort_files_by_type fs dir1 dir2
      exclude_dirs ignore_file exclude_extensions exclude_patterns
      include_patterns use_regex
    = console
      ++ [RColumns
            [RPanel (RTree tree1) (Some ("Directory 1: " +:+ n1)) "blue";
             RPanel (RTree tree2) (Some ("Directory 2: " +:+ n2)) "green"]] ∧
    label tree1 = mkText (ROOT_ICON +:+ n1) "bold" ∧
    label tree2 = mkText (ROOT_ICON +:+ n2) "bold".
Proof.
  intros H1 H2 dir1 dir2. subst dir1 dir2.
  unfold display_comparison.
  destruct (compare_directory_structures _ _ _ _ _ _ _ _ _ _) as [[s1 s2] e].
  rewrite !basename_split by done.
  eexists _, _, _. split; [reflexivity|].
  by rewrite !label_build_comparison_tree.
Qed.

End RootNames.

Section RootNamesSamples.

#[local] Existing Instance sample_lower.

Lemma root_names_witness :
  ∃ console tree1 tree2,
    display_comparison string sample_compile sample_walk sample_color
      sort_by_extension ∅ ("/tmp" +:+ "/" +:+ "left") ("/tmp" +:+ "/" +:+ "")
      None None None None None false
    = console
      ++ [RColumns
            [RPanel (RTree tree1) (Some ("Directory 1: " +:+ "left")) "blue";
             RPanel (RTree tree2) (Some ("Directory 2: " +:+ "")) "green"]] ∧
    label tree1 = mkText (ROOT_ICON +:+ "left") "bold" ∧
    label tree2 = mkText (ROOT_ICON +:+ "") "bold".
Proof.
  apply (root_names string sample_compile sample_color sort_by_extension
           sample_walk ∅ "/tmp" "left" "/tmp" "" None None None None
           None false); reflexivity.
Defined.

End RootNamesSamples.
